(** * Batch PDF conversion orchestrator (pdf_processor.js)

    A shallow embedding of [src/pdf_processor.js]: the process executor
    [spawnCommand], the output path rewriter [replaceImagePaths], the
    single-document converter [processPdf], the batch orchestrator
    [processAllPdfs] and the command-line entry point.

    Strings are sequences of characters ([string]); the program looks
    only at ASCII characters, so a character stands for a code unit of the
    JavaScript string.  Absolute, normalised paths are lists of components;
    the file system is an ordered list of nodes (the order is the
    directory-listing order); effects are threaded through a
    state-and-exception monad whose state holds the file system and the
    console output.  The converter [marker_single] is a parameter: a
    function from the file system it finds to what the child process did
    and the file system it leaves. *)

From Stdlib Require Import Strings.String Strings.Ascii Lists.List.
From Stdlib Require Import Arith.Arith ZArith.ZArith Bool.Bool Lia.
From Stdlib Require Import Sorting.Permutation.
Import ListNotations.

Local Open Scope string_scope.
Local Open Scope list_scope.
Local Open Scope nat_scope.

(* ================================================================= *)
(** ** Strings *)

(** [String.prototype.toLowerCase] on the ASCII letters, the only ones
    whose image can be a character of [".pdf"] or [".md"]. *)
Definition lower_char (c : ascii) : ascii :=
  let n := nat_of_ascii c in
  if (65 <=? n) && (n <=? 90) then ascii_of_nat (n + 32) else c.

Fixpoint toLowerCase (s : string) : string :=
  match s with
  | EmptyString => EmptyString
  | String c s' => String (lower_char c) (toLowerCase s')
  end.

(** [drop n s] is [s.slice(n)]. *)
Fixpoint drop (n : nat) (s : string) : string :=
  match n, s with
  | 0, _ => s
  | S n', String _ s' => drop n' s'
  | S _, EmptyString => EmptyString
  end.

(** [take n s] is [s.slice(0, n)]. *)
Fixpoint take (n : nat) (s : string) : string :=
  match n, s with
  | S n', String c s' => String c (take n' s')
  | _, _ => EmptyString
  end.

Definition ends_with (suffix s : string) : bool :=
  (String.length suffix <=? String.length s)
  && (drop (String.length s - String.length suffix) s =? suffix)%string.

(** Index of the last ["."] of a string. *)
Fixpoint last_dot (s : string) : option nat :=
  match s with
  | EmptyString => None
  | String c s' =>
      match last_dot s' with
      | Some i => Some (S i)
      | None => if (c =? ".")%char then Some 0 else None
      end
  end.

(** Does a character occur in a string? *)
Fixpoint has_char (c : ascii) (s : string) : bool :=
  match s with
  | EmptyString => false
  | String d s' => (d =? c)%char || has_char c s'
  end.

(** Do all the characters of [s] satisfy [p]? *)
Fixpoint all_chars (p : ascii -> bool) (s : string) : bool :=
  match s with
  | EmptyString => true
  | String c s' => p c && all_chars p s'
  end.

(** Does [pat] occur somewhere in [s]? *)
Fixpoint occurs (pat s : string) : bool :=
  match s with
  | EmptyString => prefix pat EmptyString
  | String _ s' => prefix pat s || occurs pat s'
  end.

(* ================================================================= *)
(** ** Node's [path] module, on one path component

    Directory entries and the last component of a joined path contain no
    separator; on such a name [path.extname] and [path.basename] of
    [path.posix] behave as follows. *)

(** [path.extname(name)]: from the last dot to the end; empty when there
    is no dot, when the last dot is the first character, and for [".."]. *)
Definition extname (name : string) : string :=
  match last_dot name with
  | None => ""
  | Some 0 => ""
  | Some i => if (name =? "..")%string then "" else drop i name
  end.

(** [path.basename(name, ext)]: [ext] is removed only when [name] ends
    with exactly [ext] (the comparison is case-sensitive); a name equal to
    [ext] gives the empty string. *)
Definition basename (name ext : string) : string :=
  if (0 <? String.length ext) && (String.length ext <=? String.length name) then
    if (name =? ext)%string then ""
    else if ends_with ext name
         then take (String.length name - String.length ext) name
         else name
  else name.

(** Absolute normalised paths. *)
Definition Path := list string.

(** [path.join(dir, name)] for a single component [name]: ["."] and the
    empty string stay in [dir], [".."] goes to the parent. *)
Definition path_join (dir : Path) (name : string) : Path :=
  if (name =? "")%string || (name =? ".")%string then dir
  else if (name =? "..")%string then removelast dir
  else dir ++ [name].

(** A name other than [""], ["."] and [".."]. *)
Definition plain (name : string) : bool :=
  negb ((name =? "")%string || (name =? ".")%string || (name =? "..")%string).

(** Splitting at ["/"]. *)
Fixpoint split_slash (acc : string) (s : string) : list string :=
  match s with
  | EmptyString => [acc]
  | String c s' =>
      if (c =? "/")%char then acc :: split_slash "" s'
      else split_slash (acc ++ String c "")%string s'
  end.

(** [path.resolve(p)] in working directory [cwd]. *)
Definition resolve (cwd : Path) (p : string) : Path :=
  let start := if prefix "/" p then [] else cwd in
  fold_left path_join (split_slash "" p) start.

(** The string form of an absolute path. *)
Definition render (p : Path) : string :=
  match p with
  | [] => "/"
  | _ => fold_right (fun c acc => ("/" ++ c ++ acc)%string) "" p
  end.

(** Last component of a path ([""] for the root). *)
Definition file_name (p : Path) : string := last p "".

(** [q] is [p] or lies under [p]. *)
Fixpoint is_under (p q : Path) : bool :=
  match p, q with
  | [], _ => true
  | a :: p', b :: q' => (a =? b)%string && is_under p' q'
  | _ :: _, [] => false
  end.

Definition path_eqb (p q : Path) : bool :=
  is_under p q && is_under q p.

(** [strip p q] is the rest of [q] after [p], when [q] is under [p]. *)
Fixpoint strip (p q : Path) : option Path :=
  match p, q with
  | [], _ => Some q
  | a :: p', b :: q' => if (a =? b)%string then strip p' q' else None
  | _ :: _, [] => None
  end.

(* ================================================================= *)
(** ** The rewriter's regular expression and replacement

    [/(_page[^)]+\.jpeg)/g] with the replacement pattern
    [`http://localhost:3000/${folderName}/$1`]. *)

(** Backtracking of the greedy [[^)]+] followed by [\.jpeg]:
    [last_jpeg r] is the largest [k] such that the first [k] characters
    of [r] are not [")"] and [".jpeg"] follows them. *)
Fixpoint last_jpeg (r : string) : option nat :=
  match r with
  | EmptyString => None
  | String c r' =>
      let here := if prefix ".jpeg" r then Some 0 else None in
      if (c =? ")")%char then here
      else match last_jpeg r' with
           | Some k => Some (S k)
           | None => here
           end
  end.

(** Length of the match of the regular expression at the start of [s],
    if it matches there: [_page], at least one character other than [")"],
    as many as possible, then [.jpeg]. *)
Definition match_here (s : string) : option nat :=
  if prefix "_page" s then
    match drop 5 s with
    | EmptyString => None
    | String c r' =>
        if (c =? ")")%char then None
        else match last_jpeg r' with
             | Some k => Some (5 + S k + 5)
             | None => None
             end
    end
  else None.

(** [x], found between [_page] and [.jpeg] with [r] after it, is as long
    as the greedy [[^)]+] can make it: no longer run of characters other
    than [")"] is followed by [.jpeg]. *)
Definition longest (x r : string) : Prop :=
  forall x' r' : string,
    (x ++ ".jpeg" ++ r)%string = (x' ++ ".jpeg" ++ r')%string ->
    has_char ")" x' = false ->
    String.length x' <= String.length x.

(** A page-image name, as the regular expression has it: [_page], one or
    more characters other than [")"], then [.jpeg]. *)
Definition page_image (m : string) : Prop :=
  exists x : string,
    m = ("_page" ++ x ++ ".jpeg")%string /\ x <> "" /\ has_char ")" x = false.

(** A page-image name stands at the start of [s]. *)
Definition starts_image (s : string) : Prop :=
  exists m r : string, s = (m ++ r)%string /\ page_image m.

(** No page-image name starts at a position of [a] when [rest] follows
    it. *)
Definition none_inside (a rest : string) : Prop :=
  forall a1 a2 : string,
    a = (a1 ++ a2)%string -> a2 <> "" -> ~ starts_image (a2 ++ rest).

(** The regular expression matches at no position of [a] when [rest]
    follows it. *)
Fixpoint no_match_in (a rest : string) : bool :=
  match a with
  | EmptyString => true
  | String c a' =>
      match match_here (a ++ rest) with
      | Some _ => false
      | None => no_match_in a' rest
      end
  end.

(** [GetSubstitution] for one capture group and no named groups:
    [$$] is a dollar, [$&] the match, [$`] the text before it, [$'] the
    text after it, [$1] and [$01] the capture; [$1d] for another digit [d]
    is the capture followed by [d]; everything else is literal. *)
Fixpoint expand (before matched after capture : string) (template : string)
  : string :=
  match template with
  | EmptyString => EmptyString
  | String c t =>
      if (c =? "$")%char then
        match t with
        | EmptyString => String c EmptyString
        | String d t' =>
            if (d =? "$")%char then
              String "$" (expand before matched after capture t')
            else if (d =? "&")%char then
              (matched ++ expand before matched after capture t')%string
            else if (d =? "`")%char then
              (before ++ expand before matched after capture t')%string
            else if (d =? "'")%char then
              (after ++ expand before matched after capture t')%string
            else if (d =? "1")%char then
              (capture ++ expand before matched after capture t')%string
            else if (d =? "0")%char then
              match t' with
              | String e t'' =>
                  if (e =? "1")%char then
                    (capture ++ expand before matched after capture t'')%string
                  else if (e =? "0")%char then
                    ("$00" ++ expand before matched after capture t'')%string
                  else ("$0" ++ expand before matched after capture t')%string
              | EmptyString => "$0"
              end
            else String c (expand before matched after capture t)
        end
      else String c (expand before matched after capture t)
  end.

(** [String.prototype.replace] with the global regular expression:
    [before] is the text already scanned, [skip] the number of characters
    of the current match still to pass over. *)
Fixpoint replace_loop (template : string) (before : string) (skip : nat)
  (s : string) : string :=
  match s with
  | EmptyString => EmptyString
  | String c s' =>
      match skip with
      | S k => replace_loop template (before ++ String c "")%string k s'
      | 0 =>
          match match_here s with
          | Some len =>
              (expand before (take len s) (drop len s) (take len s) template
               ++ replace_loop template (before ++ String c "") (len - 1) s')%string
          | None =>
              String c (replace_loop template (before ++ String c "")%string 0 s')
          end
      end
  end.

(** The content computed by [replaceImagePaths] (lines 58-59). *)
Definition replaceContent (folderName content : string) : string :=
  replace_loop ("http://localhost:3000/" ++ folderName ++ "/$1")%string "" 0 content.

(* ================================================================= *)
(** ** The file system

    An ordered list of nodes keyed by absolute path; the order of the list
    is the order in which [fs.readdirSync] lists a directory.  [readonly]
    holds the paths the process may neither overwrite nor remove. *)

Inductive node : Type :=
| File (content : string)
| Directory.

Record FS : Type := mkFS {
  nodes : list (Path * node);
  readonly : list Path
}.

Fixpoint lookup_node (l : list (Path * node)) (p : Path) : option node :=
  match l with
  | [] => None
  | (q, n) :: l' => if path_eqb q p then Some n else lookup_node l' p
  end.

Definition lookup (fs : FS) (p : Path) : option node :=
  lookup_node (nodes fs) p.

(** [fs.existsSync]. *)
Definition fs_exists (fs : FS) (p : Path) : bool :=
  match lookup fs p with Some _ => true | None => false end.

(** Names of the entries directly inside [p], in listing order. *)
Fixpoint entries (l : list (Path * node)) (p : Path) : list string :=
  match l with
  | [] => []
  | (q, _) :: l' =>
      match strip p q with
      | Some [name] => name :: entries l' p
      | _ => entries l' p
      end
  end.

(** Removal of [p] and of everything under it. *)
Definition remove_tree (fs : FS) (p : Path) : FS :=
  mkFS (filter (fun e => negb (is_under p (fst e))) (nodes fs)) (readonly fs).

Fixpoint set_content (l : list (Path * node)) (p : Path) (c : string)
  : list (Path * node) :=
  match l with
  | [] => [(p, File c)]
  | (q, n) :: l' =>
      if path_eqb q p then (q, File c) :: l' else (q, n) :: set_content l' p c
  end.

(** All the prefixes of [p] that are missing, as directories, parents
    first. *)
Fixpoint missing_dirs (fs : FS) (done : Path) (rest : Path)
  : list (Path * node) :=
  match rest with
  | [] => []
  | c :: rest' =>
      let d := done ++ [c] in
      (if fs_exists fs d then [] else [(d, Directory)])
      ++ missing_dirs fs d rest'
  end.

(** Is some proper or improper prefix of [p] a regular file? *)
Fixpoint file_on_the_way (fs : FS) (done : Path) (rest : Path) : bool :=
  match rest with
  | [] => false
  | c :: rest' =>
      let d := done ++ [c] in
      match lookup fs d with
      | Some (File _) => true
      | _ => file_on_the_way fs d rest'
      end
  end.

(** Removal of the node at [p] alone. *)
Definition remove_node (fs : FS) (p : Path) : FS :=
  mkFS (filter (fun e => negb (path_eqb p (fst e))) (nodes fs)) (readonly fs).

(** The process may not remove [p]: [p] is protected or something
    protected lies under it. *)
Definition protected (fs : FS) (p : Path) : bool :=
  existsb (is_under p) (readonly fs).

(** The recursive removal of [fs.rmdirSync], entry by entry: the entries
    of a directory go first, in listing order, then the directory; the
    removal stops at the first node that cannot be removed.  The result
    tells whether everything went.  [depth] bounds the depth of the tree
    below [p]. *)
Fixpoint rimraf (depth : nat) (p : Path) (fs : FS) : bool * FS :=
  match depth with
  | 0 => (false, fs)
  | S d =>
      match lookup fs p with
      | None => (true, fs)
      | Some (File _) =>
          if protected fs p then (false, fs) else (true, remove_node fs p)
      | Some Directory =>
          let r :=
            fold_left
              (fun (acc : bool * FS) (child : string) =>
                 if fst acc then rimraf d (p ++ [child]) (snd acc) else acc)
              (entries (nodes fs) p) (true, fs) in
          if fst r then
            if protected (snd r) p then (false, snd r)
            else (true, remove_node (snd r) p)
          else r
      end
  end.

(** What a recursive removal of [p] that fails leaves: no branch of the
    tree is longer than the list of nodes. *)
Definition partly_removed (fs : FS) (p : Path) : FS :=
  snd (rimraf (S (length (nodes fs))) p fs).

(** May [fs.rmdirSync(p, { recursive: true })] remove [p]? *)
Definition deletable (fs : FS) (p : Path) : bool :=
  match lookup fs p with
  | Some Directory => negb (protected fs p)
  | _ => false
  end.

(** The file system after an attempt to remove [p]. *)
Definition cleaned (fs : FS) (p : Path) : FS :=
  match lookup fs p with
  | Some Directory =>
      if protected fs p then partly_removed fs p else remove_tree fs p
  | _ => fs
  end.

(* ================================================================= *)
(** ** Console output and child processes *)

(** One constructor per message of the program, plus the launch of a
    child process. *)
Inductive event : Type :=
| Spawned (command : string) (args : list string)
| LogExec (command : string) (args : list string)
| LogExitCode (code : option Z)
| LogSpawnError (message : string)
| LogUpdated (mdFilePath : Path)
| LogReplaceFailed (message : string)
| LogNoOutputFolder (outputFolderPath : Path)
| LogNoMarkdown (outputFolderPath : Path)
| LogFoundMarkdown (count : nat)
| LogMarkdownDone
| LogMarkdownError (message : string)
| LogSkip (pdfFileName : string)
| LogStart (pdfFileName : string)
| LogFailed (pdfFileName : string)
| LogDeleted (outputFolderPath : Path)
| LogDeleteFailed (outputFolderPath : Path) (message : string)
| LogSuccess (pdfFileName : string)
| LogException (pdfFileName : string) (message : string)
| LogNoInputDir (inputDir : Path)
| LogCreatedOutputDir (outputDir : Path)
| LogNoPdf
| LogFoundPdf (count : nat)
| LogAllDone
| LogSummary (successCount skipCount failCount : nat)
| LogRunError (message : string)
| LogUsage.

(** What the child process does first: it closes with an exit code
    ([None] when a signal ended it), or it emits [error] because it could
    not be launched; [errno] is the negative error number of the failure
    ([-2] for a missing command), which the [close] event that follows the
    [error] event gives as the exit code.  The promise of [spawnCommand]
    settles on this first event; the chunks the child writes are copied to
    the console of the parent as they come and are not part of the
    model. *)
Inductive child_result : Type :=
| Close (code : option Z)
| Error (errno : Z) (message : string).

(** The operating system runs a command on a file system and gives what
    the child did and the file system it leaves. *)
Definition OS : Type := string -> list string -> FS -> child_result * FS.

(* ================================================================= *)
(** ** State and exceptions *)

(** [console] holds the lines printed so far, in order.  [pending] holds
    the error numbers of the children that could not be launched and whose
    [close] event is still to come: it comes after the [error] event, when
    the promise is settled already, and its handler runs when the event
    loop next waits. *)
Record World : Type := mkWorld {
  files : FS;
  console : list event;
  pending : list Z
}.

Inductive outcome (A : Type) : Type :=
| Return (a : A)
| Throw (message : string).
Arguments Return {A} a.
Arguments Throw {A} message.

Definition M (A : Type) : Type := World -> outcome A * World.

Definition ret {A} (a : A) : M A := fun w => (Return a, w).

Definition throw {A} (message : string) : M A := fun w => (Throw message, w).

Definition bind {A B} (m : M A) (k : A -> M B) : M B :=
  fun w =>
    match m w with
    | (Return a, w') => k a w'
    | (Throw e, w') => (Throw e, w')
    end.

(** [try { m } catch (error) { handler error }]: the effects of [m] up to
    the exception stay. *)
Definition try_catch {A} (m : M A) (handler : string -> M A) : M A :=
  fun w =>
    match m w with
    | (Return a, w') => (Return a, w')
    | (Throw e, w') => handler e w'
    end.

Declare Scope monad_scope.
Delimit Scope monad_scope with monad.
Notation "x <- m ;; k" := (bind m (fun x => k))
  (at level 61, m at next level, right associativity) : monad_scope.
Notation "m ;; k" := (bind m (fun _ => k))
  (at level 61, right associativity) : monad_scope.
Local Open Scope monad_scope.

Definition log (e : event) : M unit :=
  fun w => (Return tt, mkWorld (files w) (console w ++ [e]) (pending w)).

(** The line of the [close] handler (lines 28-35): none for the code 0. *)
Definition closeLine (code : option Z) : list event :=
  match code with
  | Some 0%Z => []
  | _ => [LogExitCode code]
  end.

(** The [close] event of a child that could not be launched is queued;
    its code is the error number. *)
Definition defer (errno : Z) : M unit :=
  fun w => (Return tt, mkWorld (files w) (console w) (pending w ++ [errno])).

(** The lines that the queued [close] handlers print when they run. *)
Definition queued (w : World) : list event :=
  flat_map (fun errno => closeLine (Some errno)) (pending w).

(** The world when the process ends: the event loop has run every
    handler that was queued. *)
Definition atExit (w : World) : World :=
  mkWorld (files w) (console w ++ queued w) [].

Definition existsSync (p : Path) : M bool :=
  fun w => (Return (fs_exists (files w) p), w).

(** [fs.readdirSync(p)].  Every directory of the model can be listed:
    the call fails on a missing path and on a regular file only. *)
Definition readdirSync (p : Path) : M (list string) :=
  fun w =>
    match lookup (files w) p with
    | Some Directory => (Return (entries (nodes (files w)) p), w)
    | Some (File _) => (Throw "ENOTDIR", w)
    | None => (Throw "ENOENT", w)
    end.

(** [fs.readFileSync(p, 'utf8')]. *)
Definition readFileSync (p : Path) : M string :=
  fun w =>
    match lookup (files w) p with
    | Some (File c) => (Return c, w)
    | Some Directory => (Throw "EISDIR", w)
    | None => (Throw "ENOENT", w)
    end.

(** [fs.writeFileSync(p, content, 'utf8')]. *)
Definition writeFileSync (p : Path) (content : string) : M unit :=
  fun w =>
    let fs := files w in
    match lookup fs p with
    | Some Directory => (Throw "EISDIR", w)
    | Some (File _) =>
        if existsb (path_eqb p) (readonly fs) then (Throw "EACCES", w)
        else (Return tt,
              mkWorld (mkFS (set_content (nodes fs) p content) (readonly fs))
                      (console w) (pending w))
    | None =>
        match lookup fs (removelast p) with
        | Some Directory =>
            if existsb (path_eqb (removelast p)) (readonly fs)
            then (Throw "EACCES", w)
            else (Return tt,
                  mkWorld (mkFS (set_content (nodes fs) p content)
                                (readonly fs))
                          (console w) (pending w))
        | _ => (Throw "ENOENT", w)
        end
    end.

(** [fs.mkdirSync(p, { recursive: true })]. *)
Definition mkdirSync (p : Path) : M unit :=
  fun w =>
    let fs := files w in
    if file_on_the_way fs [] p then (Throw "ENOTDIR", w)
    else if existsb (fun r => is_under r p) (readonly fs)
    then (Throw "EACCES", w)
    else (Return tt,
          mkWorld (mkFS (nodes fs ++ missing_dirs fs [] p) (readonly fs))
                  (console w) (pending w)).

(** [fs.rmdirSync(p, { recursive: true })]: without a protected path
    under [p] the whole tree goes; with one, the entries are removed one by
    one up to the first that cannot be, and the call fails with what is
    left. *)
Definition rmdirSync (p : Path) : M unit :=
  fun w =>
    let fs := files w in
    match lookup fs p with
    | None => (Throw "ENOENT", w)
    | Some (File _) => (Throw "ENOTDIR", w)
    | Some Directory =>
        if protected fs p
        then (Throw "EACCES",
              mkWorld (partly_removed fs p) (console w) (pending w))
        else (Return tt,
              mkWorld (remove_tree fs p) (console w) (pending w))
    end.

(* ================================================================= *)
(** ** The program *)

(** The child processes a console output shows to have been launched. *)
Definition launches (l : list event) : list (string * list string) :=
  flat_map (fun e => match e with
                     | Spawned command args => [(command, args)]
                     | _ => []
                     end) l.

(** Exit with code 0. *)
Definition succeeded (r : child_result) : bool :=
  match r with
  | Close (Some 0%Z) => true
  | _ => false
  end.

(** The output folder of an entry of the input directory (lines
    225-226). *)
Definition outputFolder (outputDir : Path) (pdfFile : string) : Path :=
  path_join outputDir (basename pdfFile ".pdf").

(** [path.basename(pdfPath, '.pdf')] for an absolute path (line 120): the
    suffix [.pdf] is taken from the last component, but a last component
    that is exactly [.pdf] stays whole, since only a path that is equal to
    the suffix gives the empty string. *)
Definition pdfKey (pdfPath : Path) : string :=
  let name := file_name pdfPath in
  if (name =? ".pdf")%string then name else basename name ".pdf".

(** The output folder that [processPdf] tests, fills and removes (line
    122). *)
Definition folderOf (outputDir pdfPath : Path) : Path :=
  path_join outputDir (pdfKey pdfPath).

(** The arguments of the converter (lines 138-142). *)
Definition converterArgs (pdfPath outputDir : Path) : list string :=
  [render pdfPath; "--output_dir"; render outputDir].

(** Run counters of [processAllPdfs] (lines 218-220). *)
Record counts : Type := mkCounts {
  successCount : nat;
  skipCount : nat;
  failCount : nat
}.

Definition total (c : counts) : nat :=
  successCount c + skipCount c + failCount c.

(** The filter of line 208. *)
Definition is_pdf (file : string) : bool :=
  (toLowerCase (extname file) =? ".pdf")%string.

(** The filter of line 89. *)
Definition is_md (file : string) : bool :=
  (toLowerCase (extname file) =? ".md")%string.

(** The candidates of a run: the entries of the input directory that
    pass the filter, in listing order (lines 205-208). *)
Definition candidates (fs : FS) (absoluteInputDir : Path) : list string :=
  filter is_pdf (entries (nodes fs) absoluteInputDir).

(** A document whose output folder exists. *)
Definition skippedDoc (fs : FS) (absoluteOutputDir : Path) (pdfFile : string)
  : bool :=
  fs_exists fs (outputFolder absoluteOutputDir pdfFile).

(** A document without output folder on which the converter fails. *)
Definition failedDoc (fs : FS) (absoluteOutputDir : Path)
  (fails : string -> bool) (pdfFile : string) : bool :=
  negb (skippedDoc fs absoluteOutputDir pdfFile) && fails pdfFile.

(** A document without output folder on which the converter succeeds. *)
Definition convertedDoc (fs : FS) (absoluteOutputDir : Path)
  (fails : string -> bool) (pdfFile : string) : bool :=
  negb (skippedDoc fs absoluteOutputDir pdfFile) && negb (fails pdfFile).

Definition count (p : string -> bool) (l : list string) : nat :=
  length (filter p l).

Section Program.

(** Working directory of the process and behaviour of the operating
    system when a command is launched. *)
Variable cwd : Path.
Variable os : OS.

(** [spawn(command, args, { shell: false })] up to the first of the
    [close] and [error] events.  While the program waits for a child that
    runs, the handlers queued before run; the [error] event of a child that
    could not be launched comes before them. *)
Definition runChild (command : string) (args : list string)
  : M child_result :=
  fun w =>
    let (r, fs') := os command args (files w) in
    match r with
    | Close _ =>
        (Return r,
         mkWorld fs' ((console w ++ [Spawned command args]) ++ queued w) [])
    | Error _ _ =>
        (Return r,
         mkWorld fs' (console w ++ [Spawned command args]) (pending w))
    end.

(** The world the child leaves: the command line is logged, then the
    child runs. *)
Definition after_child (command : string) (args : list string) (w : World)
  : World :=
  let r := os command args (files w) in
  mkWorld (snd r)
    (((console w ++ [LogExec command args]) ++ [Spawned command args])
     ++ match fst r with Close _ => queued w | Error _ _ => [] end)
    (match fst r with Close _ => [] | Error _ _ => pending w end).

(** Lines 11-44.  The promise resolves ([Return]) or rejects
    ([Throw]).  After an [error] event the [close] event still comes, with
    the error number as the code: its handler prints the line of the exit
    code, and its [resolve(false)] finds the promise rejected. *)
Definition spawnCommand (command : string) (args : list string) : M bool :=
  log (LogExec command args) ;;
  r <- runChild command args ;;
  match r with
  | Close code =>
      match code with
      | Some 0%Z => ret true
      | _ => log (LogExitCode code) ;; ret false
      end
  | Error errno message =>
      log (LogSpawnError message) ;;
      defer errno ;;
      throw message
  end.

(** Lines 52-69. *)
Definition replaceImagePaths (mdFilePath : Path) (folderName : string)
  : M bool :=
  try_catch
    (content <- readFileSync mdFilePath ;;
     writeFileSync mdFilePath (replaceContent folderName content) ;;
     log (LogUpdated mdFilePath) ;;
     ret true)
    (fun error => log (LogReplaceFailed error) ;; ret false).

(** The loop of lines 99-102. *)
Fixpoint replaceEach (outputFolderPath : Path) (folderName : string)
  (mdFiles : list string) : M unit :=
  match mdFiles with
  | [] => ret tt
  | mdFile :: rest =>
      _ <- replaceImagePaths (path_join outputFolderPath mdFile) folderName ;;
      replaceEach outputFolderPath folderName rest
  end.

(** Lines 77-110. *)
Definition processMarkdownFiles (outputFolderPath : Path)
  (folderName : string) : M bool :=
  try_catch
    (e <- existsSync outputFolderPath ;;
     if negb e then
       log (LogNoOutputFolder outputFolderPath) ;; ret false
     else
       files <- readdirSync outputFolderPath ;;
       let mdFiles := filter is_md files in
       if length mdFiles =? 0 then
         log (LogNoMarkdown outputFolderPath) ;; ret true
       else
         log (LogFoundMarkdown (length mdFiles)) ;;
         replaceEach outputFolderPath folderName mdFiles ;;
         log LogMarkdownDone ;;
         ret true)
    (fun error => log (LogMarkdownError error) ;; ret false).

(** The cleanup block, written twice in [processPdf] (lines 148-155 and
    169-176). *)
Definition removeOutputFolder (outputFolderPath : Path) : M unit :=
  e <- existsSync outputFolderPath ;;
  if e then
    try_catch
      (rmdirSync outputFolderPath ;; log (LogDeleted outputFolderPath))
      (fun deleteError => log (LogDeleteFailed outputFolderPath deleteError))
  else ret tt.

(** Lines 118-179.  Both paths are absolute, so [path.resolve] leaves
    them as they are. *)
Definition processPdf (pdfPath outputDir : Path) : M bool :=
  let pdfFileName := pdfKey pdfPath in
  let outputFolderPath := path_join outputDir pdfFileName in
  e <- existsSync outputFolderPath ;;
  if e then
    log (LogSkip pdfFileName) ;; ret true
  else
    try_catch
      (log (LogStart pdfFileName) ;;
       success <- spawnCommand "marker_single"
                    (converterArgs pdfPath outputDir) ;;
       if negb success then
         log (LogFailed pdfFileName) ;;
         removeOutputFolder outputFolderPath ;;
         ret false
       else
         log (LogSuccess pdfFileName) ;;
         _ <- processMarkdownFiles outputFolderPath pdfFileName ;;
         ret true)
      (fun error =>
         log (LogException pdfFileName error) ;;
         removeOutputFolder outputFolderPath ;;
         ret false).

(** The loop of lines 223-241. *)
Fixpoint processEach (absoluteInputDir absoluteOutputDir : Path)
  (pdfFiles : list string) (c : counts) : M counts :=
  match pdfFiles with
  | [] => ret c
  | pdfFile :: rest =>
      let pdfPath := path_join absoluteInputDir pdfFile in
      let pdfFileName := basename pdfFile ".pdf" in
      let outputFolderPath := path_join absoluteOutputDir pdfFileName in
      e <- existsSync outputFolderPath ;;
      if e then
        log (LogSkip pdfFileName) ;;
        processEach absoluteInputDir absoluteOutputDir rest
          (mkCounts (successCount c) (S (skipCount c)) (failCount c))
      else
        result <- processPdf pdfPath absoluteOutputDir ;;
        if result then
          processEach absoluteInputDir absoluteOutputDir rest
            (mkCounts (S (successCount c)) (skipCount c) (failCount c))
        else
          processEach absoluteInputDir absoluteOutputDir rest
            (mkCounts (successCount c) (skipCount c) (S (failCount c)))
  end.

(** Lines 198-202 of [processAllPdfs]. *)
Definition ensureOutputDir (absoluteOutputDir : Path) : M unit :=
  e <- existsSync absoluteOutputDir ;;
  if negb e then
    mkdirSync absoluteOutputDir ;;
    log (LogCreatedOutputDir absoluteOutputDir)
  else ret tt.

(** Lines 186-248. *)
Definition processAllPdfs (inputDir outputDir : string) : M unit :=
  try_catch
    (let absoluteInputDir := resolve cwd inputDir in
     let absoluteOutputDir := resolve cwd outputDir in
     e <- existsSync absoluteInputDir ;;
     if negb e then
       log (LogNoInputDir absoluteInputDir)
     else
       ensureOutputDir absoluteOutputDir ;;
       files <- readdirSync absoluteInputDir ;;
       let pdfFiles := filter is_pdf files in
       if length pdfFiles =? 0 then
         log LogNoPdf
       else
         log (LogFoundPdf (length pdfFiles)) ;;
         c <- processEach absoluteInputDir absoluteOutputDir pdfFiles
                (mkCounts 0 0 0) ;;
         log LogAllDone ;;
         log (LogSummary (successCount c) (skipCount c) (failCount c)))
    (fun error => log (LogRunError error)).

(** Lines 251-261: [args] is [process.argv.slice(2)]; the result is the
    exit status of the process and the world when the process has ended.
    [process.exit(1)] ends the process at once; otherwise it ends by itself
    once the promise of [processAllPdfs] has settled and the handlers still
    queued have run ([atExit]), with status 0 if the promise resolved and 1
    if it rejected. *)
Definition main (args : list string) (w : World) : nat * World :=
  if length args <? 2 then
    (1, snd (log LogUsage w))
  else
    let inputDir := nth 0 args "" in
    let outputDir := nth 1 args "" in
    match processAllPdfs inputDir outputDir w with
    | (Return _, w') => (0, atExit w')
    | (Throw _, w') => (1, atExit w')
    end.

End Program.

(* ================================================================= *)
(** ** Sample converters and file systems

    Stand-ins for [marker_single], used to run the program on concrete
    inputs. *)

(** The name of a file without its extension, as the converter names the
    folder it creates. *)
Definition stem (name : string) : string :=
  take (String.length name - String.length (extname name)) name.

(** A converter that writes the folder of the document and one Markdown
    file in it, then exits with 1 when [fails] holds of the file name (the
    Markdown file is not written then) and with 0 otherwise. *)
Definition marker (fails : string -> bool) : OS :=
  fun command args fs =>
    match args with
    | [pdf; _; out] =>
        let name := file_name (resolve [] pdf) in
        let folder := resolve [] out ++ [stem name] in
        let md := folder ++ [(stem name ++ ".md")%string] in
        if fails name then
          (Close (Some 1%Z),
           mkFS (nodes fs ++ [(folder, Directory)]) (readonly fs))
        else
          (Close (Some 0%Z),
           mkFS (nodes fs ++ [(folder, Directory);
                              (md, File "![alt](_page_3.jpeg)")])
                (readonly fs))
    | _ => (Close (Some 2%Z), fs)
    end.

(** A converter that cannot be launched. *)
Definition marker_missing : OS :=
  fun command args fs => (Error (-2) "spawn marker_single ENOENT", fs).

Definition fails_bad (name : string) : bool := prefix "bad" name.

Definition never (name : string) : bool := false.

Definition always (name : string) : bool := true.

(** An input directory [/in] with three documents, one of them already
    converted in [/out]. *)
Definition sample_fs : FS :=
  mkFS [ ([], Directory);
         (["in"], Directory);
         (["in"; "a.pdf"], File "%PDF");
         (["in"; "bad.pdf"], File "%PDF");
         (["in"; "notes.txt"], File "n");
         (["in"; "c.pdf"], File "%PDF");
         (["out"], Directory);
         (["out"; "c"], Directory) ]
       [].

(** An input directory with one document and no output directory. *)
Definition one_fs : FS :=
  mkFS [ ([], Directory);
         (["in"], Directory);
         (["in"; "report.pdf"], File "%PDF") ]
       [].

(** An input directory with one document whose extension is in upper
    case. *)
Definition upper_fs : FS :=
  mkFS [ ([], Directory);
         (["in"], Directory);
         (["in"; "report.PDF"], File "%PDF") ]
       [].

(** An input directory without any document. *)
Definition empty_fs : FS :=
  mkFS [ ([], Directory); (["in"], Directory); (["out"], Directory) ] [].

(** A file system without the input directory. *)
Definition no_input_fs : FS :=
  mkFS [ ([], Directory); (["out"], Directory) ] [].

(** One document; its output folder, once the converter has made it,
    cannot be removed; the folder of another document is there. *)
Definition locked_fs : FS :=
  mkFS [ ([], Directory);
         (["in"], Directory);
         (["in"; "report.pdf"], File "%PDF");
         (["out"], Directory);
         (["out"; "other"], Directory);
         (["out"; "other"; "other.md"], File "x") ]
       [["out"; "report"]].

Definition start (fs : FS) : World := mkWorld fs [] [].

(** [subseq l1 l2]: [l1] is [l2] with some elements left out, the others
    in their order. *)
Inductive subseq {A : Type} : list A -> list A -> Prop :=
| subseq_nil : subseq [] []
| subseq_skip (x : A) (l1 l2 : list A) :
    subseq l1 l2 -> subseq l1 (x :: l2)
| subseq_take (x : A) (l1 l2 : list A) :
    subseq l1 l2 -> subseq (x :: l1) (x :: l2).

(** The launch of the converter for an entry of the input directory
    (lines 224 and 138-142). *)
Definition launchOf (absoluteInputDir absoluteOutputDir : Path)
  (pdfFile : string) : string * list string :=
  ("marker_single",
   converterArgs (path_join absoluteInputDir pdfFile) absoluteOutputDir).

(* ================================================================= *)
(** ** The static content server (server script and config.js)

    The server that serves the output tree: its configuration, the
    resolution of a request path to a file, the directory listing and the
    choice of the content type.  A page is kept as a value, not as HTML
    text; the Markdown renderer is a parameter. *)

Module Server.

(** config.js, lines 41-46. *)
Record CorsConfig : Type := mkCors {
  enabled : bool;
  allowOrigin : string;
  allowMethods : string;
  allowHeaders : string
}.

(** config.js, lines 4-47. *)
Record Config : Type := mkConfig {
  port : nat;
  defaultDir : string;
  mimeTypes : list (string * string);
  imageExtensions : list string;
  enableDirectoryListing : bool;
  renderMarkdownEnabled : bool;
  cacheControl : string;
  cors : CorsConfig
}.

Definition config : Config :=
  mkConfig 3000 "./output"
    [ (".html", "text/html"); (".css", "text/css");
      (".js", "application/javascript"); (".json", "application/json");
      (".png", "image/png"); (".jpg", "image/jpeg"); (".jpeg", "image/jpeg");
      (".gif", "image/gif"); (".svg", "image/svg+xml");
      (".ico", "image/x-icon"); (".md", "text/markdown");
      (".pdf", "application/pdf"); (".txt", "text/plain") ]
    [".png"; ".jpg"; ".jpeg"; ".gif"; ".svg"]
    true true "max-age=3600"
    (mkCors true "*" "GET, HEAD, OPTIONS" "Content-Type").

(** [table[key]] for a key that is empty or begins with a dot, so that it
    names no inherited property. *)
Fixpoint property (table : list (string * string)) (key : string)
  : option string :=
  match table with
  | [] => None
  | (k, v) :: rest => if (k =? key)%string then Some v else property rest key
  end.

(** [Array.prototype.includes]. *)
Definition includes (l : list string) (x : string) : bool :=
  existsb (fun y => (y =? x)%string) l.

(** The segments of a path string. *)
Definition segments (p : string) : list string := split_slash "" p.

(** One step of [normalizeString] of Node's [path]: empty segments and
    ["."] are dropped, [".."] removes the segment before it, or stays when
    there is none to remove and the path may go above its start. *)
Definition normalizeStep (allowAboveRoot : bool) (res : list string)
  (segment : string) : list string :=
  if (segment =? "")%string || (segment =? ".")%string then res
  else if (segment =? "..")%string then
    match res with
    | [] => if allowAboveRoot then [".."] else []
    | _ :: _ =>
        if (last res "" =? "..")%string
        then (if allowAboveRoot then res ++ [".."] else res)
        else removelast res
    end
  else res ++ [segment].

Definition normalizeString (allowAboveRoot : bool) (segs : list string)
  : list string :=
  fold_left (normalizeStep allowAboveRoot) segs [].

(** [path.normalize(p)] of [path.posix]. *)
Definition normalize (p : string) : string :=
  if (p =? "")%string then "."
  else
    let isAbsolute := prefix "/" p in
    let trailingSeparator := ends_with "/" p in
    let res :=
      String.concat "/" (normalizeString (negb isAbsolute) (segments p)) in
    if (res =? "")%string then
      if isAbsolute then "/" else if trailingSeparator then "./" else "."
    else
      ((if isAbsolute then "/" else "") ++ res
       ++ (if trailingSeparator then "/" else ""))%string.

(** [path.join(a, b)] of [path.posix]. *)
Definition join (a b : string) : string :=
  if (a =? "")%string then
    if (b =? "")%string then "." else normalize b
  else if (b =? "")%string then normalize a
  else normalize (a ++ "/" ++ b).

Definition backslash : ascii := ascii_of_nat 92.

(** [s.replace(/^(\.\.[\/\\])+/, '')] (line 34). *)
Fixpoint stripParents (s : string) : string :=
  match s with
  | String c1 (String c2 (String c3 rest)) =>
      if (c1 =? ".")%char && (c2 =? ".")%char
         && ((c3 =? "/")%char || (c3 =? backslash)%char)
      then stripParents rest
      else s
  | _ => s
  end.

(** The path, in the file system, that an absolute normalised path string
    names. *)
Definition toPath (p : string) : Path :=
  filter (fun c => negb (c =? "")%string) (segments p).

(** [ROOT_DIR] (line 9): [arg] is [process.argv[2]]. *)
Definition ROOT_DIR (cwd : Path) (arg : option string) : Path :=
  resolve cwd match arg with
              | Some a => if (a =? "")%string then defaultDir config else a
              | None => defaultDir config
              end.

(** What [fs.stat] gives. *)
Inductive stats : Type :=
| IsDirectory
| IsFile
| StatError (code : string).

(** [fs.stat(p)] for an absolute normalised path string: a file cannot
    be a directory on the way, nor be named with a final separator. *)
Definition stat (fs : FS) (p : string) : stats :=
  let q := toPath p in
  if file_on_the_way fs [] (removelast q) then StatError "ENOTDIR"
  else
    match lookup fs q with
    | None => StatError "ENOENT"
    | Some Directory => IsDirectory
    | Some (File _) =>
        if ends_with "/" p then StatError "ENOTDIR" else IsFile
    end.

(** An entry of [fs.readdir(p, { withFileTypes: true })]. *)
Record Dirent : Type := mkDirent {
  name : string;
  isDirectory : bool
}.

Definition readdir (fs : FS) (p : Path) : list Dirent :=
  map (fun n => mkDirent n
                  match lookup fs (p ++ [n]) with
                  | Some Directory => true
                  | _ => false
                  end)
      (entries (nodes fs) p).

(** A line of the listing (lines 127-133): target, class and text of the
    link. *)
Record Item : Type := mkItem {
  href : string;
  class : string;
  label : string
}.

(** The pages the server sends. *)
Inductive page : Type :=
| Empty
| NotFound (pathname : string)
| ServerError (message : string)
| Forbidden
| Listing (title heading : string) (back : option string)
    (items : list Item)
| Rendered (html : string)
| Content (data : string).

Record response : Type := mkResponse {
  status : nat;
  headers : list (string * string);
  body : page
}.

(** The four arrays of lines 116-119. *)
Record groups : Type := mkGroups {
  directories : list Item;
  markdownFiles : list Item;
  imageFiles : list Item;
  otherFiles : list Item
}.

(** The body of [files.forEach] (lines 121-135). *)
Definition pushEntry (cfg : Config) (urlPath : string) (g : groups)
  (file : Dirent) : groups :=
  let fileName := name file in
  let filePath := join urlPath fileName in
  let fileExt := toLowerCase (extname fileName) in
  if isDirectory file then
    mkGroups (directories g ++ [mkItem filePath "directory" fileName])
      (markdownFiles g) (imageFiles g) (otherFiles g)
  else if (fileExt =? ".md")%string then
    mkGroups (directories g)
      (markdownFiles g ++ [mkItem filePath "markdown" fileName])
      (imageFiles g) (otherFiles g)
  else if includes (imageExtensions cfg) fileExt then
    mkGroups (directories g) (markdownFiles g)
      (imageFiles g ++ [mkItem filePath "image" fileName]) (otherFiles g)
  else
    mkGroups (directories g) (markdownFiles g) (imageFiles g)
      (otherFiles g ++ [mkItem filePath "file" fileName]).

(** [urlPath.split('/').slice(0, -1).join('/') || '/'] (line 111). *)
Definition parentPath (urlPath : string) : string :=
  let p := String.concat "/" (removelast (segments urlPath)) in
  if (p =? "")%string then "/" else p.

Definition htmlType : string * string :=
  ("Content-Type", "text/html; charset=utf-8").

(** Lines 73-154: [sent] holds the headers set before.  The message of
    an error stands for the text of the error page. *)
Definition handleDirectory (cfg : Config) (fs : FS) (dirPath : string)
  (urlPath : string) (sent : list (string * string)) : response :=
  match lookup fs (toPath dirPath) with
  | Some Directory =>
      let g := fold_left (pushEntry cfg urlPath) (readdir fs (toPath dirPath))
                 (mkGroups [] [] [] []) in
      mkResponse 200
        (sent ++ [htmlType; ("Cache-Control", cacheControl cfg)])
        (Listing urlPath
           (if (urlPath =? "")%string then "/" else urlPath)
           (if (urlPath =? "/")%string then None
            else Some (parentPath urlPath))
           (directories g ++ markdownFiles g ++ imageFiles g
            ++ otherFiles g))
  | Some (File _) => mkResponse 500 (sent ++ [htmlType]) (ServerError "ENOTDIR")
  | None => mkResponse 500 (sent ++ [htmlType]) (ServerError "ENOENT")
  end.

(** The characters that [url.parse] and [decodeURIComponent] leave as
    they are wherever they stand in a path: the letters and digits of
    ASCII, [-], [.], [_], [~] and the separator. *)
Definition url_plain (c : ascii) : bool :=
  let n := nat_of_ascii c in
  ((65 <=? n) && (n <=? 90)) || ((97 <=? n) && (n <=? 122))
  || ((48 <=? n) && (n <=? 57))
  || (c =? "-")%char || (c =? ".")%char || (c =? "_")%char
  || (c =? "~")%char || (c =? "/")%char.

(** Lines 30-31, [decodeURIComponent(url.parse(req.url, true).pathname)],
    for a request target that begins with ["/"] and is made of such
    characters only: it has no query, no fragment and no escape, and the
    decoded path is the target itself.  The other targets are not
    modelled. *)
Definition decodedPath (target : string) : option string :=
  if prefix "/" target && all_chars url_plain target then Some target
  else None.

Section Handler.

(** The configuration, the root of the served tree and the Markdown
    renderer of lines 209-311. *)
Variable cfg : Config.
Variable root : Path.
Variable renderMarkdown : string -> string -> string.

(** Lines 161-201.  A Markdown file that cannot be read gives an error
    page; for another file the headers of the answer are written before
    the stream is read, so that the error handler of the stream, which
    writes them again, throws. *)
Definition handleFile (fs : FS) (filePath : string)
  (sent : list (string * string)) : outcome response :=
  let ext := toLowerCase (extname (file_name (toPath filePath))) in
  if (ext =? ".md")%string && renderMarkdownEnabled cfg then
    match lookup fs (toPath filePath) with
    | Some (File data) =>
        Return (mkResponse 200
                  (sent ++ [htmlType; ("Cache-Control", cacheControl cfg)])
                  (Rendered (renderMarkdown data filePath)))
    | Some Directory =>
        Return (mkResponse 500 (sent ++ [htmlType]) (ServerError "EISDIR"))
    | None =>
        Return (mkResponse 500 (sent ++ [htmlType]) (ServerError "ENOENT"))
    end
  else
    let contentType :=
      match property (mimeTypes cfg) ext with
      | Some t => t
      | None => "application/octet-stream"
      end in
    match lookup fs (toPath filePath) with
    | Some (File data) =>
        Return (mkResponse 200
                  (sent ++ [("Content-Type", contentType);
                            ("Cache-Control", cacheControl cfg)])
                  (Content data))
    | _ => Throw "ERR_HTTP_HEADERS_SENT"
    end.

(** The file path of line 35, from the decoded path of the request. *)
Definition requestedFile (pathname : string) : string :=
  let safePath := stripParents (normalize pathname) in
  join (render root) safePath.

(** Lines 14-65: [method] is [req.method], [pathname] the decoded path of
    line 31.  [fs.stat] throws on a path with a null character; the code of
    an error stands for its message. *)
Definition handleRequest (fs : FS) (method pathname : string)
  : outcome response :=
  let sent :=
    if enabled (cors cfg) then
      [ ("Access-Control-Allow-Origin", allowOrigin (cors cfg));
        ("Access-Control-Allow-Methods", allowMethods (cors cfg));
        ("Access-Control-Allow-Headers", allowHeaders (cors cfg)) ]
    else [] in
  if enabled (cors cfg) && (method =? "OPTIONS")%string then
    Return (mkResponse 204 sent Empty)
  else
    let filePath := requestedFile pathname in
    if has_char zero filePath then Throw "ERR_INVALID_ARG_VALUE"
    else
      match stat fs filePath with
      | StatError code =>
          if (code =? "ENOENT")%string then
            Return (mkResponse 404 (sent ++ [htmlType]) (NotFound pathname))
          else
            Return (mkResponse 500 (sent ++ [htmlType]) (ServerError code))
      | IsDirectory =>
          if enableDirectoryListing cfg then
            Return (handleDirectory cfg fs filePath pathname sent)
          else
            Return (mkResponse 403 (sent ++ [htmlType]) Forbidden)
      | IsFile => handleFile fs filePath sent
      end.

End Handler.

End Server.

(** A path component as [path.resolve] gives them: not empty, not ["."]
    or [".."], without separator. *)
Definition clean (c : string) : bool :=
  plain c && negb (has_char "/" c).

(** The class of the link of an entry, as the tests of lines 126-134
    choose it. *)
Definition classOf (cfg : Server.Config) (file : Server.Dirent) : string :=
  if Server.isDirectory file then "directory"
  else if (toLowerCase (extname (Server.name file)) =? ".md")%string
  then "markdown"
  else if Server.includes (Server.imageExtensions cfg)
            (toLowerCase (extname (Server.name file)))
  then "image"
  else "file".

(** The line of the listing for an entry. *)
Definition itemOf (cfg : Server.Config) (urlPath : string)
  (file : Server.Dirent) : Server.Item :=
  Server.mkItem (Server.join urlPath (Server.name file)) (classOf cfg file)
    (Server.name file).

(** The entries of one class, in their order. *)
Definition ofClass (cfg : Server.Config) (c : string)
  (es : list Server.Dirent) : list Server.Dirent :=
  filter (fun f => (classOf cfg f =? c)%string) es.

(** The output tree after the conversion of [report.pdf]: the folder of
    the document with two Markdown files, a page image, another image, a
    folder and another file. *)
Definition served_fs : FS :=
  mkFS [ ([], Directory);
         (["out"], Directory);
         (["out"; "report"], Directory);
         (["out"; "report"; "z.bin"], File "b");
         (["out"; "report"; "report.md"], File "![](_page_3.jpeg)");
         (["out"; "report"; "_page_3.jpeg"], File "JPEG");
         (["out"; "report"; "sub"], Directory);
         (["out"; "report"; "notes.MD"], File "n");
         (["out"; "report"; "a.png"], File "PNG") ]
       [].

(** A renderer that leaves the text as it is. *)
Definition plainRenderer (markdown filePath : string) : string := markdown.

(** The first lines of an attempted conversion (lines 131-142): the
    document is announced, the command line is printed and the converter is
    launched. *)
Definition attemptLines (pdfPath outputDir : Path) : list event :=
  [ LogStart (pdfKey pdfPath);
    LogExec "marker_single" (converterArgs pdfPath outputDir);
    Spawned "marker_single" (converterArgs pdfPath outputDir) ].

(** What the batch loop prints for one entry of the input directory
    (lines 224-240): the line of a skipped document, or the first lines of
    an attempted conversion followed by what the conversion prints. *)
Definition entryLines (absoluteInputDir absoluteOutputDir : Path)
  (pdfFile : string) (lines : list event) : Prop :=
  lines = [LogSkip (basename pdfFile ".pdf")]
  \/ exists rest,
       lines
       = attemptLines (path_join absoluteInputDir pdfFile) absoluteOutputDir
         ++ rest.

(** A line of the [close] handler. *)
Definition exitLine (e : event) : Prop :=
  exists code, e = LogExitCode code.

(** An input directory with [report.PDF], for which the converter has
    made the folder [report] before. *)
Definition upper_done_fs : FS :=
  mkFS [ ([], Directory);
         (["in"], Directory);
         (["in"; "report.PDF"], File "%PDF");
         (["out"], Directory);
         (["out"; "report"], Directory) ]
       [].

(** The document has an output folder: the output directory joined with
    the document key, the file name without its extension. *)
Definition hasFolder (fs : FS) (absoluteOutputDir : Path) (pdfFile : string)
  : bool :=
  fs_exists fs (path_join absoluteOutputDir (stem pdfFile)).

(* ================================================================= *)
(** * Properties *)

(** ** Strings *)

Lemma append_assoc (a b c : string) :
  ((a ++ b) ++ c = a ++ (b ++ c))%string.
Proof. induction a as [|x a IH]; simpl; [reflexivity | now rewrite IH]. Qed.

Lemma append_empty_r (a : string) : (a ++ "")%string = a.
Proof. induction a as [|x a IH]; simpl; [reflexivity | now rewrite IH]. Qed.

Lemma length_append (a b : string) :
  String.length (a ++ b) = String.length a + String.length b.
Proof. induction a as [|x a IH]; simpl; [reflexivity | now rewrite IH]. Qed.

Lemma take_append (a b : string) : take (String.length a) (a ++ b) = a.
Proof. induction a as [|x a IH]; simpl; [now destruct b | now rewrite IH]. Qed.

Lemma drop_append (a b : string) : drop (String.length a) (a ++ b) = b.
Proof. induction a as [|x a IH]; simpl; [reflexivity | exact IH]. Qed.

Lemma take_drop (n : nat) (s : string) : (take n s ++ drop n s)%string = s.
Proof.
  revert s; induction n as [|n IH]; intros [|c s]; simpl; try reflexivity.
  now rewrite IH.
Qed.

Lemma length_drop (n : nat) (s : string) :
  String.length (drop n s) = String.length s - n.
Proof.
  revert s; induction n as [|n IH]; intros [|c s]; simpl; auto with arith.
Qed.

Lemma length_take (n : nat) (s : string) :
  n <= String.length s -> String.length (take n s) = n.
Proof.
  revert s; induction n as [|n IH]; intros [|c s]; simpl; intros H;
    try reflexivity; try lia.
  rewrite IH; [reflexivity | lia].
Qed.

Lemma has_char_append (c : ascii) (a b : string) :
  has_char c (a ++ b) = has_char c a || has_char c b.
Proof.
  induction a as [|x a IH]; simpl; [reflexivity|].
  rewrite IH. now rewrite orb_assoc.
Qed.

Lemma prefix_append (p s : string) : prefix p (p ++ s) = true.
Proof.
  induction p as [|x p IH]; simpl; [now destruct s|].
  destruct (ascii_dec x x); [exact IH | congruence].
Qed.

Lemma take_all (s : string) : take (String.length s) s = s.
Proof. induction s as [|c s IH]; simpl; [reflexivity | now rewrite IH]. Qed.

(** ** The document key (lines 120, 208 and 225) *)

Lemma last_dot_bound (s : string) (i : nat) :
  last_dot s = Some i -> i < String.length s.
Proof.
  revert i; induction s as [|c s IH]; simpl; intros i; [discriminate|].
  destruct (last_dot s) as [j|].
  - intros [= <-]. specialize (IH j eq_refl). lia.
  - destruct (c =? ".")%char; [intros [= <-]; lia | discriminate].
Qed.

(** A name with an extension is the name without it followed by it. *)
Lemma stem_extname (name : string) :
  (stem name ++ extname name)%string = name.
Proof.
  unfold stem, extname.
  destruct (last_dot name) as [[|i]|] eqn:E.
  - simpl. rewrite Nat.sub_0_r, append_empty_r. apply take_all.
  - destruct (name =? "..")%string eqn:D.
    + apply String.eqb_eq in D; subst; reflexivity.
    + apply last_dot_bound in E.
      rewrite length_drop.
      replace (String.length name - (String.length name - S i)) with (S i)
        by lia.
      apply take_drop.
  - simpl. rewrite Nat.sub_0_r, append_empty_r. apply take_all.
Qed.

(** When the extension is [.pdf] in lower case, the key is the file name
    without its extension. *)
Lemma key_of_lower_case_pdf (name : string) :
  extname name = ".pdf" -> basename name ".pdf" = stem name.
Proof.
  intros E. pose proof (stem_extname name) as HS. rewrite E in HS.
  unfold basename, stem. rewrite E.
  assert (L : String.length name = String.length (stem name) + 4)
    by (rewrite <- HS at 1; now rewrite length_append).
  assert (N : 4 < String.length name).
  { unfold extname in E.
    destruct (last_dot name) as [[|i]|] eqn:D; try discriminate.
    destruct (name =? "..")%string; [discriminate|].
    apply last_dot_bound in D.
    apply (f_equal String.length) in E. rewrite length_drop in E.
    change (String.length ".pdf") with 4 in E. lia. }
  change (String.length ".pdf") with 4.
  replace (0 <? 4) with true by reflexivity.
  replace (4 <=? String.length name) with true
    by (symmetry; apply Nat.leb_le; lia).
  cbv beta iota. simpl andb. cbv iota.
  destruct (name =? ".pdf")%string eqn:D.
  - apply String.eqb_eq in D. rewrite D in N. simpl in N. lia.
  - unfold ends_with.
    change (String.length ".pdf") with 4.
    replace (4 <=? String.length name) with true
      by (symmetry; apply Nat.leb_le; lia).
    replace (String.length name - 4)
      with (String.length (stem name)) by lia.
    rewrite <- HS at 2. rewrite drop_append. simpl.
    reflexivity.
Qed.

(** C2, at the failing input: a file named [report.PDF] passes the
    case-insensitive filter of the batch, but the key that names its output
    folder and goes to the rewriter is [report.PDF], the whole file name,
    and not [report], the name without its extension: [path.basename]
    removes the suffix [.pdf] in lower case only. *)
Theorem C2_upper_case_extension_kept :
  is_pdf "report.PDF" = true
  /\ basename "report.PDF" ".pdf" = "report.PDF"
  /\ stem "report.PDF" = "report"
  /\ console (snd (main [] (marker never) ["/in"; "/out"] (start upper_fs)))
     = [ LogCreatedOutputDir ["out"]; LogFoundPdf 1; LogStart "report.PDF";
         LogExec "marker_single" ["/in/report.PDF"; "--output_dir"; "/out"];
         Spawned "marker_single" ["/in/report.PDF"; "--output_dir"; "/out"];
         LogSuccess "report.PDF"; LogNoOutputFolder ["out"; "report.PDF"];
         LogAllDone; LogSummary 1 0 0 ].
Proof. repeat split; vm_compute; reflexivity. Qed.

(** ** The rewriter (lines 58-59) *)

Section Rewriter.

Variables before matched after capture : string.

Lemma expand_plain (p t : string) :
  has_char "$" p = false ->
  expand before matched after capture (p ++ t)
  = (p ++ expand before matched after capture t)%string.
Proof.
  induction p as [|c p IH]; simpl; intros H; [reflexivity|].
  apply orb_false_elim in H as [Hc Hp].
  rewrite Hc, (IH Hp). reflexivity.
Qed.

Lemma expand_url (folderName : string) :
  has_char "$" folderName = false ->
  expand before matched after capture
    ("http://localhost:3000/" ++ folderName ++ "/$1")
  = ("http://localhost:3000/" ++ folderName ++ "/" ++ capture)%string.
Proof.
  intros H.
  change ("http://localhost:3000/" ++ folderName ++ "/$1")%string
    with ("http://localhost:3000/" ++ (folderName ++ String "/" "$1"))%string.
  rewrite expand_plain by reflexivity.
  change (folderName ++ String "/" "$1")%string
    with (folderName ++ ("/" ++ "$1"))%string.
  rewrite expand_plain by exact H.
  rewrite expand_plain by reflexivity.
  simpl. now rewrite append_empty_r.
Qed.

End Rewriter.

Lemma replace_loop_skip (template u s before : string) :
  replace_loop template before (String.length u) (u ++ s)
  = replace_loop template (before ++ u) 0 s.
Proof.
  revert before; induction u as [|c u IH]; intros before; simpl.
  - now rewrite append_empty_r.
  - rewrite IH, append_assoc. reflexivity.
Qed.

(** With a key free of [$] the replacement does not depend on the text
    around the match. *)
Lemma replace_loop_before (folderName s b1 b2 : string) (skip : nat) :
  has_char "$" folderName = false ->
  replace_loop ("http://localhost:3000/" ++ folderName ++ "/$1") b1 skip s
  = replace_loop ("http://localhost:3000/" ++ folderName ++ "/$1") b2 skip s.
Proof.
  intros H. revert b1 b2 skip.
  induction s as [|c s IH]; intros b1 b2 skip; [reflexivity|].
  cbn [replace_loop]. destruct skip as [|k]; [|apply IH].
  destruct (match_here (String c s)) as [len|].
  - rewrite !expand_url by exact H. f_equal. apply IH.
  - f_equal. apply IH.
Qed.

Lemma match_here_no_page (s : string) :
  prefix "_page" s = false -> match_here s = None.
Proof. unfold match_here. now intros ->. Qed.

(** No match begins inside a text without [_page], whether the text ends
    there or [_] follows. *)
Lemma no_start (a rest : string) :
  a <> "" ->
  prefix "_page" a = false ->
  rest = "" \/ prefix "_" rest = true ->
  prefix "_page" (a ++ rest) = false.
Proof.
  intros Ha H Hrest.
  assert (R : rest = "" \/ exists r, rest = String "_" r).
  { destruct Hrest as [->|P]; [now left | right].
    destruct rest as [|c r]; [discriminate|]. cbn [prefix] in P.
    destruct (ascii_dec "_" c); [subst; now exists r | discriminate]. }
  clear Hrest.
  destruct a as [|c1 [|c2 [|c3 [|c4 [|c5 a]]]]]; [congruence| | | | |];
    cbn [prefix append] in *;
    repeat match goal with
           | |- context [ascii_dec ?x ?y] => destruct (ascii_dec x y)
           | H : context [ascii_dec ?x ?y] |- _ => destruct (ascii_dec x y)
           end;
    try reflexivity; try discriminate;
    destruct R as [->|[r ->]]; cbn [prefix append]; try reflexivity;
    repeat match goal with
           | |- context [ascii_dec ?x ?y] => destruct (ascii_dec x y)
           end; try reflexivity; try discriminate.
  all: destruct a; discriminate H.
Qed.

Lemma scan_plain (template a rest before : string) :
  occurs "_page" a = false ->
  rest = "" \/ prefix "_" rest = true ->
  replace_loop template before 0 (a ++ rest)
  = (a ++ replace_loop template (before ++ a) 0 rest)%string.
Proof.
  intros H Hrest. revert before.
  induction a as [|c a IH]; intros before.
  - simpl. now rewrite append_empty_r.
  - cbn [occurs] in H. apply orb_false_elim in H as [Hp Ho].
    change (String c a ++ rest)%string with (String c (a ++ rest)).
    cbn [replace_loop].
    rewrite match_here_no_page.
    + rewrite (IH Ho), append_assoc. reflexivity.
    + change (String c (a ++ rest)) with (String c a ++ rest)%string.
      apply no_start; [discriminate | exact Hp | exact Hrest].
Qed.

Lemma prefix_split (p s : string) :
  prefix p s = true -> s = (p ++ drop (String.length p) s)%string.
Proof.
  revert s; induction p as [|c p IH]; intros s H; [reflexivity|].
  destruct s as [|d s]; [discriminate|]. cbn [prefix] in H.
  destruct (ascii_dec c d) as [<-|]; [|discriminate].
  cbn [String.length drop append]. f_equal. now apply IH.
Qed.

(** What the backtracking finds is a run without [")"] followed by
    [.jpeg]. *)
Lemma last_jpeg_sound (u : string) (k : nat) :
  last_jpeg u = Some k ->
  exists y r,
    u = (y ++ ".jpeg" ++ r)%string
    /\ String.length y = k /\ has_char ")" y = false.
Proof.
  revert k; induction u as [|c u IH]; intros k H; [discriminate|].
  cbn [last_jpeg] in H.
  assert (Here : (if prefix ".jpeg" (String c u) then Some 0 else None)
                 = Some k ->
                 exists y r,
                   String c u = (y ++ ".jpeg" ++ r)%string
                   /\ String.length y = k /\ has_char ")" y = false).
  { destruct (prefix ".jpeg" (String c u)) eqn:P; [|discriminate].
    intros [= <-]. exists "", (drop 5 (String c u)).
    repeat split. exact (prefix_split ".jpeg" (String c u) P). }
  destruct (c =? ")")%char eqn:C; [now apply Here|].
  destruct (last_jpeg u) as [j|]; [|now apply Here].
  injection H as <-.
  destruct (IH j eq_refl) as (y & r & -> & <- & Hy).
  exists (String c y), r. repeat split.
  cbn [has_char]. now rewrite C, Hy.
Qed.

Lemma longest_tail (c : ascii) (x r : string) :
  (c =? ")")%char = false -> longest (String c x) r -> longest x r.
Proof.
  intros C L x' r' E Hx'.
  assert (H : String.length (String c x') <= String.length (String c x)).
  { apply (L (String c x') r').
    - change (String c (x ++ ".jpeg" ++ r) = String c (x' ++ ".jpeg" ++ r')).
      now rewrite E.
    - cbn [has_char]. now rewrite C, Hx'. }
  simpl in H. lia.
Qed.

Lemma last_jpeg_greedy (x r : string) :
  has_char ")" x = false ->
  longest x r ->
  last_jpeg (x ++ ".jpeg" ++ r) = Some (String.length x).
Proof.
  intros Hx L. induction x as [|c x IH].
  - change ("" ++ ".jpeg" ++ r)%string with (String "." ("jpeg" ++ r)).
    cbn [last_jpeg].
    change (String "." ("jpeg" ++ r)) with (".jpeg" ++ r)%string.
    rewrite prefix_append.
    replace ("." =? ")")%char with false by reflexivity.
    destruct (last_jpeg ("jpeg" ++ r)) as [k|] eqn:E; [|reflexivity].
    destruct (last_jpeg_sound _ _ E) as (y & r' & Eq & _ & Hy).
    assert (H : String.length (String "." y) <= String.length "").
    { apply (L (String "." y) r'); [|exact Hy].
      change (String "." ("jpeg" ++ r) = String "." (y ++ ".jpeg" ++ r')).
      f_equal. exact Eq. }
    simpl in H. lia.
  - cbn [has_char] in Hx. apply orb_false_elim in Hx as [Hc Hx].
    change (String c x ++ ".jpeg" ++ r)%string
      with (String c (x ++ ".jpeg" ++ r)).
    cbn [last_jpeg]. rewrite Hc.
    rewrite (IH Hx (longest_tail c x r Hc L)). reflexivity.
Qed.

(** A name that stands at the end of the text or before [")"] is as long
    as can be. *)
Lemma longest_before_paren (x r : string) :
  r = "" \/ prefix ")" r = true -> longest x r.
Proof.
  intros Hr.
  assert (R : r = "" \/ exists r0, r = String ")" r0).
  { destruct Hr as [->|P]; [now left | right].
    destruct r as [|c r]; [discriminate|]. cbn [prefix] in P.
    destruct (ascii_dec ")" c); [subst; now exists r | discriminate]. }
  clear Hr. induction x as [|c x IH]; intros x' r' E Hx'.
  - destruct x' as [|c1 x1]; [simpl; lia|]. exfalso.
    cbn [append] in E. injection E as <- E.
    destruct x1 as [|c2 x2]; cbn [append] in E; [discriminate E|].
    injection E as <- E.
    destruct x2 as [|c3 x3]; cbn [append] in E; [discriminate E|].
    injection E as <- E.
    destruct x3 as [|c4 x4]; cbn [append] in E; [discriminate E|].
    injection E as <- E.
    destruct x4 as [|c5 x5]; cbn [append] in E; [discriminate E|].
    injection E as <- E.
    destruct R as [->|[r0 ->]].
    + destruct x5; discriminate E.
    + destruct x5 as [|c6 x6]; cbn [append] in E; [discriminate E|].
      injection E as <- E. cbn in Hx'. discriminate Hx'.
  - destruct x' as [|c1 x']; [simpl; lia|].
    cbn [append] in E. injection E as <- E.
    cbn [has_char] in Hx'. apply orb_false_elim in Hx' as [_ Hx'].
    specialize (IH x' r' E Hx'). simpl. lia.
Qed.

(** The match at [_page], a run without [")"] as long as can be, and
    [.jpeg] is the whole name. *)
Lemma match_here_name (x r : string) :
  x <> "" ->
  has_char ")" x = false ->
  longest x r ->
  match_here ("_page" ++ x ++ ".jpeg" ++ r)
  = Some (String.length ("_page" ++ x ++ ".jpeg")).
Proof.
  intros Hne Hx L. unfold match_here.
  rewrite prefix_append.
  change 5 with (String.length "_page") at 1. rewrite drop_append.
  destruct x as [|c x]; [congruence|].
  cbn [has_char] in Hx. apply orb_false_elim in Hx as [Hc Hx].
  change (String c x ++ ".jpeg" ++ r)%string with (String c (x ++ ".jpeg" ++ r)).
  cbv beta iota.
  rewrite Hc, (last_jpeg_greedy x r Hx (longest_tail c x r Hc L)).
  f_equal. rewrite !length_append. simpl. lia.
Qed.


Lemma replaceContent_name (folderName a x b : string) :
  has_char "$" folderName = false ->
  occurs "_page" a = false ->
  x <> "" ->
  has_char ")" x = false ->
  longest x b ->
  replaceContent folderName (a ++ "_page" ++ x ++ ".jpeg" ++ b)
  = (a ++ "http://localhost:3000/" ++ folderName ++ "/"
       ++ "_page" ++ x ++ ".jpeg" ++ replaceContent folderName b)%string.
Proof.
  intros Hk Ha Hne Hx Hb. unfold replaceContent.
  rewrite scan_plain by (auto; right; reflexivity).
  f_equal.
  set (tm := ("http://localhost:3000/" ++ folderName ++ "/$1")%string).
  set (m := ("_page" ++ x ++ ".jpeg")%string).
  assert (E : ("_page" ++ x ++ ".jpeg" ++ b)%string = (m ++ b)%string).
  { unfold m. now rewrite !append_assoc. }
  pose proof (match_here_name x b Hne Hx Hb) as Hm.
  fold m in Hm. rewrite E in Hm |- *.
  change (m ++ b)%string with (String "_" (("page" ++ x ++ ".jpeg") ++ b)) at 1.
  cbn [replace_loop].
  change (String "_" (("page" ++ x ++ ".jpeg") ++ b)) with (m ++ b)%string.
  rewrite Hm, take_append, drop_append.
  unfold tm at 1. rewrite expand_url by exact Hk.
  replace (String.length m - 1) with (String.length ("page" ++ x ++ ".jpeg"))
    by (unfold m; simpl; lia).
  rewrite replace_loop_skip.
  unfold tm. rewrite (replace_loop_before folderName b _ "" 0 Hk).
  unfold m. rewrite !append_assoc. reflexivity.
Qed.

(** The backtracking finds a match whenever a run without [")"] is
    followed by [.jpeg], and one at least as long. *)
Lemma last_jpeg_complete (y r : string) :
  has_char ")" y = false ->
  exists k, last_jpeg (y ++ ".jpeg" ++ r) = Some k /\ String.length y <= k.
Proof.
  intros Hy. induction y as [|c y IH].
  - change ("" ++ ".jpeg" ++ r)%string with (String "." ("jpeg" ++ r)).
    cbn [last_jpeg].
    change (String "." ("jpeg" ++ r)) with (".jpeg" ++ r)%string.
    rewrite prefix_append.
    replace ("." =? ")")%char with false by reflexivity.
    destruct (last_jpeg ("jpeg" ++ r)) as [k|]; eexists;
      (split; [reflexivity | simpl; lia]).
  - cbn [has_char] in Hy. apply orb_false_elim in Hy as [Hc Hy].
    change (String c y ++ ".jpeg" ++ r)%string
      with (String c (y ++ ".jpeg" ++ r)).
    cbn [last_jpeg]. rewrite Hc.
    destruct (IH Hy) as (k & -> & L).
    exists (S k). split; [reflexivity | simpl; lia].
Qed.

(** What the backtracking finds is as long as can be. *)
Lemma last_jpeg_max (u : string) (k : nat) :
  last_jpeg u = Some k ->
  exists y r,
    u = (y ++ ".jpeg" ++ r)%string
    /\ String.length y = k /\ has_char ")" y = false /\ longest y r.
Proof.
  intros H. destruct (last_jpeg_sound u k H) as (y & r & E & Hk & Hy).
  exists y, r. repeat split; try assumption.
  intros y' r' Eq Hy'.
  destruct (last_jpeg_complete y' r' Hy') as (j & Hj & L).
  rewrite <- Eq, <- E, H in Hj. injection Hj as <-. lia.
Qed.

(** A match of the regular expression is a page-image name whose middle
    part is as long as can be. *)
Lemma match_here_spec (s : string) (len : nat) :
  match_here s = Some len ->
  exists x r,
    s = ("_page" ++ x ++ ".jpeg" ++ r)%string
    /\ x <> "" /\ has_char ")" x = false /\ longest x r
    /\ len = String.length ("_page" ++ x ++ ".jpeg").
Proof.
  unfold match_here.
  destruct (prefix "_page" s) eqn:P; [|discriminate].
  pose proof (prefix_split _ _ P) as E.
  change (String.length "_page") with 5 in E.
  destruct (drop 5 s) as [|c u] eqn:D; [discriminate|].
  destruct (c =? ")")%char eqn:C; [discriminate|].
  destruct (last_jpeg u) as [k|] eqn:L; [|discriminate].
  intros [= <-].
  destruct (last_jpeg_max u k L) as (y & r & -> & <- & Hy & Lg).
  exists (String c y), r. split; [exact E|]. split; [discriminate|].
  split; [cbn [has_char]; now rewrite C, Hy|]. split.
  - intros x' r' Eq Hx'. destruct x' as [|c' x']; [simpl; lia|].
    cbn [append] in Eq. injection Eq as <- Eq.
    cbn [has_char] in Hx'. apply orb_false_elim in Hx' as [_ Hx'].
    specialize (Lg x' r' Eq Hx'). simpl. lia.
  - rewrite !length_append. simpl. lia.
Qed.

Lemma match_here_complete (x r : string) :
  x <> "" ->
  has_char ")" x = false ->
  match_here ("_page" ++ x ++ ".jpeg" ++ r) <> None.
Proof.
  intros Hne Hx. unfold match_here.
  rewrite prefix_append.
  change 5 with (String.length "_page") at 1. rewrite drop_append.
  destruct x as [|c x]; [congruence|].
  cbn [has_char] in Hx. apply orb_false_elim in Hx as [Hc Hx].
  change (String c x ++ ".jpeg" ++ r)%string
    with (String c (x ++ ".jpeg" ++ r)).
  cbv beta iota. rewrite Hc.
  destruct (last_jpeg_complete x r Hx) as (k & -> & _). discriminate.
Qed.

(** The regular expression matches at the start of a text exactly when a
    page-image name stands there. *)
Lemma match_here_none (s : string) :
  match_here s = None <-> ~ starts_image s.
Proof.
  split.
  - intros H (m & r & -> & x & -> & Hne & Hx).
    apply (match_here_complete x r Hne Hx). rewrite <- H.
    f_equal. now rewrite !append_assoc.
  - intros H. destruct (match_here s) as [len|] eqn:E; [|reflexivity].
    exfalso. apply H.
    destruct (match_here_spec s len E) as (x & r & -> & Hne & Hx & _).
    exists ("_page" ++ x ++ ".jpeg")%string, r.
    split; [now rewrite !append_assoc | now exists x].
Qed.

Lemma none_inside_nil (rest : string) : none_inside "" rest.
Proof.
  intros a1 a2 E Hne. destruct a1; [|discriminate E].
  cbn [append] in E. congruence.
Qed.

Lemma none_inside_tail (c : ascii) (a rest : string) :
  none_inside (String c a) rest -> none_inside a rest.
Proof.
  intros H a1 a2 E Hne. apply (H (String c a1) a2); [|exact Hne].
  cbn [append]. now f_equal.
Qed.

Lemma none_inside_head (c : ascii) (a rest : string) :
  none_inside (String c a) rest -> match_here (String c a ++ rest) = None.
Proof.
  intros H. apply match_here_none, (H "" (String c a));
    [reflexivity | discriminate].
Qed.

Lemma none_inside_cons (c : ascii) (a rest : string) :
  match_here (String c a ++ rest) = None ->
  none_inside a rest ->
  none_inside (String c a) rest.
Proof.
  intros M H a1 a2 E Hne. destruct a1 as [|d a1]; cbn [append] in E.
  - subst a2. now apply match_here_none.
  - injection E as <- E. now apply (H a1 a2).
Qed.

Lemma no_match_in_spec (a rest : string) :
  no_match_in a rest = true <-> none_inside a rest.
Proof.
  induction a as [|c a IH].
  - split; [intros _; apply none_inside_nil | reflexivity].
  - cbn [no_match_in].
    destruct (match_here (String c a ++ rest)) as [len|] eqn:M.
    + split; [discriminate|]. intros H. apply none_inside_head in H.
      congruence.
    + rewrite IH. split; [now apply none_inside_cons|].
      apply none_inside_tail.
Qed.

(** Text in which no page-image name starts is copied as it is. *)
Lemma scan_none (template a rest before : string) :
  none_inside a rest ->
  replace_loop template before 0 (a ++ rest)
  = (a ++ replace_loop template (before ++ a) 0 rest)%string.
Proof.
  intros H. revert before.
  induction a as [|c a IH]; intros before.
  - simpl. now rewrite append_empty_r.
  - pose proof (none_inside_head c a rest H) as M.
    change (String c a ++ rest)%string with (String c (a ++ rest)) in M |- *.
    cbn [replace_loop]. rewrite M.
    rewrite (IH (none_inside_tail c a rest H)), append_assoc. reflexivity.
Qed.

(** Every text either holds no page-image name, or has a first one, whose
    middle part is as long as can be. *)
Lemma first_image (s : string) :
  none_inside s ""
  \/ exists a x r,
       s = (a ++ "_page" ++ x ++ ".jpeg" ++ r)%string
       /\ none_inside a ("_page" ++ x ++ ".jpeg" ++ r)
       /\ x <> "" /\ has_char ")" x = false /\ longest x r.
Proof.
  induction s as [|c s IH].
  - left. apply none_inside_nil.
  - destruct (match_here (String c s)) as [len|] eqn:M.
    + right.
      destruct (match_here_spec _ _ M) as (x & r & E & Hne & Hx & L & _).
      exists "", x, r. split; [exact E|].
      split; [apply none_inside_nil | auto].
    + destruct IH as [N | (a & x & r & -> & N & Hne & Hx & L)].
      * left. apply none_inside_cons; [|exact N].
        now rewrite append_empty_r.
      * right. exists (String c a), x, r. split; [reflexivity|].
        split; [now apply none_inside_cons | auto].
Qed.

Lemma replaceContent_first (folderName a x b : string) :
  has_char "$" folderName = false ->
  none_inside a ("_page" ++ x ++ ".jpeg" ++ b) ->
  x <> "" ->
  has_char ")" x = false ->
  longest x b ->
  replaceContent folderName (a ++ "_page" ++ x ++ ".jpeg" ++ b)
  = (a ++ "http://localhost:3000/" ++ folderName ++ "/"
       ++ "_page" ++ x ++ ".jpeg" ++ replaceContent folderName b)%string.
Proof.
  intros Hk Ha Hne Hx Hb. unfold replaceContent.
  rewrite scan_none by exact Ha.
  f_equal.
  set (tm := ("http://localhost:3000/" ++ folderName ++ "/$1")%string).
  set (m := ("_page" ++ x ++ ".jpeg")%string).
  assert (E : ("_page" ++ x ++ ".jpeg" ++ b)%string = (m ++ b)%string).
  { unfold m. now rewrite !append_assoc. }
  pose proof (match_here_name x b Hne Hx Hb) as Hm.
  fold m in Hm. rewrite E in Hm |- *.
  change (m ++ b)%string with (String "_" (("page" ++ x ++ ".jpeg") ++ b)) at 1.
  cbn [replace_loop].
  change (String "_" (("page" ++ x ++ ".jpeg") ++ b)) with (m ++ b)%string.
  rewrite Hm, take_append, drop_append.
  unfold tm at 1. rewrite expand_url by exact Hk.
  replace (String.length m - 1) with (String.length ("page" ++ x ++ ".jpeg"))
    by (unfold m; simpl; lia).
  rewrite replace_loop_skip.
  unfold tm. rewrite (replace_loop_before folderName b _ "" 0 Hk).
  unfold m. rewrite !append_assoc. reflexivity.
Qed.

(** C3, amended: a page-image name is [_page], one or more characters
    other than [")"], then [.jpeg].  For a document key without [$]: the
    first page-image name of a text, taken as long as it can be, is
    replaced by [http://localhost:3000/<key>/<name>], the text before it
    is left as it is and the text after it is rewritten in the same way;
    a text in which no page-image name starts is left as it is; and every
    text is of one of these two kinds, so that every page-image name found
    from left to right is replaced and nothing else is changed. *)
Theorem C3_rewrite_page_images :
  forall folderName : string,
    has_char "$" folderName = false ->
    (forall a x r : string,
        none_inside a ("_page" ++ x ++ ".jpeg" ++ r) ->
        x <> "" ->
        has_char ")" x = false ->
        longest x r ->
        replaceContent folderName (a ++ "_page" ++ x ++ ".jpeg" ++ r)
        = (a ++ "http://localhost:3000/" ++ folderName ++ "/"
             ++ "_page" ++ x ++ ".jpeg" ++ replaceContent folderName r)%string)
    /\ (forall s : string,
          none_inside s "" -> replaceContent folderName s = s)
    /\ (forall s : string,
          none_inside s ""
          \/ exists a x r : string,
               s = (a ++ "_page" ++ x ++ ".jpeg" ++ r)%string
               /\ none_inside a ("_page" ++ x ++ ".jpeg" ++ r)
               /\ x <> "" /\ has_char ")" x = false /\ longest x r).
Proof.
  intros folderName Hk. split; [|split].
  - intros a x r Ha Hne Hx L. now apply replaceContent_first.
  - intros s Hs. unfold replaceContent.
    rewrite <- (append_empty_r s) at 1.
    rewrite scan_none by exact Hs.
    simpl. apply append_empty_r.
  - apply first_image.
Qed.

(** The example of the specification, key [report], one page image and
    one other image; and a text whose first [_page] starts no page-image
    name, where the image after it is rewritten all the same. *)
Lemma C3_rewrite_page_images_witness :
  replaceContent "report" "![alt](_page_3.jpeg) and ![c](cover.png)"
  = "![alt](http://localhost:3000/report/_page_3.jpeg) and ![c](cover.png)"
  /\ replaceContent "report" "![a](_page.jpeg) ![b](_page_3.jpeg)"
     = "![a](_page.jpeg) ![b](http://localhost:3000/report/_page_3.jpeg)".
Proof.
  destruct (C3_rewrite_page_images "report" eq_refl) as (H1 & H2 & _).
  split.
  - etransitivity;
      [apply (H1 "![alt](" "_3" ") and ![c](cover.png)")|].
    + now apply no_match_in_spec.
    + discriminate.
    + reflexivity.
    + apply longest_before_paren. right; reflexivity.
    + rewrite H2; [reflexivity | now apply no_match_in_spec].
  - etransitivity; [apply (H1 "![a](_page.jpeg) ![b](" "_3" ")")|].
    + now apply no_match_in_spec.
    + discriminate.
    + reflexivity.
    + apply longest_before_paren. right; reflexivity.
    + rewrite H2; [reflexivity | now apply no_match_in_spec].
Defined.

(** C3 as stated fails: [_page.jpeg] and [_page)x.jpeg] begin with
    [_page] and end with [.jpeg], yet the rewriter leaves them where they
    are, because the regular expression asks for one or more characters
    other than [")"] between the two; and a key with [$&] does not appear
    as such in the address. *)
Lemma C3_counterexample :
  prefix "_page" "_page.jpeg" = true
  /\ ends_with ".jpeg" "_page.jpeg" = true
  /\ occurs "_page.jpeg" "![alt](_page.jpeg)" = true
  /\ replaceContent "report" "![alt](_page.jpeg)" = "![alt](_page.jpeg)"
  /\ prefix "_page" "_page)x.jpeg" = true
  /\ ends_with ".jpeg" "_page)x.jpeg" = true
  /\ replaceContent "report" "![alt](_page)x.jpeg)" = "![alt](_page)x.jpeg)"
  /\ replaceContent "a$&b" "(_page_3.jpeg)"
     = "(http://localhost:3000/a_page_3.jpegb/_page_3.jpeg)".
Proof. repeat split; reflexivity. Qed.

(* ================================================================= *)
(** ** Paths and the file system *)

Lemma is_under_refl (p : Path) : is_under p p = true.
Proof.
  induction p as [|a p IH]; simpl; [reflexivity|].
  now rewrite String.eqb_refl.
Qed.

Lemma is_under_length (p q : Path) :
  is_under p q = true -> length p <= length q.
Proof.
  revert q; induction p as [|a p IH]; intros [|b q]; simpl; intros H;
    try lia; try discriminate.
  apply andb_prop in H as [_ H]. apply IH in H. lia.
Qed.

Lemma path_eqb_eq (p q : Path) : path_eqb p q = true <-> p = q.
Proof.
  unfold path_eqb. split.
  - revert q; induction p as [|a p IH]; intros [|b q]; simpl; intros H;
      try reflexivity; try discriminate.
    apply andb_prop in H as [H1 H2].
    apply andb_prop in H1 as [E H1]. apply andb_prop in H2 as [_ H2].
    apply String.eqb_eq in E. subst. f_equal. apply IH.
    now rewrite H1, H2.
  - intros ->. now rewrite is_under_refl.
Qed.

Lemma path_eqb_refl (p : Path) : path_eqb p p = true.
Proof. now apply path_eqb_eq. Qed.

Lemma is_under_app (d p q : Path) :
  is_under (d ++ p) (d ++ q) = is_under p q.
Proof.
  induction d as [|a d IH]; simpl; [reflexivity|].
  now rewrite String.eqb_refl.
Qed.

Lemma path_join_plain (dir : Path) (name : string) :
  plain name = true -> path_join dir name = dir ++ [name].
Proof.
  unfold plain, path_join. intros H. apply negb_true_iff in H.
  apply orb_false_elim in H as [H H3]. apply orb_false_elim in H as [H1 H2].
  now rewrite H1, H2, H3.
Qed.

Lemma path_join_cases (dir : Path) (name : string) :
  path_join dir name = dir \/ path_join dir name = removelast dir
  \/ path_join dir name = dir ++ [name].
Proof.
  unfold path_join.
  destruct ((name =? "")%string || (name =? ".")%string); [now left|].
  destruct (name =? "..")%string; [right; now left | right; now right].
Qed.

Lemma removelast_length (A : Type) (l : list A) :
  length (removelast l) <= length l.
Proof.
  induction l as [|a l IH]; simpl; [lia|]. destruct l; simpl in *; lia.
Qed.

(** The folder of a document with a plain key holds the folder of no
    document with another key. *)
Lemma other_folder_not_under (dir : Path) (key other : string) :
  plain key = true -> other <> key ->
  is_under (path_join dir key) (path_join dir other) = false.
Proof.
  intros Hk Hne. rewrite (path_join_plain dir key Hk).
  destruct (is_under (dir ++ [key]) (path_join dir other)) eqn:E;
    [|reflexivity].
  pose proof (is_under_length _ _ E) as L. rewrite length_app in L.
  simpl in L.
  destruct (path_join_cases dir other) as [J|[J|J]]; rewrite J in E, L.
  - lia.
  - pose proof (removelast_length _ dir). lia.
  - rewrite is_under_app in E. simpl in E.
    rewrite andb_true_r in E. apply String.eqb_eq in E. congruence.
Qed.

Lemma lookup_remove_tree (fs : FS) (p q : Path) :
  lookup (remove_tree fs p) q
  = if is_under p q then None else lookup fs q.
Proof.
  unfold lookup, remove_tree; simpl.
  induction (nodes fs) as [|[r n] l IH]; simpl.
  - now destruct (is_under p q).
  - destruct (is_under p r) eqn:U; simpl.
    + rewrite IH. destruct (path_eqb r q) eqn:E; [|reflexivity].
      apply path_eqb_eq in E; subst. now rewrite U.
    + destruct (path_eqb r q) eqn:E; [|exact IH].
      apply path_eqb_eq in E; subst. now rewrite U.
Qed.

Lemma lookup_set_content (l : list (Path * node)) (p q : Path) (c : string) :
  lookup_node (set_content l p c) q
  = if path_eqb p q then Some (File c) else lookup_node l q.
Proof.
  induction l as [|[r n] l IH]; simpl.
  - reflexivity.
  - destruct (path_eqb r p) eqn:E; simpl.
    + apply path_eqb_eq in E; subst. now destruct (path_eqb p q).
    + rewrite IH. destruct (path_eqb r q) eqn:F; [|reflexivity].
      apply path_eqb_eq in F; subst.
      destruct (path_eqb p q) eqn:G; [|reflexivity].
      apply path_eqb_eq in G; subst. now rewrite path_eqb_refl in E.
Qed.

Lemma lookup_node_app (l1 l2 : list (Path * node)) (q : Path) :
  lookup_node (l1 ++ l2) q
  = match lookup_node l1 q with
    | Some n => Some n
    | None => lookup_node l2 q
    end.
Proof.
  induction l1 as [|[r n] l1 IH]; simpl; [reflexivity|].
  destruct (path_eqb r q); [reflexivity | exact IH].
Qed.

Lemma is_under_snoc (p : Path) (name : string) :
  is_under p (p ++ [name]) = true.
Proof.
  induction p as [|a p IH]; simpl; [reflexivity|].
  now rewrite String.eqb_refl.
Qed.

Lemma stem_not_empty (name : string) :
  extname name <> "" -> stem name <> "".
Proof.
  unfold stem, extname.
  destruct (last_dot name) as [[|i]|] eqn:D; try congruence.
  destruct (name =? "..")%string; [congruence|]. intros _ E.
  apply last_dot_bound in D.
  apply (f_equal String.length) in E.
  rewrite length_take in E by lia. rewrite length_drop in E. simpl in E. lia.
Qed.

(* ================================================================= *)
(** ** The process executor (lines 11-44) *)

Section Run.

Variable cwd : Path.
Variable os : OS.

Lemma spawnCommand_run (command : string) (args : list string) (w : World) :
  spawnCommand os command args w
  = let w1 := after_child os command args w in
    match fst (os command args (files w)) with
    | Close code =>
        if succeeded (Close code) then (Return true, w1)
        else (Return false,
              mkWorld (files w1) (console w1 ++ [LogExitCode code])
                (pending w1))
    | Error errno message =>
        (Throw message,
         mkWorld (files w1) (console w1 ++ [LogSpawnError message])
           (pending w1 ++ [errno]))
    end.
Proof.
  unfold spawnCommand, after_child, bind, log, defer, runChild, queued, ret,
    throw; simpl.
  destruct (os command args (files w)) as [r fs']; simpl.
  destruct r as [[[| |]|]|]; simpl; rewrite ?app_nil_r; reflexivity.
Qed.

(** ** The rewriting of a folder (lines 52-110) *)

Lemma replaceImagePaths_run (mdFilePath : Path) (folderName : string)
  (w : World) :
  exists b w',
    replaceImagePaths mdFilePath folderName w = (Return b, w')
    /\ (forall q, fs_exists (files w') q = fs_exists (files w) q)
    /\ pending w' = pending w
    /\ exists t, console w' = console w ++ t.
Proof.
  unfold replaceImagePaths, try_catch, bind, readFileSync, writeFileSync,
    log, ret.
  destruct (lookup (files w) mdFilePath) as [[c|]|] eqn:L; simpl;
    try (eexists; eexists; repeat split; eexists; reflexivity).
  rewrite L.
  destruct (existsb (path_eqb mdFilePath) (readonly (files w))); simpl;
    try (eexists; eexists; repeat split; eexists; reflexivity).
  eexists; eexists; split; [reflexivity|].
  split; [|split; [reflexivity | eexists; reflexivity]].
  intros q. unfold fs_exists, lookup in *. simpl.
  rewrite lookup_set_content.
  destruct (path_eqb mdFilePath q) eqn:E; [|reflexivity].
  apply path_eqb_eq in E; subst. now rewrite L.
Qed.

Lemma replaceEach_run (outputFolderPath : Path) (folderName : string)
  (mdFiles : list string) (w : World) :
  exists w',
    replaceEach outputFolderPath folderName mdFiles w = (Return tt, w')
    /\ (forall q, fs_exists (files w') q = fs_exists (files w) q)
    /\ pending w' = pending w
    /\ exists t, console w' = console w ++ t.
Proof.
  revert w; induction mdFiles as [|mdFile rest IH]; intros w.
  - exists w. repeat split. exists []. now rewrite app_nil_r.
  - cbn [replaceEach]. unfold bind.
    destruct (replaceImagePaths_run (path_join outputFolderPath mdFile)
                folderName w) as (b & w1 & -> & H1 & P1 & t1 & C1).
    destruct (IH w1) as (w2 & -> & H2 & P2 & t2 & C2).
    exists w2. split; [reflexivity|]. split; [|split].
    + intros q. now rewrite H2, H1.
    + congruence.
    + exists (t1 ++ t2). now rewrite C2, C1, app_assoc.
Qed.

Lemma processMarkdownFiles_run (outputFolderPath : Path)
  (folderName : string) (w : World) :
  exists b w',
    processMarkdownFiles outputFolderPath folderName w = (Return b, w')
    /\ (forall q, fs_exists (files w') q = fs_exists (files w) q)
    /\ pending w' = pending w
    /\ exists t, console w' = console w ++ t.
Proof.
  unfold processMarkdownFiles, try_catch, bind, existsSync, readdirSync,
    log, ret.
  destruct (fs_exists (files w) outputFolderPath); simpl;
    try (eexists; eexists; repeat split; eexists; reflexivity).
  destruct (lookup (files w) outputFolderPath) as [[c|]|]; simpl;
    try (eexists; eexists; repeat split; eexists; reflexivity).
  destruct (length (filter is_md
                      (entries (nodes (files w)) outputFolderPath)) =? 0);
    simpl; try (eexists; eexists; repeat split; eexists; reflexivity).
  match goal with
  | |- context [replaceEach ?p ?k ?l ?w0] =>
      destruct (replaceEach_run p k l w0) as (w1 & -> & H1 & P1 & t1 & C1)
  end.
  simpl in *. eexists; eexists; split; [reflexivity|]. simpl.
  split; [exact H1|]. split; [exact P1|].
  eexists. rewrite C1, <- !app_assoc. reflexivity.
Qed.

(** ** Recursive removal *)

Lemma lookup_remove_node (fs : FS) (p q : Path) :
  lookup (remove_node fs p) q
  = if path_eqb p q then None else lookup fs q.
Proof.
  unfold lookup, remove_node; simpl.
  induction (nodes fs) as [|[r n] l IH]; simpl.
  - now destruct (path_eqb p q).
  - destruct (path_eqb p r) eqn:U; simpl.
    + apply path_eqb_eq in U; subst r. rewrite IH.
      now destruct (path_eqb p q).
    + destruct (path_eqb r q) eqn:E; [|exact IH].
      apply path_eqb_eq in E; subst. now rewrite U.
Qed.

Lemma is_under_prefix (p x q : Path) :
  is_under (p ++ x) q = true -> is_under p q = true.
Proof.
  revert q; induction p as [|a p IH]; intros q H; [reflexivity|].
  destruct q as [|b q]; [discriminate|]. cbn [app is_under] in *.
  apply andb_prop in H as [E H]. rewrite E. now apply IH.
Qed.

(** A removal changes no protection, and a path keeps its node or, under
    the folder, loses it. *)
Lemma rimraf_effect (d : nat) :
  forall (p : Path) (fs : FS),
    readonly (snd (rimraf d p fs)) = readonly fs
    /\ forall q,
         lookup (snd (rimraf d p fs)) q = lookup fs q
         \/ (is_under p q = true /\ lookup (snd (rimraf d p fs)) q = None).
Proof.
  induction d as [|d IH]; intros p fs; [split; [reflexivity | now left]|].
  assert (Node : forall fs0,
             readonly (remove_node fs0 p) = readonly fs0
             /\ forall q,
                  lookup (remove_node fs0 p) q = lookup fs0 q
                  \/ (is_under p q = true
                      /\ lookup (remove_node fs0 p) q = None)).
  { intros fs0. split; [reflexivity|]. intros q.
    rewrite lookup_remove_node. destruct (path_eqb p q) eqn:E; [|now left].
    right. apply path_eqb_eq in E; subst. now rewrite is_under_refl. }
  cbn [rimraf]. destruct (lookup fs p) as [[c|]|].
  - destruct (protected fs p); [split; [reflexivity | now left]|].
    apply Node.
  - set (step := fun (acc : bool * FS) (child : string) =>
                   if fst acc then rimraf d (p ++ [child]) (snd acc)
                   else acc).
    assert (Fold : forall l acc,
               readonly (snd (fold_left step l acc)) = readonly (snd acc)
               /\ forall q,
                    lookup (snd (fold_left step l acc)) q
                    = lookup (snd acc) q
                    \/ (is_under p q = true
                        /\ lookup (snd (fold_left step l acc)) q = None)).
    { induction l as [|c l IHl]; intros acc;
        [split; [reflexivity | now left]|].
      cbn [fold_left].
      destruct (IHl (step acc c)) as [R1 L1].
      assert (S1 : readonly (snd (step acc c)) = readonly (snd acc)
                   /\ forall q,
                        lookup (snd (step acc c)) q = lookup (snd acc) q
                        \/ (is_under p q = true
                            /\ lookup (snd (step acc c)) q = None)).
      { unfold step. destruct (fst acc);
          [|split; [reflexivity | now left]].
        destruct (IH (p ++ [c]) (snd acc)) as [R L].
        split; [exact R|]. intros q.
        destruct (L q) as [E|[U E]]; [now left | right].
        split; [now apply is_under_prefix in U | exact E]. }
      destruct S1 as [R2 L2]. split; [congruence|]. intros q.
      destruct (L1 q) as [E1|[U1 E1]]; [|now right].
      destruct (L2 q) as [E2|[U2 E2]]; [left; congruence|].
      right. split; [exact U2 | congruence]. }
    destruct (Fold (entries (nodes fs) p) (true, fs)) as [R L].
    cbn [snd] in R, L.
    destruct (fst (fold_left step (entries (nodes fs) p) (true, fs)));
      [|split; assumption].
    destruct (protected _ p); [split; assumption|].
    cbn [snd]. destruct (Node (snd (fold_left step (entries (nodes fs) p)
                                      (true, fs)))) as [R3 L3].
    split; [congruence|]. intros q.
    destruct (L3 q) as [E3|[U3 E3]]; [|now right].
    destruct (L q) as [E|[U E]]; [left; congruence|].
    right. split; [exact U | congruence].
  - split; [reflexivity | now left].
Qed.

(** ** The cleanup block (lines 148-155 and 169-176) *)

Lemma removeOutputFolder_run (outputFolderPath : Path) (w : World) :
  exists w',
    removeOutputFolder outputFolderPath w = (Return tt, w')
    /\ files w' = cleaned (files w) outputFolderPath
    /\ pending w' = pending w
    /\ exists t, console w' = console w ++ t.
Proof.
  unfold removeOutputFolder, try_catch, bind, existsSync, rmdirSync, log,
    ret, cleaned, fs_exists.
  destruct (lookup (files w) outputFolderPath) as [[c|]|] eqn:L; simpl;
    rewrite ?L; simpl;
    try (eexists; split; [reflexivity|]; split; [reflexivity|];
         split; [reflexivity|];
         first [exists []; now rewrite app_nil_r | eexists; reflexivity]).
  destruct (protected (files w) outputFolderPath); simpl;
    eexists; (split; [reflexivity|]); (split; [reflexivity|]);
    (split; [reflexivity|]); eexists; reflexivity.
Qed.

Lemma lookup_cleaned (fs : FS) (p q : Path) :
  lookup (cleaned fs p) q = lookup fs q
  \/ (is_under p q = true /\ lookup (cleaned fs p) q = None).
Proof.
  unfold cleaned. destruct (lookup fs p) as [[c|]|]; try now left.
  destruct (protected fs p).
  - apply rimraf_effect.
  - rewrite lookup_remove_tree. destruct (is_under p q); [now right | now left].
Qed.

Lemma readonly_cleaned (fs : FS) (p : Path) :
  readonly (cleaned fs p) = readonly fs.
Proof.
  unfold cleaned. destruct (lookup fs p) as [[c|]|]; try reflexivity.
  destruct (protected fs p); [apply rimraf_effect | reflexivity].
Qed.

Lemma lookup_cleaned_outside (fs : FS) (p q : Path) :
  is_under p q = false -> lookup (cleaned fs p) q = lookup fs q.
Proof.
  intros H. destruct (lookup_cleaned fs p q) as [E|[U _]]; congruence.
Qed.

Lemma lookup_cleaned_inside (fs : FS) (p q : Path) :
  deletable fs p = true -> is_under p q = true ->
  lookup (cleaned fs p) q = None.
Proof.
  intros D H. unfold cleaned, deletable in *.
  destruct (lookup fs p) as [[c|]|]; try discriminate.
  apply negb_true_iff in D. rewrite D.
  now rewrite lookup_remove_tree, H.
Qed.

(** ** The single-document converter (lines 118-179) *)

Lemma file_name_snoc (dir : Path) (name : string) :
  file_name (dir ++ [name]) = name.
Proof. unfold file_name. apply last_last. Qed.

Lemma is_pdf_plain (file : string) : is_pdf file = true -> plain file = true.
Proof.
  intros H. unfold plain.
  destruct (file =? "")%string eqn:E1;
    [apply String.eqb_eq in E1; subst; discriminate|].
  destruct (file =? ".")%string eqn:E2;
    [apply String.eqb_eq in E2; subst; discriminate|].
  destruct (file =? "..")%string eqn:E3;
    [apply String.eqb_eq in E3; subst; discriminate|].
  reflexivity.
Qed.

Lemma file_name_join (dir : Path) (file : string) :
  plain file = true -> file_name (path_join dir file) = file.
Proof.
  intros H. rewrite (path_join_plain dir file H). apply file_name_snoc.
Qed.

(** For an entry that passed the filter, the key that [processPdf] takes
    from the whole path is the key that the loop takes from the name. *)
Lemma pdfKey_join (dir : Path) (file : string) :
  is_pdf file = true -> pdfKey (path_join dir file) = basename file ".pdf".
Proof.
  intros H. unfold pdfKey.
  rewrite (file_name_join dir file (is_pdf_plain file H)).
  destruct (file =? ".pdf")%string eqn:E; [|reflexivity].
  apply String.eqb_eq in E. subst. discriminate H.
Qed.

Lemma folderOf_join (absoluteInputDir absoluteOutputDir : Path)
  (file : string) :
  is_pdf file = true ->
  folderOf absoluteOutputDir (path_join absoluteInputDir file)
  = outputFolder absoluteOutputDir file.
Proof.
  intros H. unfold folderOf, outputFolder. now rewrite pdfKey_join.
Qed.

Lemma processPdf_skip (pdfPath outputDir : Path) (w : World) :
  fs_exists (files w) (folderOf outputDir pdfPath) = true ->
  processPdf os pdfPath outputDir w
  = (Return true,
     mkWorld (files w) (console w ++ [LogSkip (pdfKey pdfPath)])
       (pending w)).
Proof.
  unfold folderOf. intros H.
  unfold processPdf, bind, existsSync. rewrite H. reflexivity.
Qed.

Lemma processPdf_attempt (pdfPath outputDir : Path) (w : World) :
  fs_exists (files w) (folderOf outputDir pdfPath) = false ->
  let r := os "marker_single" (converterArgs pdfPath outputDir) (files w) in
  exists w',
    processPdf os pdfPath outputDir w = (Return (succeeded (fst r)), w')
    /\ (if succeeded (fst r)
        then forall q, fs_exists (files w') q = fs_exists (snd r) q
        else files w' = cleaned (snd r) (folderOf outputDir pdfPath))
    /\ pending w'
       = match fst r with
         | Close _ => []
         | Error errno _ => pending w ++ [errno]
         end
    /\ exists t,
         console w' = (console w ++ attemptLines pdfPath outputDir) ++ t.
Proof.
  intros H r. unfold folderOf in *.
  unfold processPdf, bind, existsSync, try_catch. rewrite H.
  unfold log at 1. cbv beta iota.
  rewrite spawnCommand_run. cbv zeta.
  unfold after_child. cbn [files console pending].
  fold r. unfold attemptLines.
  destruct (fst r) as [code|errno message] eqn:R.
  - destruct (succeeded (Close code)) eqn:S1; cbn [negb].
    + unfold log at 1. cbv beta iota.
      match goal with
      | |- context [processMarkdownFiles ?p ?k ?w0] =>
          destruct (processMarkdownFiles_run p k w0)
            as (b & w1 & -> & H1 & P1 & t1 & C1)
      end.
      cbn [files console pending] in *.
      exists w1. split; [reflexivity|]. split; [exact H1|].
      split; [exact P1|]. eexists. rewrite C1, <- !app_assoc.
      cbn [app]. reflexivity.
    + unfold log at 1. cbv beta iota.
      match goal with
      | |- context [removeOutputFolder ?p ?w0] =>
          destruct (removeOutputFolder_run p w0)
            as (w1 & -> & H1 & P1 & t1 & C1)
      end.
      cbn [files console pending] in *.
      exists w1. split; [reflexivity|]. split; [exact H1|].
      split; [exact P1|]. eexists. rewrite C1, <- !app_assoc.
      cbn [app]. reflexivity.
  - unfold log at 1. cbv beta iota.
    match goal with
    | |- context [removeOutputFolder ?p ?w0] =>
        destruct (removeOutputFolder_run p w0)
          as (w1 & -> & H1 & P1 & t1 & C1)
    end.
    cbn [files console pending] in *.
    exists w1. split; [reflexivity|]. split; [exact H1|].
    split; [exact P1|]. eexists. rewrite C1, <- !app_assoc.
    cbn [app]. reflexivity.
Qed.

Lemma launches_app (l1 l2 : list event) :
  launches (l1 ++ l2) = launches l1 ++ launches l2.
Proof. unfold launches. apply flat_map_app. Qed.

Lemma launches_skips (l : list string) :
  launches (map (fun f => LogSkip (basename f ".pdf")) l) = [].
Proof. induction l as [|f l IH]; [reflexivity | exact IH]. Qed.

Lemma processPdf_returns (pdfPath outputDir : Path) (w : World) :
  exists w',
    processPdf os pdfPath outputDir w
    = (Return
         (fs_exists (files w) (folderOf outputDir pdfPath)
          || succeeded
               (fst (os "marker_single" (converterArgs pdfPath outputDir)
                       (files w)))),
       w').
Proof.
  destruct (fs_exists (files w) (folderOf outputDir pdfPath)) eqn:E.
  - rewrite (processPdf_skip _ _ _ E). eexists; reflexivity.
  - destruct (processPdf_attempt _ _ _ E) as (w' & -> & _).
    eexists; reflexivity.
Qed.

(** X22: when the folder that the converter of one document tests,
    the output directory joined with [path.basename(pdfPath, '.pdf')],
    exists, the converter returns true at once: the file system is as it
    was, the console has one more line and no child process has been
    launched; for an entry that passed the filter the batch loop finds the
    same folder by its own test, counts the document as skipped and passes
    to the next one without calling the converter. *)
Theorem X22_skip_before_launch :
  forall (absoluteInputDir absoluteOutputDir pdfPath outputDir : Path)
         (pdfFile : string) (rest : list string) (c : counts) (w : World),
    (fs_exists (files w) (folderOf outputDir pdfPath) = true ->
     processPdf os pdfPath outputDir w
     = (Return true,
        mkWorld (files w) (console w ++ [LogSkip (pdfKey pdfPath)])
          (pending w))
     /\ launches (console w ++ [LogSkip (pdfKey pdfPath)])
        = launches (console w))
    /\ (is_pdf pdfFile = true ->
        fs_exists (files w) (outputFolder absoluteOutputDir pdfFile) = true ->
        folderOf absoluteOutputDir (path_join absoluteInputDir pdfFile)
        = outputFolder absoluteOutputDir pdfFile
        /\ processEach os absoluteInputDir absoluteOutputDir
             (pdfFile :: rest) c w
           = processEach os absoluteInputDir absoluteOutputDir rest
               (mkCounts (successCount c) (S (skipCount c)) (failCount c))
               (mkWorld (files w)
                  (console w ++ [LogSkip (basename pdfFile ".pdf")])
                  (pending w))).
Proof.
  intros absIn absOut pdfPath outputDir pdfFile rest c w. split.
  - intros H. split; [now apply processPdf_skip|].
    rewrite launches_app. simpl. apply app_nil_r.
  - intros P H. split; [now apply folderOf_join|].
    cbn [processEach]. unfold bind, existsSync.
    unfold outputFolder in H. rewrite H. reflexivity.
Qed.

(** C8: the process executor resolves true exactly when the child closes
    with code 0, resolves false exactly when it closes otherwise, and
    rejects exactly when the child could not be launched; the rejection
    ends in the converter of that document, which returns false. *)
Theorem C8_process_executor :
  forall (command : string) (args : list string) (w : World),
    let r := fst (os command args (files w)) in
    let p := fst (spawnCommand os command args w) in
    (p = Return true <-> r = Close (Some 0%Z))
    /\ (p = Return false <-> exists code, r = Close code /\ code <> Some 0%Z)
    /\ (forall message,
          p = Throw message <-> exists errno, r = Error errno message)
    /\ (forall (pdfPath outputDir : Path) (errno : Z) (message : string),
          command = "marker_single" ->
          args = converterArgs pdfPath outputDir ->
          fs_exists (files w) (folderOf outputDir pdfPath) = false ->
          r = Error errno message ->
          fst (processPdf os pdfPath outputDir w) = Return false).
Proof.
  intros command args w r p.
  assert (P : p = match r with
                  | Close code => Return (succeeded (Close code))
                  | Error errno message => Throw message
                  end).
  { unfold p, r. rewrite spawnCommand_run. cbv zeta.
    destruct (fst (os command args (files w))) as [code|errno message];
      [|reflexivity].
    destruct (succeeded (Close code)); reflexivity. }
  repeat split.
  - rewrite P. destruct r as [[[| |]|]|]; simpl; congruence.
  - intros ->. rewrite P. reflexivity.
  - rewrite P. destruct r as [[[| |]|]|]; simpl; try congruence;
      intros _; eexists; (split; [reflexivity | congruence]).
  - intros (code & -> & Hc). rewrite P.
    destruct code as [[| |]|]; simpl; congruence.
  - rewrite P. destruct r as [code|e m]; [discriminate|].
    intros [= ->]. now exists e.
  - intros [errno ->]. rewrite P. reflexivity.
  - intros pdfPath outputDir errno message -> -> E R.
    destruct (processPdf_attempt _ _ _ E) as (w' & -> & _).
    fold r. rewrite R. reflexivity.
Qed.

(** ** The batch loop (lines 223-241) *)

Lemma processEach_step (absoluteInputDir absoluteOutputDir : Path)
  (pdfFile : string) (rest : list string) (c : counts) (w : World) :
  is_pdf pdfFile = true ->
  exists c1 w1 lines,
    processEach os absoluteInputDir absoluteOutputDir (pdfFile :: rest) c w
    = processEach os absoluteInputDir absoluteOutputDir rest c1 w1
    /\ total c1 = S (total c)
    /\ console w1 = console w ++ lines
    /\ entryLines absoluteInputDir absoluteOutputDir pdfFile lines.
Proof.
  intros P. cbn [processEach]. unfold bind at 1, existsSync.
  destruct (fs_exists (files w)
              (path_join absoluteOutputDir (basename pdfFile ".pdf")))
    eqn:E.
  - unfold bind, log. eexists; eexists; eexists.
    split; [reflexivity|]. split; [unfold total; simpl; lia|].
    split; [reflexivity | now left].
  - unfold bind.
    assert (E' : fs_exists (files w)
                   (folderOf absoluteOutputDir
                      (path_join absoluteInputDir pdfFile)) = false)
      by (rewrite folderOf_join by exact P; exact E).
    destruct (processPdf_attempt _ _ _ E') as (w1 & -> & _ & _ & t & C).
    rewrite <- app_assoc in C.
    destruct (succeeded _); eexists; exists w1; eexists;
      (split; [reflexivity|]); (split; [unfold total; simpl; lia|]);
      (split; [exact C|]); right; now exists t.
Qed.

(** C9: the converter of one document always returns a boolean, never
    an exception; the batch loop goes through all the entries that passed
    the filter, whatever became of the ones before: it returns the
    counters, with every entry counted once, and what it prints is, entry
    by entry and in their order, the line of a skipped document or the
    lines of an attempted conversion, which begin with the launch of the
    converter on that entry; and an entry whose folder is not there when
    its turn comes is converted, whatever the counters say of the entries
    before it, and the loop goes on with the entries after it whether the
    conversion gave true or false. *)
Theorem C9_no_exception_leaves_a_document :
  (forall (pdfPath outputDir : Path) (w : World),
      exists b w', processPdf os pdfPath outputDir w = (Return b, w'))
  /\ (forall (absoluteInputDir absoluteOutputDir : Path)
             (pdfFiles : list string) (c : counts) (w : World),
         (forall f, In f pdfFiles -> is_pdf f = true) ->
         exists c' w' blocks,
           processEach os absoluteInputDir absoluteOutputDir pdfFiles c w
           = (Return c', w')
           /\ total c' = total c + length pdfFiles
           /\ console w' = console w ++ concat blocks
           /\ Forall2 (entryLines absoluteInputDir absoluteOutputDir)
                pdfFiles blocks)
  /\ (forall (absoluteInputDir absoluteOutputDir : Path) (pdfFile : string)
             (rest : list string) (c : counts) (w : World),
         is_pdf pdfFile = true ->
         fs_exists (files w) (outputFolder absoluteOutputDir pdfFile) = false ->
         exists b w1 t,
           processPdf os (path_join absoluteInputDir pdfFile)
             absoluteOutputDir w
           = (Return b, w1)
           /\ console w1
              = (console w
                 ++ attemptLines (path_join absoluteInputDir pdfFile)
                      absoluteOutputDir) ++ t
           /\ processEach os absoluteInputDir absoluteOutputDir
                (pdfFile :: rest) c w
              = processEach os absoluteInputDir absoluteOutputDir rest
                  (if b
                   then mkCounts (S (successCount c)) (skipCount c)
                          (failCount c)
                   else mkCounts (successCount c) (skipCount c)
                          (S (failCount c)))
                  w1).
Proof.
  split; [|split].
  - intros pdfPath outputDir w.
    destruct (processPdf_returns pdfPath outputDir w) as (w' & ->).
    eexists; eexists; reflexivity.
  - intros absIn absOut pdfFiles.
    induction pdfFiles as [|f rest IH]; intros c w H.
    + exists c, w, (@nil (list event)).
      split; [reflexivity|]. split; [simpl; lia|].
      split; [simpl; now rewrite app_nil_r | constructor].
    + destruct (processEach_step absIn absOut f rest c w
                  (H f (or_introl eq_refl)))
        as (c1 & w1 & lines & -> & T1 & C1 & B1).
      destruct (IH c1 w1 (fun g Hg => H g (or_intror Hg)))
        as (c2 & w2 & blocks & -> & T2 & C2 & B2).
      exists c2, w2, (lines :: blocks). split; [reflexivity|].
      split; [simpl; lia|]. split.
      * rewrite C2, C1. simpl. now rewrite app_assoc.
      * now constructor.
  - intros absIn absOut f rest c w P E.
    assert (E' : fs_exists (files w)
                   (folderOf absOut (path_join absIn f)) = false)
      by (rewrite folderOf_join by exact P; exact E).
    destruct (processPdf_attempt _ _ _ E') as (w1 & R & _ & _ & t & C).
    eexists; exists w1, t. split; [exact R|]. split; [exact C|].
    cbn [processEach]. unfold bind at 1, existsSync.
    unfold outputFolder in E. rewrite E.
    unfold bind. rewrite R. destruct (succeeded _); reflexivity.
Qed.

(** X24: the converter of one document returns true when the folder
    that it tests exists and when the conversion succeeds, and false
    otherwise, so its result does not tell a skipped document from a
    converted one; in the batch loop the count of skipped documents grows
    exactly when the loop's own test finds the folder. *)
Theorem X24_result_of_converter :
  forall (absoluteInputDir absoluteOutputDir pdfPath outputDir : Path)
         (pdfFile : string) (rest : list string) (c : counts) (w : World),
    fst (processPdf os pdfPath outputDir w)
    = Return
        (fs_exists (files w) (folderOf outputDir pdfPath)
         || succeeded
              (fst (os "marker_single" (converterArgs pdfPath outputDir)
                      (files w))))
    /\ exists c' w',
         processEach os absoluteInputDir absoluteOutputDir (pdfFile :: rest)
           c w
         = processEach os absoluteInputDir absoluteOutputDir rest c' w'
         /\ skipCount c'
            = skipCount c
              + (if fs_exists (files w)
                      (outputFolder absoluteOutputDir pdfFile)
                 then 1 else 0).
Proof.
  intros absIn absOut pdfPath outputDir pdfFile rest c w. split.
  - destruct (processPdf_returns pdfPath outputDir w) as (w' & ->).
    reflexivity.
  - cbn [processEach]. unfold bind at 1, existsSync, outputFolder.
    destruct (fs_exists (files w)
                (path_join absOut (basename pdfFile ".pdf"))).
    + unfold bind, log. eexists; eexists; split; [reflexivity|].
      simpl; lia.
    + unfold bind.
      destruct (processPdf_returns (path_join absIn pdfFile) absOut w)
        as (w' & ->).
      set (b := (_ || _)%bool).
      destruct b; eexists; eexists; (split; [reflexivity | simpl; lia]).
Qed.

(** X23: when the conversion of a document is attempted and the child
    does not close with code 0 (another code, a signal, or no launch at
    all), the converter returns false whatever the removal of the folder
    does; every path outside the folder that the converter tests, the
    folders of the documents with other keys among them, is as the child
    left it; no path is created or changed; when nothing protected lies
    under the folder, nothing is left of it or under it; when the child
    made no folder, the file system is as the child left it. *)
Theorem X23_failed_cleanup :
  forall (pdfPath outputDir : Path) (w : World),
    let folder := folderOf outputDir pdfPath in
    let r := os "marker_single" (converterArgs pdfPath outputDir) (files w) in
    fs_exists (files w) folder = false ->
    succeeded (fst r) = false ->
    exists w',
      processPdf os pdfPath outputDir w = (Return false, w')
      /\ (forall q, is_under folder q = false ->
                    lookup (files w') q = lookup (snd r) q)
      /\ (forall (other : string) (inside : Path),
            plain (pdfKey pdfPath) = true ->
            plain other = true ->
            other <> pdfKey pdfPath ->
            lookup (files w') (path_join outputDir other ++ inside)
            = lookup (snd r) (path_join outputDir other ++ inside))
      /\ (forall q, lookup (files w') q = lookup (snd r) q
                    \/ lookup (files w') q = None)
      /\ (deletable (snd r) folder = true ->
          forall q, is_under folder q = true -> lookup (files w') q = None)
      /\ (fs_exists (snd r) folder = false -> files w' = snd r).
Proof.
  intros pdfPath outputDir w folder r E F.
  destruct (processPdf_attempt pdfPath outputDir w E)
    as (w' & Hrun & Hfs & _).
  fold r in Hrun, Hfs. rewrite F in Hrun, Hfs. fold folder in Hfs.
  exists w'. split; [exact Hrun|]. rewrite Hfs.
  split; [|split; [|split; [|split]]].
  - intros q Hq. now apply lookup_cleaned_outside.
  - intros other inside Hk Ho Hne. apply lookup_cleaned_outside.
    unfold folder, folderOf.
    rewrite (path_join_plain _ _ Hk), (path_join_plain _ _ Ho).
    rewrite <- app_assoc, is_under_app. simpl.
    apply String.eqb_neq in Hne. rewrite String.eqb_sym in Hne.
    now rewrite Hne.
  - intros q. destruct (lookup_cleaned (snd r) folder q) as [H|[_ H]];
      [now left | now right].
  - intros D q Hq. now apply lookup_cleaned_inside.
  - unfold fs_exists, cleaned. intros D.
    destruct (lookup (snd r) folder); [discriminate | reflexivity].
Qed.

(** ** The batch orchestrator and the entry point (lines 186-261) *)

Lemma processAllPdfs_returns (inputDir outputDir : string) (w : World) :
  exists w', processAllPdfs cwd os inputDir outputDir w = (Return tt, w').
Proof.
  unfold processAllPdfs, try_catch.
  match goal with
  | |- context [match ?m w with _ => _ end] =>
      destruct (m w) as [[[]|e] w']
  end.
  - eexists; reflexivity.
  - unfold log. eexists; reflexivity.
Qed.

Lemma processAllPdfs_no_input (inputDir outputDir : string) (w : World) :
  fs_exists (files w) (resolve cwd inputDir) = false ->
  processAllPdfs cwd os inputDir outputDir w
  = (Return tt,
     mkWorld (files w) (console w ++ [LogNoInputDir (resolve cwd inputDir)])
       (pending w)).
Proof.
  intros H. unfold processAllPdfs, try_catch, bind, existsSync.
  rewrite H. reflexivity.
Qed.

Lemma ensureOutputDir_exists (absoluteOutputDir : Path) (w : World) :
  fs_exists (files w) absoluteOutputDir = true ->
  ensureOutputDir absoluteOutputDir w = (Return tt, w).
Proof.
  intros H. unfold ensureOutputDir, bind, existsSync. now rewrite H.
Qed.

Lemma processAllPdfs_run (inputDir outputDir : string) (w w0 : World) :
  let absoluteInputDir := resolve cwd inputDir in
  let absoluteOutputDir := resolve cwd outputDir in
  let pdfFiles := candidates (files w0) absoluteInputDir in
  fs_exists (files w) absoluteInputDir = true ->
  ensureOutputDir absoluteOutputDir w = (Return tt, w0) ->
  lookup (files w0) absoluteInputDir = Some Directory ->
  processAllPdfs cwd os inputDir outputDir w
  = if length pdfFiles =? 0 then
      (Return tt,
       mkWorld (files w0) (console w0 ++ [LogNoPdf]) (pending w0))
    else
      match processEach os absoluteInputDir absoluteOutputDir pdfFiles
              (mkCounts 0 0 0)
              (mkWorld (files w0)
                 (console w0 ++ [LogFoundPdf (length pdfFiles)])
                 (pending w0)) with
      | (Return c, w') =>
          (Return tt,
           mkWorld (files w')
             ((console w' ++ [LogAllDone])
              ++ [LogSummary (successCount c) (skipCount c) (failCount c)])
             (pending w'))
      | (Throw e, w') =>
          (Return tt,
           mkWorld (files w') (console w' ++ [LogRunError e]) (pending w'))
      end.
Proof.
  intros absIn absOut pdfFiles Hex Hens Hin. subst absIn absOut pdfFiles.
  unfold processAllPdfs, try_catch.
  unfold bind at 1, existsSync at 1.
  rewrite Hex. cbn [negb]. cbv beta iota.
  unfold bind at 1. rewrite Hens.
  unfold bind at 1, readdirSync. rewrite Hin. cbv beta iota zeta.
  fold (candidates (files w0) (resolve cwd inputDir)).
  destruct (length (candidates (files w0) (resolve cwd inputDir)) =? 0);
    [reflexivity|].
  unfold bind at 1, log at 1.
  unfold bind at 1.
  destruct (processEach os _ _ _ (mkCounts 0 0 0) _)
    as [[c|e] w']; reflexivity.
Qed.

Lemma processEach_all_skipped (absoluteInputDir absoluteOutputDir : Path)
  (pdfFiles : list string) (c : counts) (w : World) :
  (forall f, In f pdfFiles -> skippedDoc (files w) absoluteOutputDir f = true) ->
  processEach os absoluteInputDir absoluteOutputDir pdfFiles c w
  = (Return (mkCounts (successCount c) (skipCount c + length pdfFiles)
               (failCount c)),
     mkWorld (files w)
       (console w ++ map (fun f => LogSkip (basename f ".pdf")) pdfFiles)
       (pending w)).
Proof.
  revert c w. induction pdfFiles as [|f rest IH]; intros c w H.
  - simpl. rewrite Nat.add_0_r, app_nil_r. now destruct c, w.
  - cbn [processEach]. unfold bind at 1, existsSync.
    pose proof (H f (or_introl eq_refl)) as Hf.
    unfold skippedDoc, outputFolder in Hf. rewrite Hf.
    unfold bind at 1, log at 1.
    rewrite IH by (intros g Hg; apply H; now right).
    cbn [successCount skipCount failCount files console pending length map].
    rewrite <- app_assoc. do 2 f_equal. f_equal. lia.
Qed.

Lemma candidates_pdf (fs : FS) (dir : Path) (file : string) :
  In file (candidates fs dir) -> is_pdf file = true.
Proof. unfold candidates. intros H. now apply filter_In in H as [_ H]. Qed.

Lemma candidates_plain (fs : FS) (dir : Path) (file : string) :
  In file (candidates fs dir) -> plain file = true.
Proof. intros H. now apply is_pdf_plain, (candidates_pdf fs dir). Qed.

(** Every document is skipped, failed or converted. *)
Lemma count_partition (fs : FS) (absoluteOutputDir : Path)
  (fails : string -> bool) (l : list string) :
  count (convertedDoc fs absoluteOutputDir fails) l
  + count (skippedDoc fs absoluteOutputDir) l
  + count (failedDoc fs absoluteOutputDir fails) l
  = length l.
Proof.
  unfold count, convertedDoc, failedDoc.
  induction l as [|f l IH]; [reflexivity|]. cbn [filter length].
  destruct (skippedDoc fs absoluteOutputDir f), (fails f);
    cbn [negb andb length]; lia.
Qed.

(** The lines still queued are lines of the [close] handler. *)
Lemma queued_exitLines (w : World) : Forall exitLine (queued w).
Proof.
  unfold queued. induction (pending w) as [|errno l IH]; [constructor|].
  cbn [flat_map]. apply Forall_app. split; [|exact IH].
  unfold closeLine. destruct errno; repeat constructor; eexists; reflexivity.
Qed.

(** The counters of the batch loop, for entries with distinct keys, a
    converter that leaves the folders of the other documents alone and
    whose verdict on a document is [fails], when the folders of the
    documents whose key is no plain name exist. *)
Lemma processEach_counts (absoluteInputDir absoluteOutputDir : Path)
  (fails : string -> bool) (l : list string) :
  (forall f, In f l -> is_pdf f = true) ->
  NoDup (map (fun f => basename f ".pdf") l) ->
  (forall f g fs, In f l -> In g l ->
     plain (basename f ".pdf") = true ->
     basename g ".pdf" <> basename f ".pdf" ->
     fs_exists
       (snd (os "marker_single"
               (converterArgs (path_join absoluteInputDir f)
                  absoluteOutputDir) fs))
       (outputFolder absoluteOutputDir g)
     = fs_exists fs (outputFolder absoluteOutputDir g)) ->
  (forall f fs, In f l ->
     succeeded
       (fst (os "marker_single"
               (converterArgs (path_join absoluteInputDir f)
                  absoluteOutputDir) fs))
     = negb (fails f)) ->
  forall (c : counts) (w : World),
  (forall f, In f l -> plain (basename f ".pdf") = false ->
             skippedDoc (files w) absoluteOutputDir f = true) ->
  exists w',
    processEach os absoluteInputDir absoluteOutputDir l c w
    = (Return
         (mkCounts
            (successCount c
             + count (convertedDoc (files w) absoluteOutputDir fails) l)
            (skipCount c + count (skippedDoc (files w) absoluteOutputDir) l)
            (failCount c
             + count (failedDoc (files w) absoluteOutputDir fails) l)),
       w').
Proof.
  set (absIn := absoluteInputDir). set (absOut := absoluteOutputDir).
  induction l as [|f rest IH]; intros Hpdf Hnd Hframe Hverd c w Hnp.
  - exists w. unfold count; simpl. rewrite !Nat.add_0_r. now destruct c.
  - assert (IH' : forall c w,
               (forall g, In g rest -> plain (basename g ".pdf") = false ->
                          skippedDoc (files w) absOut g = true) ->
               exists w',
               processEach os absIn absOut rest c w
               = (Return
                    (mkCounts
                       (successCount c
                        + count (convertedDoc (files w) absOut fails) rest)
                       (skipCount c
                        + count (skippedDoc (files w) absOut) rest)
                       (failCount c
                        + count (failedDoc (files w) absOut fails) rest)),
                  w')).
    { apply IH.
      - intros g Hg. apply Hpdf. now right.
      - now inversion Hnd.
      - intros g h fs Hg Hh. apply Hframe; now right.
      - intros g fs Hg. apply Hverd. now right. }
    clear IH.
    assert (Hother : forall g, In g rest ->
                       basename g ".pdf" <> basename f ".pdf").
    { intros g Hg E. inversion Hnd as [|x xs Hnotin _]; subst.
      apply Hnotin. rewrite <- E.
      apply (in_map (fun f => basename f ".pdf")). exact Hg. }
    assert (Hcount : forall fs',
               (forall g, In g rest ->
                  skippedDoc fs' absOut g = skippedDoc (files w) absOut g) ->
               count (convertedDoc fs' absOut fails) rest
               = count (convertedDoc (files w) absOut fails) rest
               /\ count (skippedDoc fs' absOut) rest
                  = count (skippedDoc (files w) absOut) rest
               /\ count (failedDoc fs' absOut fails) rest
                  = count (failedDoc (files w) absOut fails) rest).
    { intros fs' H. unfold count, convertedDoc, failedDoc.
      repeat split; f_equal; apply filter_ext_in; intros g Hg;
        now rewrite (H g Hg). }
    cbn [processEach]. unfold bind at 1, existsSync.
    destruct (fs_exists (files w) (path_join absOut (basename f ".pdf")))
      eqn:E.
    + unfold bind at 1, log at 1.
      match goal with
      | |- context [processEach os absIn absOut rest ?c1 ?w1] =>
          destruct (IH' c1 w1) as (w' & ->);
            [intros g Hg; apply Hnp; now right|]
      end.
      exists w'. cbn [files successCount skipCount failCount].
      unfold count, convertedDoc, failedDoc, skippedDoc, outputFolder.
      cbn [filter]. rewrite E. cbn [negb andb length].
      do 2 f_equal. f_equal; lia.
    + unfold bind at 1.
      pose proof (Hpdf f (or_introl eq_refl)) as Hpf.
      assert (Hkf : plain (basename f ".pdf") = true).
      { destruct (plain (basename f ".pdf")) eqn:K; [reflexivity|].
        pose proof (Hnp f (or_introl eq_refl) K) as Hs.
        unfold skippedDoc, outputFolder in Hs. congruence. }
      assert (E' : fs_exists (files w)
                     (folderOf absOut (path_join absIn f)) = false)
        by (rewrite folderOf_join by exact Hpf; exact E).
      destruct (processPdf_attempt (path_join absIn f) absOut w E')
        as (w1 & -> & Hfs & _).
      rewrite (Hverd f (files w) (or_introl eq_refl)) in Hfs |- *.
      rewrite folderOf_join in Hfs by exact Hpf.
      assert (Hpres : forall g, In g rest ->
                skippedDoc (files w1) absOut g
                = skippedDoc (files w) absOut g).
      { intros g Hg. unfold skippedDoc.
        rewrite <- (Hframe f g (files w) (or_introl eq_refl)
                      (or_intror Hg) Hkf (Hother g Hg)).
        destruct (fails f); cbn [negb] in Hfs.
        - rewrite Hfs. unfold fs_exists.
          rewrite lookup_cleaned_outside; [reflexivity|].
          apply other_folder_not_under; [exact Hkf | now apply Hother].
        - apply Hfs. }
      destruct (Hcount (files w1) Hpres) as (C1 & C2 & C3).
      unfold count, convertedDoc, failedDoc, skippedDoc, outputFolder.
      cbn [filter]. rewrite E. cbn [negb andb].
      destruct (fails f); cbn [negb andb length];
        match goal with
        | |- context [processEach os absIn absOut rest ?c1 ?w0] =>
            destruct (IH' c1 w0) as (w' & ->);
              [intros g Hg K; rewrite (Hpres g Hg); apply Hnp;
               [now right | exact K]|]
        end;
        exists w'; cbn [files successCount skipCount failCount];
        rewrite C1, C2, C3;
        unfold count, convertedDoc, failedDoc, skippedDoc, outputFolder;
        do 2 f_equal; f_equal; lia.
Qed.

(** C1, amended: the exit status is 1 exactly when fewer than two
    arguments are given, and 0 in every other case; with two arguments and
    a missing input directory the run is given up after one message, the
    file system is untouched, the process ends as soon as what was queued
    before has run, and the exit status is 0. *)
Theorem C1_exit_status :
  forall (args : list string) (w : World),
    (fst (main cwd os args w) = 1 <-> length args < 2)
    /\ (fst (main cwd os args w) = 0 <-> 2 <= length args)
    /\ (2 <= length args ->
        fs_exists (files w) (resolve cwd (nth 0 args "")) = false ->
        main cwd os args w
        = (0, atExit
                (mkWorld (files w)
                   (console w
                    ++ [LogNoInputDir (resolve cwd (nth 0 args ""))])
                   (pending w)))).
Proof.
  intros args w. unfold main.
  destruct (length args <? 2) eqn:L.
  - apply Nat.ltb_lt in L. simpl. repeat split; intros; try lia.
  - apply Nat.ltb_ge in L.
    destruct (processAllPdfs_returns (nth 0 args "") (nth 1 args "") w)
      as (w' & E).
    repeat split; intros; try lia.
    + rewrite E in H. simpl in H. lia.
    + rewrite E. reflexivity.
    + rewrite processAllPdfs_no_input by assumption. reflexivity.
Qed.

Lemma lookup_node_in (l : list (Path * node)) (p : Path) (n : node) :
  In (p, n) l -> lookup_node l p <> None.
Proof.
  induction l as [|[q m] l IH]; [intros []|].
  intros [[= -> ->]|H]; cbn [lookup_node].
  - now rewrite path_eqb_refl.
  - destruct (path_eqb q p); [discriminate | now apply IH].
Qed.

Lemma missing_dirs_last (fs : FS) (rest done : Path) (x : string) :
  fs_exists fs (done ++ rest ++ [x]) = false ->
  In (done ++ rest ++ [x], Directory) (missing_dirs fs done (rest ++ [x])).
Proof.
  revert done; induction rest as [|c rest IH]; intros done H.
  - cbn [app missing_dirs] in *. rewrite H. now left.
  - cbn [app missing_dirs]. apply in_or_app. right.
    replace (done ++ c :: rest ++ [x]) with ((done ++ [c]) ++ rest ++ [x])
      by now rewrite <- app_assoc.
    apply IH. rewrite <- app_assoc. exact H.
Qed.

(** Once the output directory has been ensured it exists, in a tree
    where its parent does. *)
Lemma ensureOutputDir_made (absoluteOutputDir : Path) (w w0 : World) :
  ensureOutputDir absoluteOutputDir w = (Return tt, w0) ->
  fs_exists (files w0) (removelast absoluteOutputDir) = true ->
  fs_exists (files w0) absoluteOutputDir = true.
Proof.
  intros H Hp.
  destruct absoluteOutputDir as [|a p] using rev_ind; [exact Hp|].
  clear IHp Hp. revert H.
  unfold ensureOutputDir, bind, existsSync, mkdirSync, log.
  destruct (fs_exists (files w) (p ++ [a])) eqn:E; cbn [negb];
    [now intros [= <-]|].
  cbv zeta. destruct (file_on_the_way _ _ _); [discriminate|].
  destruct (existsb _ _); [discriminate|]. intros [= <-].
  pose proof (missing_dirs_last (files w) p [] a E) as M.
  apply lookup_node_in in M. cbn [app] in M.
  cbn [files]. unfold fs_exists, lookup. cbn [nodes].
  rewrite lookup_node_app.
  destruct (lookup_node (nodes (files w)) (p ++ [a])); [reflexivity|].
  destruct (lookup_node (missing_dirs (files w) [] (p ++ [a])) (p ++ [a]));
    [reflexivity | congruence].
Qed.

Lemma NoDup_map_in (A B : Type) (f : A -> B) (l : list A) :
  (forall x y, In x l -> In y l -> f x = f y -> x = y) ->
  NoDup l -> NoDup (map f l).
Proof.
  induction l as [|a l IH]; intros Hf Hnd; [constructor|].
  inversion Hnd as [|x xs Hnot Hnd']; subst. cbn [map]. constructor.
  - intros Hin. apply in_map_iff in Hin as (y & E & Hy).
    apply Hnot. rewrite (Hf a y); [exact Hy | now left | now right | auto].
  - apply IH; [|exact Hnd']. intros x y Hx Hy. apply Hf; now right.
Qed.

(** A name with the extension [.pdf] is its key followed by [.pdf]. *)
Lemma key_determines_name (f : string) :
  extname f = ".pdf" -> (basename f ".pdf" ++ ".pdf")%string = f.
Proof.
  intros E. rewrite (key_of_lower_case_pdf f E).
  pose proof (stem_extname f) as H. now rewrite E in H.
Qed.

Lemma lower_case_is_pdf (f : string) : extname f = ".pdf" -> is_pdf f = true.
Proof. unfold is_pdf. now intros ->. Qed.

(** The folder of a document whose key is no plain name is the output
    directory or its parent. *)
Lemma folder_of_odd_key (absoluteOutputDir : Path) (f : string) :
  extname f = ".pdf" ->
  plain (basename f ".pdf") = false ->
  outputFolder absoluteOutputDir f = absoluteOutputDir
  \/ outputFolder absoluteOutputDir f = removelast absoluteOutputDir.
Proof.
  intros E K. unfold outputFolder, path_join.
  assert (Hne : basename f ".pdf" <> "").
  { rewrite (key_of_lower_case_pdf f E). apply stem_not_empty.
    rewrite E. discriminate. }
  unfold plain in K. apply negb_false_iff in K.
  apply String.eqb_neq in Hne. rewrite Hne in *. cbn [orb] in *.
  destruct (basename f ".pdf" =? ".")%string; [now left|].
  cbn [orb] in K. rewrite K. now right.
Qed.

(** C4, amended: for an input directory with at least one document,
    all with the extension [.pdf] in lower case and distinct names, in a
    tree where the parent of the output directory exists, with a converter
    that neither makes nor removes the folder of another document and
    fails exactly on the documents of [fails]: the run prints the summary
    line, after which only lines of the [close] handler for converters that
    could not be launched may come; it reports as skipped the [S] documents
    that have an output folder when the loop starts, as failed the [F]
    other documents on which the converter fails, and as succeeded the
    [N - S - F] others; the three counts sum to the number [N] of
    documents. *)
Theorem C4_summary_counts :
  forall (inputDir outputDir : string) (fails : string -> bool)
         (w w0 : World),
    let absoluteInputDir := resolve cwd inputDir in
    let absoluteOutputDir := resolve cwd outputDir in
    let pdfFiles := candidates (files w0) absoluteInputDir in
    let N := length pdfFiles in
    let S := count (hasFolder (files w0) absoluteOutputDir) pdfFiles in
    let F := count (fun f => negb (hasFolder (files w0) absoluteOutputDir f)
                             && fails f) pdfFiles in
    fs_exists (files w) absoluteInputDir = true ->
    ensureOutputDir absoluteOutputDir w = (Return tt, w0) ->
    lookup (files w0) absoluteInputDir = Some Directory ->
    fs_exists (files w0) (removelast absoluteOutputDir) = true ->
    1 <= N ->
    NoDup pdfFiles ->
    (forall f, In f pdfFiles -> extname f = ".pdf") ->
    (forall f g fs, In f pdfFiles -> In g pdfFiles -> g <> f ->
       plain (stem f) = true ->
       hasFolder
         (snd (os "marker_single"
                 (converterArgs (path_join absoluteInputDir f)
                    absoluteOutputDir) fs))
         absoluteOutputDir g
       = hasFolder fs absoluteOutputDir g) ->
    (forall f fs, In f pdfFiles ->
       succeeded
         (fst (os "marker_single"
                 (converterArgs (path_join absoluteInputDir f)
                    absoluteOutputDir) fs))
       = negb (fails f)) ->
    exists w' l,
      processAllPdfs cwd os inputDir outputDir w = (Return tt, w')
      /\ console w' = l ++ [LogSummary (N - S - F) S F]
      /\ console (atExit w') = (l ++ [LogSummary (N - S - F) S F]) ++ queued w'
      /\ Forall exitLine (queued w')
      /\ (N - S - F) + S + F = N.
Proof.
  intros inputDir outputDir fails w w0 absIn absOut pdfFiles N S F
    Hex Hens Hin Hpar HN Hnd Hlow Hframe Hverd.
  assert (Hkey : forall f, In f pdfFiles -> basename f ".pdf" = stem f)
    by (intros f Hf; now apply key_of_lower_case_pdf, Hlow).
  assert (Hsk : forall fs f, In f pdfFiles ->
                  skippedDoc fs absOut f = hasFolder fs absOut f).
  { intros fs f Hf. unfold skippedDoc, hasFolder, outputFolder.
    now rewrite (Hkey f Hf). }
  assert (ES : count (skippedDoc (files w0) absOut) pdfFiles = S).
  { unfold S, count. f_equal. apply filter_ext_in. intros f Hf.
    now apply Hsk. }
  assert (EF : count (failedDoc (files w0) absOut fails) pdfFiles = F).
  { unfold F, count, failedDoc. f_equal. apply filter_ext_in. intros f Hf.
    now rewrite (Hsk _ f Hf). }
  pose proof (count_partition (files w0) absOut fails pdfFiles) as P.
  rewrite ES, EF in P. fold N in P.
  assert (Hout : fs_exists (files w0) absOut = true)
    by exact (ensureOutputDir_made absOut w w0 Hens Hpar).
  rewrite (processAllPdfs_run inputDir outputDir w w0 Hex Hens Hin).
  fold absIn absOut pdfFiles N.
  destruct (N =? 0) eqn:Z; [apply Nat.eqb_eq in Z; lia|].
  destruct (processEach_counts absIn absOut fails pdfFiles) with
    (c := mkCounts 0 0 0)
    (w := mkWorld (files w0) (console w0 ++ [LogFoundPdf N]) (pending w0))
    as (w' & Hrun).
  - intros f Hf. now apply lower_case_is_pdf, Hlow.
  - apply NoDup_map_in; [|exact Hnd]. intros x y Hx Hy E.
    rewrite <- (key_determines_name x (Hlow x Hx)),
            <- (key_determines_name y (Hlow y Hy)). now rewrite E.
  - intros f g fs Hf Hg Hk Hne. rewrite (Hkey f Hf) in Hk.
    assert (D : g <> f) by (intros ->; now apply Hne).
    pose proof (Hframe f g fs Hf Hg D Hk) as H.
    unfold hasFolder in H. unfold outputFolder. now rewrite (Hkey g Hg).
  - exact Hverd.
  - intros f Hf K. cbn [files]. unfold skippedDoc.
    destruct (folder_of_odd_key absOut f (Hlow f Hf) K) as [-> | ->];
      assumption.
  - rewrite Hrun. cbn [files successCount skipCount failCount Nat.add].
    rewrite ES, EF.
    replace (count (convertedDoc (files w0) absOut fails) pdfFiles)
      with (N - S - F) by lia.
    eexists; eexists. split; [reflexivity|]. split; [reflexivity|].
    split; [reflexivity|]. split; [apply queued_exitLines | lia].
Qed.

(** The count of failed documents never goes down. *)
Lemma processEach_mono (absoluteInputDir absoluteOutputDir : Path)
  (l : list string) :
  forall (c : counts) (w : World),
  exists c' w',
    processEach os absoluteInputDir absoluteOutputDir l c w = (Return c', w')
    /\ failCount c <= failCount c'.
Proof.
  induction l as [|f rest IH]; intros c w.
  - exists c, w. split; [reflexivity | lia].
  - cbn [processEach]. unfold bind at 1, existsSync.
    destruct (fs_exists (files w)
                (path_join absoluteOutputDir (basename f ".pdf"))).
    + unfold bind at 1, log at 1.
      match goal with
      | |- context [processEach _ _ _ rest ?c1 ?w1] =>
          destruct (IH c1 w1) as (c' & w' & -> & L)
      end.
      exists c', w'. split; [reflexivity | exact L].
    + unfold bind at 1.
      destruct (processPdf_returns (path_join absoluteInputDir f)
                  absoluteOutputDir w) as (w1 & ->).
      destruct (_ || _)%bool;
        match goal with
        | |- context [processEach _ _ _ rest ?c1 ?w0] =>
            destruct (IH c1 w0) as (c' & w' & -> & L)
        end;
        exists c', w'; (split; [reflexivity|]); cbn [failCount] in L; lia.
Qed.

Lemma not_under_child (p : Path) (x : string) : is_under (p ++ [x]) p = false.
Proof.
  destruct (is_under (p ++ [x]) p) eqn:E; [|reflexivity].
  apply is_under_length in E. rewrite length_app in E. simpl in E. lia.
Qed.

(** A loop without a failed document, with a converter that touches
    nothing outside the folder of its document and makes that folder when
    it succeeds: afterwards the folder of every document exists, and a path
    outside these folders exists if it did before. *)
Lemma processEach_done (absoluteInputDir absoluteOutputDir : Path)
  (l : list string) :
  (forall f, In f l -> is_pdf f = true) ->
  NoDup (map (fun f => basename f ".pdf") l) ->
  (forall f fs q, In f l ->
     plain (basename f ".pdf") = true ->
     is_under (outputFolder absoluteOutputDir f) q = false ->
     fs_exists
       (snd (os "marker_single"
               (converterArgs (path_join absoluteInputDir f)
                  absoluteOutputDir) fs)) q
     = fs_exists fs q) ->
  (forall f fs, In f l ->
     succeeded
       (fst (os "marker_single"
               (converterArgs (path_join absoluteInputDir f)
                  absoluteOutputDir) fs)) = true ->
     fs_exists
       (snd (os "marker_single"
               (converterArgs (path_join absoluteInputDir f)
                  absoluteOutputDir) fs))
       (outputFolder absoluteOutputDir f) = true) ->
  forall (c c' : counts) (w w' : World),
    (forall f, In f l -> plain (basename f ".pdf") = false ->
               skippedDoc (files w) absoluteOutputDir f = true) ->
    processEach os absoluteInputDir absoluteOutputDir l c w = (Return c', w') ->
    failCount c' = failCount c ->
    (forall f, In f l -> skippedDoc (files w') absoluteOutputDir f = true)
    /\ (forall q,
          (forall f, In f l -> plain (basename f ".pdf") = true ->
                     is_under (outputFolder absoluteOutputDir f) q = false) ->
          fs_exists (files w') q = fs_exists (files w) q).
Proof.
  set (absIn := absoluteInputDir). set (absOut := absoluteOutputDir).
  induction l as [|f rest IH]; intros Hpdf Hnd Hframe Hmade c c' w w' Hnp.
  - intros [= _ <-] _. split; [intros f [] | reflexivity].
  - assert (IH' : forall c c' w w',
               (forall g, In g rest -> plain (basename g ".pdf") = false ->
                          skippedDoc (files w) absOut g = true) ->
               processEach os absIn absOut rest c w = (Return c', w') ->
               failCount c' = failCount c ->
               (forall g, In g rest -> skippedDoc (files w') absOut g = true)
               /\ (forall q,
                     (forall g, In g rest ->
                        plain (basename g ".pdf") = true ->
                        is_under (outputFolder absOut g) q = false) ->
                     fs_exists (files w') q = fs_exists (files w) q)).
    { apply IH.
      - intros g Hg. apply Hpdf. now right.
      - now inversion Hnd.
      - intros g fs q Hg. apply Hframe. now right.
      - intros g fs Hg. apply Hmade. now right. }
    clear IH.
    assert (Hother : forall g, In g rest ->
                       basename g ".pdf" <> basename f ".pdf").
    { intros g Hg E. inversion Hnd as [|x xs Hnotin _]; subst.
      apply Hnotin. rewrite <- E.
      apply (in_map (fun f => basename f ".pdf")). exact Hg. }
    (* the folder of [f] is outside the folders of the documents after it *)
    assert (Hf_out : forall g, In g rest ->
                       plain (basename g ".pdf") = true ->
                       is_under (outputFolder absOut g) (outputFolder absOut f)
                       = false).
    { intros g Hg K. unfold outputFolder.
      apply other_folder_not_under; [exact K|].
      intros E. now apply (Hother g Hg). }
    cbn [processEach]. unfold bind at 1, existsSync.
    destruct (fs_exists (files w) (path_join absOut (basename f ".pdf")))
      eqn:E.
    + unfold bind at 1, log at 1. intros Hrun Hfail.
      pose proof (fun P => IH' _ _ _ _ P Hrun Hfail) as Q. cbn [files] in Q.
      destruct Q as [A B]; [intros g Hg; apply Hnp; now right|].
      cbn [files] in B. split.
      * intros g [<-|Hg]; [|now apply A].
        unfold skippedDoc. rewrite (B _ Hf_out). exact E.
      * intros q Hq. apply B. intros g Hg. apply Hq. now right.
    + unfold bind at 1.
      pose proof (Hpdf f (or_introl eq_refl)) as Hpf.
      assert (Hkf : plain (basename f ".pdf") = true).
      { destruct (plain (basename f ".pdf")) eqn:K; [reflexivity|].
        pose proof (Hnp f (or_introl eq_refl) K) as Hs.
        unfold skippedDoc, outputFolder in Hs. congruence. }
      assert (E' : fs_exists (files w)
                     (folderOf absOut (path_join absIn f)) = false)
        by (rewrite folderOf_join by exact Hpf; exact E).
      destruct (processPdf_attempt (path_join absIn f) absOut w E')
        as (w1 & -> & Hfs & _).
      destruct (succeeded _) eqn:Sc.
      * intros Hrun Hfail.
        assert (Hnp1 : forall g, In g rest ->
                         plain (basename g ".pdf") = false ->
                         skippedDoc (files w1) absOut g = true).
        { intros g Hg K. unfold skippedDoc. rewrite Hfs.
          rewrite (Hframe f (files w) _ (or_introl eq_refl) Hkf).
          - apply Hnp; [now right | exact K].
          - unfold outputFolder.
            apply other_folder_not_under; [exact Hkf | now apply Hother]. }
        destruct (IH' _ _ _ _ Hnp1 Hrun Hfail) as [A B]. split.
        -- intros g [<-|Hg]; [|now apply A].
           unfold skippedDoc. rewrite (B _ Hf_out), Hfs.
           apply Hmade; [now left | exact Sc].
        -- intros q Hq.
           rewrite B by (intros g Hg; apply Hq; now right).
           rewrite Hfs. apply Hframe; [now left | exact Hkf|].
           apply Hq; [now left | exact Hkf].
      * intros Hrun Hfail. exfalso.
        match type of Hrun with
        | processEach _ _ _ rest ?c1 ?w0 = _ =>
            destruct (processEach_mono absIn absOut rest c1 w0)
              as (c2 & w2 & R & L)
        end.
        rewrite R in Hrun. injection Hrun as -> ->.
        cbn [failCount] in L. lia.
Qed.

(** C5, amended: for documents with the extension [.pdf] in lower case
    and distinct names, in a tree where the parent of the output directory
    exists, and a converter that touches nothing outside the output folder
    of its document and has made that folder whenever it closes with code
    0: when the first run reports no document as failed and leaves the
    input directory as it was, a second run leaves the file system as it
    is, launches no child process and reports every document as
    skipped. *)
Theorem C5_second_run_skips :
  forall (inputDir outputDir : string) (w w0 : World),
    let absoluteInputDir := resolve cwd inputDir in
    let absoluteOutputDir := resolve cwd outputDir in
    let pdfFiles := candidates (files w0) absoluteInputDir in
    let w1 := snd (processAllPdfs cwd os inputDir outputDir w) in
    fs_exists (files w) absoluteInputDir = true ->
    ensureOutputDir absoluteOutputDir w = (Return tt, w0) ->
    lookup (files w0) absoluteInputDir = Some Directory ->
    fs_exists (files w0) (removelast absoluteOutputDir) = true ->
    NoDup pdfFiles ->
    (forall f, In f pdfFiles -> extname f = ".pdf") ->
    (forall f fs q, In f pdfFiles ->
       plain (stem f) = true ->
       is_under (absoluteOutputDir ++ [stem f]) q = false ->
       fs_exists
         (snd (os "marker_single"
                 (converterArgs (path_join absoluteInputDir f)
                    absoluteOutputDir) fs)) q
       = fs_exists fs q) ->
    (forall f fs, In f pdfFiles ->
       succeeded
         (fst (os "marker_single"
                 (converterArgs (path_join absoluteInputDir f)
                    absoluteOutputDir) fs)) = true ->
       hasFolder
         (snd (os "marker_single"
                 (converterArgs (path_join absoluteInputDir f)
                    absoluteOutputDir) fs))
         absoluteOutputDir f = true) ->
    (exists l s k, console w1 = l ++ [LogSummary s k 0]) ->
    lookup (files w1) absoluteInputDir = Some Directory ->
    candidates (files w1) absoluteInputDir = pdfFiles ->
    exists w2,
      processAllPdfs cwd os inputDir outputDir (start (files w1))
      = (Return tt, w2)
      /\ files w2 = files w1
      /\ launches (console w2) = []
      /\ console w2
         = LogFoundPdf (length pdfFiles)
           :: map (fun f => LogSkip (stem f)) pdfFiles
           ++ [LogAllDone; LogSummary 0 (length pdfFiles) 0]
      /\ pending w2 = [].
Proof.
  intros inputDir outputDir w w0 absIn absOut pdfFiles w1
    Hex Hens Hin Hpar Hnd Hlow Hframe Hmade Hsum Hin1 Hcand.
  assert (Hkey : forall f, In f pdfFiles -> basename f ".pdf" = stem f)
    by (intros f Hf; now apply key_of_lower_case_pdf, Hlow).
  assert (Hpdf : forall f, In f pdfFiles -> is_pdf f = true)
    by (intros f Hf; now apply lower_case_is_pdf, Hlow).
  assert (Hout : fs_exists (files w0) absOut = true)
    by exact (ensureOutputDir_made absOut w w0 Hens Hpar).
  (* the first run *)
  unfold w1 in *. clear w1.
  rewrite (processAllPdfs_run inputDir outputDir w w0 Hex Hens Hin)
    in Hsum, Hin1, Hcand |- *.
  fold absIn absOut pdfFiles in Hsum, Hin1, Hcand |- *.
  destruct (length pdfFiles =? 0) eqn:Z.
  { exfalso. destruct Hsum as (l & s & k & Hl). cbn [snd console] in Hl.
    apply app_inj_tail in Hl as [_ Hl]. discriminate Hl. }
  destruct (processEach_mono absIn absOut pdfFiles (mkCounts 0 0 0)
              (mkWorld (files w0)
                 (console w0 ++ [LogFoundPdf (length pdfFiles)])
                 (pending w0)))
    as (c & w' & Hrun & _).
  rewrite Hrun in Hsum, Hin1, Hcand |- *. cbn [snd files console] in *.
  assert (Hfail : failCount c = 0).
  { destruct Hsum as (l & s & k & Hl).
    apply app_inj_tail in Hl as [_ Hl]. now injection Hl. }
  destruct (processEach_done absIn absOut pdfFiles Hpdf) with
    (c := mkCounts 0 0 0) (c' := c)
    (w := mkWorld (files w0)
            (console w0 ++ [LogFoundPdf (length pdfFiles)]) (pending w0))
    (w' := w') as [A B].
  - apply NoDup_map_in; [|exact Hnd]. intros x y Hx Hy E.
    rewrite <- (key_determines_name x (Hlow x Hx)),
            <- (key_determines_name y (Hlow y Hy)). now rewrite E.
  - intros f fs q Hf K U. rewrite (Hkey f Hf) in K.
    apply Hframe; [exact Hf | exact K|].
    unfold outputFolder in U. rewrite (Hkey f Hf) in U.
    now rewrite (path_join_plain _ _ K) in U.
  - intros f fs Hf Sc. pose proof (Hmade f fs Hf Sc) as H.
    unfold hasFolder in H. unfold outputFolder. now rewrite (Hkey f Hf).
  - intros f Hf K. cbn [files]. unfold skippedDoc.
    destruct (folder_of_odd_key absOut f (Hlow f Hf) K) as [-> | ->];
      assumption.
  - exact Hrun.
  - exact Hfail.
  - (* the second run *)
    cbn [files] in B.
    assert (Hout1 : fs_exists (files w') absOut = true).
    { rewrite B; [exact Hout|]. intros f Hf K. unfold outputFolder.
      rewrite (path_join_plain _ _ K). apply not_under_child. }
    assert (Hex1 : fs_exists (files (start (files w'))) absIn = true)
      by (unfold fs_exists; cbn [start files]; now rewrite Hin1).
    rewrite (processAllPdfs_run inputDir outputDir (start (files w'))
               (start (files w')) Hex1
               (ensureOutputDir_exists absOut (start (files w')) Hout1)
               Hin1).
    cbn [start files console pending app].
    fold absIn. rewrite Hcand, Z.
    rewrite processEach_all_skipped by exact A.
    cbn [files console pending successCount skipCount failCount Nat.add app].
    eexists. split; [reflexivity|]. cbn [files console pending].
    rewrite <- !app_assoc. split; [reflexivity|]. split; [|split].
    + cbn [launches flat_map app]. fold (launches).
      rewrite launches_app. cbn [launches flat_map app].
      rewrite app_nil_r. apply launches_skips.
    + cbn [app]. do 2 f_equal. apply map_ext_in. intros f Hf.
      now rewrite (Hkey f Hf).
    + reflexivity.
Qed.
End Run.
(* ================================================================= *)
(** ** The program on the sample inputs *)

(** The sample converter changes nothing outside the folder that it
    creates. *)
Lemma marker_frame (fails : string -> bool) (pdf flag out : string)
  (fs : FS) (q : Path) :
  is_under (resolve [] out ++ [stem (file_name (resolve [] pdf))]) q = false ->
  fs_exists (snd (marker fails "marker_single" [pdf; flag; out] fs)) q
  = fs_exists fs q.
Proof.
  intros H. unfold marker.
  set (folder := resolve [] out ++ [stem (file_name (resolve [] pdf))]) in *.
  assert (E1 : path_eqb folder q = false).
  { unfold path_eqb. now rewrite H. }
  assert (E2 : forall name, path_eqb (folder ++ [name]) q = false).
  { intros name. destruct (path_eqb (folder ++ [name]) q) eqn:E;
      [|reflexivity].
    apply path_eqb_eq in E. subst q.
    now rewrite is_under_snoc in H. }
  destruct (fails (file_name (resolve [] pdf)));
    unfold fs_exists, lookup; cbn [snd nodes];
    rewrite lookup_node_app;
    destruct (lookup_node (nodes fs) q); try reflexivity;
    cbn [lookup_node]; now rewrite ?E1, ?E2.
Qed.

(** The sample converter makes the folder of its document. *)
Lemma marker_made (fails : string -> bool) (pdf flag out : string) (fs : FS) :
  fs_exists (snd (marker fails "marker_single" [pdf; flag; out] fs))
    (resolve [] out ++ [stem (file_name (resolve [] pdf))]) = true.
Proof.
  unfold marker.
  set (folder := resolve [] out ++ [stem (file_name (resolve [] pdf))]).
  assert (E : path_eqb folder folder = true) by now apply path_eqb_eq.
  destruct (fails (file_name (resolve [] pdf)));
    unfold fs_exists, lookup; cbn [snd nodes];
    rewrite lookup_node_app;
    destruct (lookup_node (nodes fs) folder); try reflexivity;
    cbn [lookup_node]; now rewrite E.
Qed.

Lemma C1_exit_status_witness :
  main [] (marker never) ["/in"; "/out"] (start no_input_fs)
  = (0, mkWorld no_input_fs [LogNoInputDir ["in"]] []).
Proof.
  destruct (C1_exit_status [] (marker never) ["/in"; "/out"]
              (start no_input_fs)) as (_ & _ & H).
  apply H; [simpl; lia | reflexivity].
Defined.

(** C1 as stated fails: with two arguments and no input directory the
    exit status is 0, not 1. *)
Lemma C1_counterexample :
  fs_exists no_input_fs (resolve [] "/in") = false
  /\ fst (main [] (marker never) ["/in"; "/out"] (start no_input_fs)) = 0
  /\ fst (main [] (marker never) ["/in"; "/out"] (start no_input_fs)) <> 1.
Proof. repeat split; [discriminate]. Qed.

(** Three documents: [a] is converted, [bad] fails, [c] was converted
    before. *)
Lemma C4_summary_counts_witness :
  exists w' l,
    processAllPdfs [] (marker fails_bad) "/in" "/out" (start sample_fs)
    = (Return tt, w')
    /\ console w' = l ++ [LogSummary 1 1 1]
    /\ console (atExit w') = (l ++ [LogSummary 1 1 1]) ++ queued w'
    /\ Forall exitLine (queued w')
    /\ 1 + 1 + 1 = 3.
Proof.
  apply (C4_summary_counts [] (marker fails_bad) "/in" "/out" fails_bad
           (start sample_fs) (start sample_fs)).
  - reflexivity.
  - reflexivity.
  - reflexivity.
  - reflexivity.
  - vm_compute. lia.
  - vm_compute. repeat constructor; simpl; intuition discriminate.
  - intros f Hf. vm_compute in Hf.
    destruct Hf as [<-|[<-|[<-|[]]]]; reflexivity.
  - intros f g fs Hf Hg Hne _. vm_compute in Hf, Hg.
    destruct Hf as [<-|[<-|[<-|[]]]];
      destruct Hg as [<-|[<-|[<-|[]]]];
      try (exfalso; apply Hne; reflexivity);
      apply marker_frame; reflexivity.
  - intros f fs Hf. vm_compute in Hf.
    destruct Hf as [<-|[<-|[<-|[]]]]; reflexivity.
Defined.

(** C4 as stated fails: without any document the run prints no summary
    line at all. *)
Lemma C4_counterexample :
  candidates empty_fs (resolve [] "/in") = []
  /\ snd (main [] (marker never) ["/in"; "/out"] (start empty_fs))
     = mkWorld empty_fs [LogNoPdf] []
  /\ forall s k f,
       ~ In (LogSummary s k f)
           (console (snd (main [] (marker never) ["/in"; "/out"]
                            (start empty_fs)))).
Proof.
  repeat split. intros s k f [H|[]]. discriminate H.
Qed.

(** Three documents, of which the first run converts two and skips one:
    the second run skips them all. *)
Lemma C5_second_run_skips_witness :
  let fs1 := files (snd (processAllPdfs [] (marker never) "/in" "/out"
                           (start sample_fs))) in
  exists w2,
    processAllPdfs [] (marker never) "/in" "/out" (start fs1)
    = (Return tt, w2)
    /\ files w2 = fs1
    /\ launches (console w2) = []
    /\ console w2
       = [LogFoundPdf 3; LogSkip "a"; LogSkip "bad"; LogSkip "c";
          LogAllDone; LogSummary 0 3 0]
    /\ pending w2 = [].
Proof.
  apply (C5_second_run_skips [] (marker never) "/in" "/out"
           (start sample_fs) (start sample_fs)).
  - reflexivity.
  - reflexivity.
  - reflexivity.
  - reflexivity.
  - vm_compute. repeat constructor; simpl; intuition discriminate.
  - intros f Hf. vm_compute in Hf.
    destruct Hf as [<-|[<-|[<-|[]]]]; reflexivity.
  - intros f fs q Hf _ Hq. vm_compute in Hf.
    destruct Hf as [<-|[<-|[<-|[]]]]; apply marker_frame; exact Hq.
  - intros f fs Hf _. vm_compute in Hf.
    destruct Hf as [<-|[<-|[<-|[]]]]; apply marker_made.
  - exists (removelast
              (console (snd (processAllPdfs [] (marker never) "/in" "/out"
                               (start sample_fs))))), 2, 1.
    reflexivity.
  - reflexivity.
  - reflexivity.
Defined.

(** C5 as stated fails: a document on which the converter fails has its
    folder removed by the first run; the second run launches the converter
    again and reports the document as failed, not as skipped. *)
Lemma C5_counterexample :
  let fs1 := files (snd (processAllPdfs [] (marker always) "/in" "/out"
                           (start one_fs))) in
  console (snd (processAllPdfs [] (marker always) "/in" "/out" (start fs1)))
  = [ LogFoundPdf 1; LogStart "report";
      LogExec "marker_single" ["/in/report.pdf"; "--output_dir"; "/out"];
      Spawned "marker_single" ["/in/report.pdf"; "--output_dir"; "/out"];
      LogExitCode (Some 1%Z); LogFailed "report";
      LogDeleted ["out"; "report"]; LogAllDone; LogSummary 0 0 1 ].
Proof. reflexivity. Qed.

(** C6, at the failing input: the converter fails on [report.PDF] after
    it has made the folder [out/report]; the document is reported failed,
    but the cleanup looks for [out/report.PDF], the folder of the key with
    the extension left on it, finds nothing and removes nothing, and the
    folder [out/report] of the failed document stays. *)
Theorem C6_upper_case_folder_left :
  is_pdf "report.PDF" = true
  /\ stem "report.PDF" = "report"
  /\ pdfKey ["in"; "report.PDF"] = "report.PDF"
  /\ console (snd (main [] (marker always) ["/in"; "/out"] (start upper_fs)))
     = [ LogCreatedOutputDir ["out"]; LogFoundPdf 1; LogStart "report.PDF";
         LogExec "marker_single" ["/in/report.PDF"; "--output_dir"; "/out"];
         Spawned "marker_single" ["/in/report.PDF"; "--output_dir"; "/out"];
         LogExitCode (Some 1%Z); LogFailed "report.PDF"; LogAllDone;
         LogSummary 0 0 1 ]
  /\ lookup
       (files (snd (main [] (marker always) ["/in"; "/out"] (start upper_fs))))
       ["out"; "report"]
     = Some Directory.
Proof. repeat split; vm_compute; reflexivity. Qed.

(** C7, at the failing input: the folder [out/report] of the document
    [report.PDF] exists before the run, yet the batch looks for
    [out/report.PDF], does not find it and launches the converter. *)
Theorem C7_upper_case_converted_again :
  is_pdf "report.PDF" = true
  /\ stem "report.PDF" = "report"
  /\ lookup upper_done_fs ["out"; "report"] = Some Directory
  /\ outputFolder ["out"] "report.PDF" = ["out"; "report.PDF"]
  /\ launches
       (console (snd (main [] (marker never) ["/in"; "/out"]
                        (start upper_done_fs))))
     = [("marker_single", ["/in/report.PDF"; "--output_dir"; "/out"])]
  /\ console (snd (main [] (marker never) ["/in"; "/out"]
                     (start upper_done_fs)))
     = [ LogFoundPdf 1; LogStart "report.PDF";
         LogExec "marker_single" ["/in/report.PDF"; "--output_dir"; "/out"];
         Spawned "marker_single" ["/in/report.PDF"; "--output_dir"; "/out"];
         LogSuccess "report.PDF"; LogNoOutputFolder ["out"; "report.PDF"];
         LogAllDone; LogSummary 1 0 0 ].
Proof. repeat split; vm_compute; reflexivity. Qed.

(** C10, at the failing input: the converter of one document, called on
    [report.PDF] when the folder [out/report] exists, does not return true:
    it tests [out/report.PDF], launches the child and returns what the
    conversion gives, here false. *)
Theorem C10_upper_case_direct_call :
  lookup upper_done_fs ["out"; stem "report.PDF"] = Some Directory
  /\ folderOf ["out"] ["in"; "report.PDF"] = ["out"; "report.PDF"]
  /\ processPdf (marker always) ["in"; "report.PDF"] ["out"]
       (start upper_done_fs)
     = (Return false,
        mkWorld
          (mkFS (nodes upper_done_fs ++ [(["out"; "report"], Directory)]) [])
          [ LogStart "report.PDF";
            LogExec "marker_single"
              ["/in/report.PDF"; "--output_dir"; "/out"];
            Spawned "marker_single"
              ["/in/report.PDF"; "--output_dir"; "/out"];
            LogExitCode (Some 1%Z); LogFailed "report.PDF" ]
          []).
Proof. repeat split; vm_compute; reflexivity. Qed.

(** The converter cannot be launched: the document fails, by a returned
    value. *)
Lemma C8_process_executor_witness :
  fst (processPdf marker_missing ["in"; "report.pdf"] ["out"] (start one_fs))
  = Return false.
Proof.
  destruct (C8_process_executor marker_missing "marker_single"
              (converterArgs ["in"; "report.pdf"] ["out"]) (start one_fs))
    as (_ & _ & _ & H).
  apply (H ["in"; "report.pdf"] ["out"] (-2)%Z "spawn marker_single ENOENT");
    reflexivity.
Defined.

(** Three documents on which the converter fails: the three are
    attempted, one after the other. *)
Lemma C9_no_exception_leaves_a_document_witness :
  exists c' w' blocks,
    processEach (marker always) ["in"] ["out"] ["a.pdf"; "bad.pdf"; "d.pdf"]
      (mkCounts 0 0 0) (start sample_fs)
    = (Return c', w')
    /\ total c' = total (mkCounts 0 0 0) + 3
    /\ console w' = [] ++ concat blocks
    /\ Forall2 (entryLines ["in"] ["out"]) ["a.pdf"; "bad.pdf"; "d.pdf"]
         blocks.
Proof.
  apply (proj1 (proj2 (C9_no_exception_leaves_a_document (marker always)))).
  intros f [<-|[<-|[<-|[]]]]; reflexivity.
Defined.

(* ================================================================= *)
(** * Further properties of the orchestrator *)

(** ** The rewriting of one file (lines 52-69) *)

Lemma replaceImagePaths_effect (mdFilePath : Path) (folderName : string)
  (w : World) :
  exists b w',
    replaceImagePaths mdFilePath folderName w = (Return b, w')
    /\ readonly (files w') = readonly (files w)
    /\ (forall q, q <> mdFilePath ->
                  lookup (files w') q = lookup (files w) q)
    /\ launches (console w') = launches (console w)
    /\ (forall c, lookup (files w) mdFilePath = Some (File c) ->
                  existsb (path_eqb mdFilePath) (readonly (files w)) = false ->
                  lookup (files w') mdFilePath
                  = Some (File (replaceContent folderName c))).
Proof.
  unfold replaceImagePaths, try_catch, bind, readFileSync, writeFileSync,
    log, ret.
  destruct (lookup (files w) mdFilePath) as [[c|]|] eqn:L; cbv beta iota;
    rewrite ?L; cbv beta iota zeta.
  - destruct (existsb (path_eqb mdFilePath) (readonly (files w))) eqn:R;
      cbv beta iota; eexists; eexists; (split; [reflexivity|]);
      cbn [files console readonly]; rewrite launches_app, app_nil_r.
    + repeat split; intros; congruence.
    + repeat split.
      * intros q Hq. unfold lookup; cbn [nodes].
        rewrite lookup_set_content.
        destruct (path_eqb mdFilePath q) eqn:E; [|reflexivity].
        apply path_eqb_eq in E. congruence.
      * intros c' [= <-] _. unfold lookup; cbn [nodes].
        now rewrite lookup_set_content, path_eqb_refl.
  - eexists; eexists; (split; [reflexivity|]);
      cbn [files console]; rewrite launches_app, app_nil_r.
    repeat split; intros; congruence.
  - eexists; eexists; (split; [reflexivity|]);
      cbn [files console]; rewrite launches_app, app_nil_r.
    repeat split; intros; congruence.
Qed.

(** X1: on a Markdown file that can be read and written, the rewriter
    returns true, the file then holds the rewritten text, every other path
    is as before and the console has one more line. *)
Theorem X1_replaceImagePaths_rewrites :
  forall (mdFilePath : Path) (folderName content : string) (w : World),
    lookup (files w) mdFilePath = Some (File content) ->
    existsb (path_eqb mdFilePath) (readonly (files w)) = false ->
    exists fs',
      replaceImagePaths mdFilePath folderName w
      = (Return true,
         mkWorld fs' (console w ++ [LogUpdated mdFilePath]) (pending w))
      /\ lookup fs' mdFilePath
         = Some (File (replaceContent folderName content))
      /\ (forall q, q <> mdFilePath -> lookup fs' q = lookup (files w) q)
      /\ (forall q, fs_exists fs' q = fs_exists (files w) q).
Proof.
  intros p k c w L R.
  unfold replaceImagePaths, try_catch, bind, readFileSync, writeFileSync,
    log, ret.
  rewrite L. cbv beta iota zeta. rewrite L, R. cbv beta iota.
  eexists. split; [reflexivity|].
  assert (Hl : forall q,
             lookup (mkFS (set_content (nodes (files w)) p
                             (replaceContent k c))
                          (readonly (files w))) q
             = if path_eqb p q then Some (File (replaceContent k c))
               else lookup (files w) q).
  { intros q. unfold lookup; cbn [nodes]. apply lookup_set_content. }
  repeat split.
  - now rewrite Hl, path_eqb_refl.
  - intros q Hq. rewrite Hl.
    destruct (path_eqb p q) eqn:E; [|reflexivity].
    apply path_eqb_eq in E. congruence.
  - intros q. unfold fs_exists. rewrite Hl.
    destruct (path_eqb p q) eqn:E; [|reflexivity].
    apply path_eqb_eq in E. subst q. now rewrite L.
Qed.

(** X2: when the Markdown file is missing, is a directory or cannot be
    written, the rewriter returns false without an exception; the file
    system is as before and the console has the message of the failure. *)
Theorem X2_replaceImagePaths_failure :
  forall (mdFilePath : Path) (folderName : string) (w : World),
    (forall c, lookup (files w) mdFilePath = Some (File c) ->
               existsb (path_eqb mdFilePath) (readonly (files w)) = true) ->
    exists message,
      replaceImagePaths mdFilePath folderName w
      = (Return false,
         mkWorld (files w) (console w ++ [LogReplaceFailed message])
           (pending w)).
Proof.
  intros p k w H.
  unfold replaceImagePaths, try_catch, bind, readFileSync, writeFileSync,
    log, ret.
  destruct (lookup (files w) p) as [[c|]|] eqn:L; cbv beta iota;
    rewrite ?L; cbv beta iota zeta.
  - rewrite (H c eq_refl). eexists; reflexivity.
  - eexists; reflexivity.
  - eexists; reflexivity.
Qed.


(** ** The rewriting of a folder (lines 77-110) *)

Lemma is_md_plain (file : string) : is_md file = true -> plain file = true.
Proof.
  intros H. unfold plain.
  destruct (file =? "")%string eqn:E1;
    [apply String.eqb_eq in E1; subst; discriminate|].
  destruct (file =? ".")%string eqn:E2;
    [apply String.eqb_eq in E2; subst; discriminate|].
  destruct (file =? "..")%string eqn:E3;
    [apply String.eqb_eq in E3; subst; discriminate|].
  reflexivity.
Qed.

Lemma replaceEach_effect (outputFolderPath : Path) (folderName : string)
  (mdFiles : list string) :
  forall w : World,
  exists w',
    replaceEach outputFolderPath folderName mdFiles w = (Return tt, w')
    /\ readonly (files w') = readonly (files w)
    /\ launches (console w') = launches (console w)
    /\ (forall q,
          (forall name, In name mdFiles ->
                        q <> path_join outputFolderPath name) ->
          lookup (files w') q = lookup (files w) q)
    /\ (forall name c,
          NoDup (map (path_join outputFolderPath) mdFiles) ->
          In name mdFiles ->
          lookup (files w) (path_join outputFolderPath name)
          = Some (File c) ->
          existsb (path_eqb (path_join outputFolderPath name))
            (readonly (files w)) = false ->
          lookup (files w') (path_join outputFolderPath name)
          = Some (File (replaceContent folderName c))).
Proof.
  induction mdFiles as [|m rest IH]; intros w.
  - exists w. repeat split; try reflexivity. intros name c _ [].
  - cbn [replaceEach]. unfold bind.
    destruct (replaceImagePaths_effect (path_join outputFolderPath m)
                folderName w) as (b & w1 & -> & R1 & F1 & L1 & W1).
    destruct (IH w1) as (w2 & -> & R2 & L2 & F2 & W2).
    exists w2. split; [reflexivity|].
    split; [congruence|]. split; [congruence|]. split.
    + intros q Hq. rewrite F2, F1; [reflexivity | |].
      * apply Hq. now left.
      * intros name Hn. apply Hq. now right.
    + intros name c Hnd Hin Hl Hro. cbn [map] in Hnd.
      inversion Hnd as [|x xs Hnot Hnd']; subst.
      destruct Hin as [<-|Hin].
      * rewrite F2.
        -- now apply W1.
        -- intros name Hn E. apply Hnot. rewrite E.
           now apply in_map.
      * assert (Hne : path_join outputFolderPath name
                      <> path_join outputFolderPath m).
        { intros E. apply Hnot. rewrite <- E. now apply in_map. }
        apply W2; [exact Hnd' | exact Hin | | ].
        -- now rewrite F1.
        -- now rewrite R1.
Qed.

Lemma processMarkdownFiles_effect (outputFolderPath : Path)
  (folderName : string) (w : World) :
  let mdFiles :=
    filter is_md (entries (nodes (files w)) outputFolderPath) in
  exists w',
    processMarkdownFiles outputFolderPath folderName w
    = (Return match lookup (files w) outputFolderPath with
              | Some Directory => true
              | _ => false
              end, w')
    /\ readonly (files w') = readonly (files w)
    /\ launches (console w') = launches (console w)
    /\ (forall q,
          (forall name, In name mdFiles ->
                        q <> path_join outputFolderPath name) ->
          lookup (files w') q = lookup (files w) q)
    /\ (forall name c,
          lookup (files w) outputFolderPath = Some Directory ->
          NoDup (map (path_join outputFolderPath) mdFiles) ->
          In name mdFiles ->
          lookup (files w) (path_join outputFolderPath name)
          = Some (File c) ->
          existsb (path_eqb (path_join outputFolderPath name))
            (readonly (files w)) = false ->
          lookup (files w') (path_join outputFolderPath name)
          = Some (File (replaceContent folderName c))).
Proof.
  intros mdFiles. subst mdFiles.
  unfold processMarkdownFiles, try_catch, bind, existsSync, readdirSync,
    log, ret, fs_exists.
  destruct (lookup (files w) outputFolderPath) as [[c|]|] eqn:L;
    cbn [negb]; cbv beta iota; rewrite ?L; cbv beta iota zeta.
  - eexists. split; [reflexivity|]. cbn [files console].
    rewrite launches_app, app_nil_r. repeat split. discriminate.
  - set (mdFiles := filter is_md (entries (nodes (files w)) outputFolderPath)).
    destruct (length mdFiles =? 0) eqn:Z.
    + eexists. split; [reflexivity|]. cbn [files console].
      rewrite launches_app, app_nil_r. repeat split.
      intros name c _ _ Hin. apply Nat.eqb_eq in Z.
      destruct mdFiles; [destruct Hin | discriminate Z].
    + match goal with
      | |- context [replaceEach ?p ?k ?l ?w0] =>
          destruct (replaceEach_effect p k l w0)
            as (w1 & -> & R1 & L1 & F1 & W1)
      end.
      cbn [files console] in *.
      eexists. split; [reflexivity|]. cbn [files console].
      rewrite launches_app, app_nil_r, L1, launches_app, app_nil_r.
      repeat split; [exact R1 | exact F1 |].
      intros name c _ Hnd Hin Hl Hro. now apply W1.
  - eexists. split; [reflexivity|]. cbn [files console].
    rewrite launches_app, app_nil_r. repeat split. discriminate.
Qed.

(** X3: in a file system where every directory can be listed, as the
    modelled one is, the rewriting of a folder never raises an exception
    and returns true exactly when the folder is a directory, whether or not
    the single files could be rewritten; it launches no process. *)
Theorem X3_processMarkdownFiles_result :
  forall (outputFolderPath : Path) (folderName : string) (w : World),
    exists w',
      processMarkdownFiles outputFolderPath folderName w
      = (Return match lookup (files w) outputFolderPath with
                | Some Directory => true
                | _ => false
                end, w')
      /\ launches (console w') = launches (console w).
Proof.
  intros p k w.
  destruct (processMarkdownFiles_effect p k w) as (w' & E & _ & L & _).
  exists w'. split; assumption.
Qed.

(** X4: the rewriting of a folder changes nothing but Markdown files that
    are direct entries of the folder: a path that is not the folder
    followed by one name with the extension [.md] (in any letter case)
    keeps its node, and no path appears or disappears. *)
Theorem X4_processMarkdownFiles_confined :
  forall (outputFolderPath : Path) (folderName : string) (w : World),
    exists b w',
      processMarkdownFiles outputFolderPath folderName w = (Return b, w')
      /\ (forall q,
            (forall name, is_md name = true ->
                          q <> outputFolderPath ++ [name]) ->
            lookup (files w') q = lookup (files w) q)
      /\ (forall q, fs_exists (files w') q = fs_exists (files w) q).
Proof.
  intros p k w.
  destruct (processMarkdownFiles_effect p k w) as (w' & E & _ & _ & F & _).
  destruct (processMarkdownFiles_run p k w) as (b & w'' & E' & X).
  rewrite E in E'. injection E' as <- <-.
  eexists; exists w'. split; [exact E|]. split; [|exact (proj1 X)].
  intros q Hq. apply F. intros name Hn.
  apply filter_In in Hn as [_ Hn].
  rewrite (path_join_plain _ _ (is_md_plain name Hn)). now apply Hq.
Qed.

Lemma processMarkdownFiles_rewrites_each :
  forall (outputFolderPath : Path) (folderName name content : string)
         (w : World),
    let mdFiles :=
      filter is_md (entries (nodes (files w)) outputFolderPath) in
    lookup (files w) outputFolderPath = Some Directory ->
    NoDup mdFiles ->
    In name mdFiles ->
    lookup (files w) (outputFolderPath ++ [name]) = Some (File content) ->
    existsb (path_eqb (outputFolderPath ++ [name])) (readonly (files w))
    = false ->
    exists w',
      processMarkdownFiles outputFolderPath folderName w = (Return true, w')
      /\ lookup (files w') (outputFolderPath ++ [name])
         = Some (File (replaceContent folderName content)).
Proof.
  intros p k name c w mdFiles Hd Hnd Hin Hl Hro.
  destruct (processMarkdownFiles_effect p k w) as (w' & E & _ & _ & _ & W).
  rewrite Hd in E. exists w'. split; [exact E|].
  assert (Hpl : forall n, In n mdFiles -> path_join p n = p ++ [n]).
  { intros n Hn. apply path_join_plain, is_md_plain.
    now apply filter_In in Hn as [_ Hn]. }
  rewrite <- (Hpl name Hin) in Hl, Hro |- *.
  apply W; try assumption.
  fold mdFiles. clear - Hnd Hpl.
  induction mdFiles as [|m l IH]; [constructor|].
  inversion Hnd as [|x xs Hnot Hnd']; subst. cbn [map]. constructor.
  - intros Hm. apply in_map_iff in Hm as (n & En & Hn).
    rewrite (Hpl m (or_introl eq_refl)), (Hpl n (or_intror Hn)) in En.
    apply app_inj_tail in En as [_ ->]. contradiction.
  - apply IH; [exact Hnd'|]. intros n Hn. apply Hpl. now right.
Qed.


(** X5: a Markdown file that is listed once in the folder and can be
    written holds, after the rewriting of the folder, the rewritten form of
    what it held before. *)
Theorem X5_processMarkdownFiles_rewrites_each :
  forall (outputFolderPath : Path) (folderName name content : string)
         (w : World),
    let mdFiles :=
      filter is_md (entries (nodes (files w)) outputFolderPath) in
    lookup (files w) outputFolderPath = Some Directory ->
    NoDup mdFiles ->
    In name mdFiles ->
    lookup (files w) (outputFolderPath ++ [name]) = Some (File content) ->
    existsb (path_eqb (outputFolderPath ++ [name])) (readonly (files w))
    = false ->
    exists w',
      processMarkdownFiles outputFolderPath folderName w = (Return true, w')
      /\ lookup (files w') (outputFolderPath ++ [name])
         = Some (File (replaceContent folderName content)).
Proof. exact processMarkdownFiles_rewrites_each. Qed.

(** ** One conversion, step by step (lines 118-179) *)

(** ** One conversion, step by step (lines 118-179) *)

Section Conversion.

Variable os : OS.

Lemma launches_queued (w : World) : launches (queued w) = [].
Proof.
  unfold queued. induction (pending w) as [|errno l IH]; [reflexivity|].
  cbn [flat_map]. rewrite launches_app, IH, app_nil_r.
  unfold closeLine. now destruct errno.
Qed.

Lemma removeOutputFolder_launches (outputFolderPath : Path) (w : World) :
  exists w',
    removeOutputFolder outputFolderPath w = (Return tt, w')
    /\ files w' = cleaned (files w) outputFolderPath
    /\ launches (console w') = launches (console w).
Proof.
  unfold removeOutputFolder, try_catch, bind, existsSync, rmdirSync, log,
    ret, cleaned, fs_exists.
  destruct (lookup (files w) outputFolderPath) as [[c|]|] eqn:L; simpl;
    rewrite ?L; simpl;
    try (eexists; repeat split; cbn [console]; rewrite ?launches_app;
         cbn [launches flat_map app]; rewrite ?app_nil_r; reflexivity).
  destruct (protected (files w) outputFolderPath); simpl;
    eexists; repeat split; cbn [console]; rewrite ?launches_app;
    cbn [launches flat_map app]; rewrite ?app_nil_r; reflexivity.
Qed.

Lemma launches_after_child (command : string) (args : list string)
  (w : World) :
  launches (console (after_child os command args w))
  = launches (console w) ++ [(command, args)].
Proof.
  unfold after_child. cbn [console]. rewrite !launches_app.
  destruct (fst (os command args (files w)));
    rewrite ?launches_queued; cbn [launches flat_map app];
    now rewrite !app_nil_r.
Qed.

Ltac count_launches :=
  cbn [console files]; rewrite ?launches_app, launches_after_child;
  cbn [console]; rewrite ?launches_app; cbn [launches flat_map app];
  rewrite ?app_nil_r; reflexivity.

(** The successful conversion: the child runs once, then the folder is
    rewritten in the world the child left. *)
Lemma processPdf_success (pdfPath outputDir : Path) (w : World) :
  let folder := folderOf outputDir pdfPath in
  let r := os "marker_single" (converterArgs pdfPath outputDir) (files w) in
  fs_exists (files w) folder = false ->
  succeeded (fst r) = true ->
  exists wmid b w',
    files wmid = snd r
    /\ launches (console wmid)
       = launches (console w)
         ++ [("marker_single", converterArgs pdfPath outputDir)]
    /\ processMarkdownFiles folder (pdfKey pdfPath) wmid
       = (Return b, w')
    /\ processPdf os pdfPath outputDir w = (Return true, w').
Proof.
  intros folder r E S1. unfold folder, folderOf in *.
  unfold processPdf, bind, existsSync, try_catch. rewrite E.
  unfold log at 1. cbv beta iota.
  rewrite spawnCommand_run. cbv zeta. cbn [files].
  fold r. destruct (fst r) as [code|errno message] eqn:R; [|discriminate S1].
  rewrite S1. cbn [negb]. unfold log at 1. cbv beta iota.
  match goal with
  | |- context [processMarkdownFiles ?p ?k ?w0] =>
      destruct (processMarkdownFiles_run p k w0) as (b & w1 & Hm & _);
      exists w0, b, w1
  end.
  rewrite Hm. repeat split.
  count_launches.
Qed.

(** The failed conversion: the child runs once, then the folder is
    removed if it can be. *)
Lemma processPdf_failure (pdfPath outputDir : Path) (w : World) :
  let folder := folderOf outputDir pdfPath in
  let r := os "marker_single" (converterArgs pdfPath outputDir) (files w) in
  fs_exists (files w) folder = false ->
  succeeded (fst r) = false ->
  exists w',
    processPdf os pdfPath outputDir w = (Return false, w')
    /\ files w' = cleaned (snd r) folder
    /\ launches (console w')
       = launches (console w)
         ++ [("marker_single", converterArgs pdfPath outputDir)].
Proof.
  intros folder r E S1. unfold folder, folderOf in *.
  unfold processPdf, bind, existsSync, try_catch. rewrite E.
  unfold log at 1. cbv beta iota.
  rewrite spawnCommand_run. cbv zeta. cbn [files].
  fold r. destruct (fst r) as [code|errno message] eqn:R.
  - rewrite S1. cbn [negb]. unfold log at 1. cbv beta iota.
    match goal with
    | |- context [removeOutputFolder ?p ?w0] =>
        destruct (removeOutputFolder_launches p w0) as (w1 & -> & F1 & L1)
    end.
    exists w1. split; [reflexivity|]. split; [exact F1|].
    rewrite L1. count_launches.
  - unfold log at 1. cbv beta iota.
    match goal with
    | |- context [removeOutputFolder ?p ?w0] =>
        destruct (removeOutputFolder_launches p w0) as (w1 & -> & F1 & L1)
    end.
    exists w1. split; [reflexivity|]. split; [exact F1|].
    rewrite L1. count_launches.
Qed.

(** X6: after a successful conversion, a Markdown file that the child
    left once in the folder that the converter tests, the output directory
    joined with [path.basename(pdfPath, '.pdf')], and that can be written
    holds its text rewritten with that key; the converter returns true. *)
Theorem X6_processPdf_rewrites_output :
  forall (pdfPath outputDir : Path) (name content : string) (w : World),
    let folder := folderOf outputDir pdfPath in
    let r := os "marker_single" (converterArgs pdfPath outputDir) (files w) in
    let mdFiles := filter is_md (entries (nodes (snd r)) folder) in
    fs_exists (files w) folder = false ->
    succeeded (fst r) = true ->
    lookup (snd r) folder = Some Directory ->
    NoDup mdFiles ->
    In name mdFiles ->
    lookup (snd r) (folder ++ [name]) = Some (File content) ->
    existsb (path_eqb (folder ++ [name])) (readonly (snd r)) = false ->
    exists w',
      processPdf os pdfPath outputDir w = (Return true, w')
      /\ lookup (files w') (folder ++ [name])
         = Some (File (replaceContent (pdfKey pdfPath) content)).
Proof.
  intros pdfPath outputDir name c w folder r mdFiles E S1 Hd Hnd Hin Hl Hro.
  destruct (processPdf_success pdfPath outputDir w E S1)
    as (wmid & b & w' & Hf & _ & Hm & Hrun).
  fold folder in Hm. fold r in Hf.
  exists w'. split; [exact Hrun|].
  destruct (processMarkdownFiles_rewrites_each folder
              (pdfKey pdfPath) name c wmid)
    as (w2 & Hm2 & Hw); rewrite ?Hf; try assumption.
  rewrite Hm in Hm2. now injection Hm2 as _ <-.
Qed.

Lemma processPdf_attempt_launch :
  forall (pdfPath outputDir : Path) (w : World),
    let folder := folderOf outputDir pdfPath in
    let r := os "marker_single" (converterArgs pdfPath outputDir) (files w) in
    fs_exists (files w) folder = false ->
    exists b w',
      processPdf os pdfPath outputDir w = (Return b, w')
      /\ launches (console w')
         = launches (console w)
           ++ [("marker_single",
                [render pdfPath; "--output_dir"; render outputDir])]
      /\ forall q, fs_exists (files w') q = true ->
                   fs_exists (snd r) q = true.
Proof.
  intros pdfPath outputDir w folder r E.
  destruct (succeeded (fst r)) eqn:S1.
  - destruct (processPdf_success pdfPath outputDir w E S1)
      as (wmid & b & w' & Hf & Hl & Hm & Hrun).
    destruct (processMarkdownFiles_effect folder
                (pdfKey pdfPath) wmid)
      as (w2 & Hm2 & _ & L2 & _).
    fold folder in Hm. rewrite Hm in Hm2. injection Hm2 as _ <-.
    destruct (processMarkdownFiles_run folder
                (pdfKey pdfPath) wmid)
      as (b3 & w3 & Hm3 & X3 & _).
    rewrite Hm in Hm3. injection Hm3 as _ <-.
    exists true, w'. split; [exact Hrun|]. split.
    + rewrite L2. exact Hl.
    + intros q Hq. rewrite X3, Hf in Hq. exact Hq.
  - destruct (processPdf_failure pdfPath outputDir w E S1)
      as (w' & Hrun & Hf & Hl).
    exists false, w'. split; [exact Hrun|]. split; [exact Hl|].
    intros q Hq. rewrite Hf in Hq. fold r folder in Hq.
    unfold fs_exists in *.
    destruct (lookup_cleaned (snd r) folder q) as [H|[_ H]];
      rewrite H in Hq; [exact Hq | discriminate].
Qed.

(** X7: an attempted conversion launches the converter exactly once, with
    the absolute path of the document, [--output_dir] and the absolute
    output directory, and the orchestrator itself creates no path: what
    exists afterwards existed when the child ended. *)
Theorem X7_processPdf_one_launch_no_creation :
  forall (pdfPath outputDir : Path) (w : World),
    let folder := folderOf outputDir pdfPath in
    let r := os "marker_single" (converterArgs pdfPath outputDir) (files w) in
    fs_exists (files w) folder = false ->
    exists b w',
      processPdf os pdfPath outputDir w = (Return b, w')
      /\ launches (console w')
         = launches (console w)
           ++ [("marker_single",
                [render pdfPath; "--output_dir"; render outputDir])]
      /\ forall q, fs_exists (files w') q = true ->
                   fs_exists (snd r) q = true.
Proof. exact processPdf_attempt_launch. Qed.

End Conversion.


(** ** The batch: launches and counters (lines 186-248) *)

Section Batch.

Variable cwd : Path.
Variable os : OS.

Lemma processEach_launches (absoluteInputDir absoluteOutputDir : Path)
  (l : list string) :
  (forall f, In f l -> is_pdf f = true) ->
  forall (c : counts) (w : World),
  exists c' w' done,
    processEach os absoluteInputDir absoluteOutputDir l c w = (Return c', w')
    /\ subseq done l
    /\ launches (console w')
       = launches (console w)
         ++ map (launchOf absoluteInputDir absoluteOutputDir) done
    /\ successCount c' + failCount c'
       = successCount c + failCount c + length done
    /\ skipCount c' + length done = skipCount c + length l.
Proof.
  induction l as [|f rest IH]; intros Hpdf c w.
  - exists c, w, []. repeat split; try constructor; simpl; try lia.
    now rewrite app_nil_r.
  - assert (IH' := IH (fun g Hg => Hpdf g (or_intror Hg))). clear IH.
    cbn [processEach]. unfold bind at 1, existsSync.
    destruct (fs_exists (files w)
                (path_join absoluteOutputDir (basename f ".pdf"))) eqn:E.
    + unfold bind at 1, log at 1.
      match goal with
      | |- context [processEach os _ _ rest ?c1 ?w1] =>
          destruct (IH' c1 w1) as (c' & w' & done & -> & Hs & Hl & Hc & Hk)
      end.
      exists c', w', done. split; [reflexivity|].
      split; [now constructor|].
      cbn [console successCount skipCount failCount] in Hl, Hc, Hk.
      rewrite launches_app in Hl. cbn [launches flat_map app] in Hl.
      fold (@launches) in Hl.
      split; [|split; simpl; lia].
      rewrite Hl. unfold launches at 2. now rewrite app_nil_r.
    + unfold bind at 1.
      assert (E' : fs_exists (files w)
                     (folderOf absoluteOutputDir
                        (path_join absoluteInputDir f)) = false).
      { rewrite folderOf_join by (apply Hpdf; now left). exact E. }
      destruct (processPdf_attempt_launch os
                  (path_join absoluteInputDir f) absoluteOutputDir w E')
        as (b & w1 & -> & Hl1 & _).
      destruct b;
        match goal with
        | |- context [processEach os _ _ rest ?c1 ?w0] =>
            destruct (IH' c1 w0) as (c' & w' & done & -> & Hs & Hl & Hc & Hk)
        end;
        exists c', w', (f :: done); (split; [reflexivity|]);
        (split; [now constructor|]);
        cbn [successCount skipCount failCount] in Hc, Hk;
        (split; [|split; simpl; lia]);
        rewrite Hl, Hl1; cbn [map]; rewrite <- app_assoc; reflexivity.
Qed.

(** X8: in a run that reaches the loop, whatever the converter does, the
    converter is launched for candidates only, at most once for each, in
    listing order; the summary line is the last line printed when the
    promise of the run settles, and after it the process prints only the
    exit-code lines of the [close] handlers still queued, those of
    converters that could not be launched; the three counts of the summary
    sum to the number of candidates, and the launches are as many as the
    documents reported succeeded or failed. *)
Theorem X8_run_launches_and_counts :
  forall (inputDir outputDir : string) (w w0 : World),
    let absoluteInputDir := resolve cwd inputDir in
    let absoluteOutputDir := resolve cwd outputDir in
    let pdfFiles := candidates (files w0) absoluteInputDir in
    fs_exists (files w) absoluteInputDir = true ->
    ensureOutputDir absoluteOutputDir w = (Return tt, w0) ->
    lookup (files w0) absoluteInputDir = Some Directory ->
    1 <= length pdfFiles ->
    exists w' done s k f l,
      processAllPdfs cwd os inputDir outputDir w = (Return tt, w')
      /\ console w' = l ++ [LogSummary s k f]
      /\ console (atExit w') = (l ++ [LogSummary s k f]) ++ queued w'
      /\ Forall exitLine (queued w')
      /\ s + k + f = length pdfFiles
      /\ subseq done pdfFiles
      /\ length done = s + f
      /\ launches (console (atExit w'))
         = launches (console w0)
           ++ map (launchOf absoluteInputDir absoluteOutputDir) done.
Proof.
  intros inputDir outputDir w w0 absIn absOut pdfFiles Hex Hens Hin HN.
  rewrite (processAllPdfs_run cwd os inputDir outputDir w w0 Hex Hens Hin).
  fold absIn absOut pdfFiles.
  destruct (length pdfFiles =? 0) eqn:Z; [apply Nat.eqb_eq in Z; lia|].
  destruct (processEach_launches absIn absOut pdfFiles
              (fun g => candidates_pdf (files w0) absIn g)
              (mkCounts 0 0 0)
              (mkWorld (files w0)
                 (console w0 ++ [LogFoundPdf (length pdfFiles)])
                 (pending w0)))
    as (c' & w' & done & -> & Hs & Hl & Hc & Hk).
  cbn [successCount skipCount failCount console] in Hl, Hc, Hk.
  eexists; exists done, (successCount c'), (skipCount c'), (failCount c').
  eexists. split; [reflexivity|]. cbn [console].
  split; [reflexivity|]. split; [reflexivity|].
  split; [apply queued_exitLines|].
  split; [lia|]. split; [exact Hs|]. split; [lia|].
  unfold atExit. cbn [console].
  rewrite !launches_app, launches_queued.
  cbn [launches flat_map app]. fold (@launches).
  rewrite !app_nil_r, Hl, launches_app.
  cbn [launches flat_map app]. now rewrite app_nil_r.
Qed.

Lemma lookup_after_mkdir (fs : FS) (l : list (Path * node)) (q : Path) :
  lookup fs q <> None ->
  lookup (mkFS (nodes fs ++ l) (readonly fs)) q = lookup fs q.
Proof.
  unfold lookup. cbn [nodes]. rewrite lookup_node_app.
  now destruct (lookup_node (nodes fs) q).
Qed.

(** X9: errors of the run itself are logged, the run returns normally
    and no process is launched.  When the input path is a regular file and
    the output directory exists, one error line is printed and the file
    system is untouched; when the input path is a regular file and the
    output directory is missing and can be created, it is created with its
    line on the console, nothing that existed is changed, and the listing
    then fails with one error line; when the input path exists and the
    output directory is missing and cannot be created, one error line is
    printed and the file system is untouched. *)
Theorem X9_run_errors_are_logged :
  forall (inputDir outputDir : string) (w : World),
    let absoluteInputDir := resolve cwd inputDir in
    let absoluteOutputDir := resolve cwd outputDir in
    let made :=
      mkFS (nodes (files w) ++ missing_dirs (files w) [] absoluteOutputDir)
        (readonly (files w)) in
    ((exists c, lookup (files w) absoluteInputDir = Some (File c)) ->
     fs_exists (files w) absoluteOutputDir = true ->
     processAllPdfs cwd os inputDir outputDir w
     = (Return tt,
        mkWorld (files w) (console w ++ [LogRunError "ENOTDIR"]) (pending w)))
    /\ ((exists c, lookup (files w) absoluteInputDir = Some (File c)) ->
        fs_exists (files w) absoluteOutputDir = false ->
        file_on_the_way (files w) [] absoluteOutputDir = false ->
        existsb (fun r => is_under r absoluteOutputDir) (readonly (files w))
        = false ->
        processAllPdfs cwd os inputDir outputDir w
        = (Return tt,
           mkWorld made
             (console w ++ [LogCreatedOutputDir absoluteOutputDir;
                            LogRunError "ENOTDIR"])
             (pending w))
        /\ (forall q, lookup (files w) q <> None ->
                      lookup made q = lookup (files w) q))
    /\ (fs_exists (files w) absoluteInputDir = true ->
        fs_exists (files w) absoluteOutputDir = false ->
        file_on_the_way (files w) [] absoluteOutputDir = true
        \/ existsb (fun r => is_under r absoluteOutputDir)
             (readonly (files w)) = true ->
        exists message,
          processAllPdfs cwd os inputDir outputDir w
          = (Return tt,
             mkWorld (files w) (console w ++ [LogRunError message])
               (pending w))).
Proof.
  intros inputDir outputDir w absIn absOut made.
  split; [|split]; unfold processAllPdfs, try_catch; fold absIn absOut;
    unfold bind at 1, existsSync at 1.
  - intros [c Hin] Hout.
    assert (Hex : fs_exists (files w) absIn = true)
      by (unfold fs_exists; now rewrite Hin).
    rewrite Hex. cbn [negb]. cbv beta iota.
    unfold bind at 1. rewrite (ensureOutputDir_exists absOut w Hout).
    unfold bind at 1, readdirSync. rewrite Hin. reflexivity.
  - intros [c Hin] Hout Hway Hro.
    assert (Hex : fs_exists (files w) absIn = true)
      by (unfold fs_exists; now rewrite Hin).
    assert (Hl : forall q, lookup (files w) q <> None ->
                           lookup made q = lookup (files w) q)
      by (intros q; apply lookup_after_mkdir).
    split; [|exact Hl].
    rewrite Hex. cbn [negb]. cbv beta iota.
    unfold bind at 1, ensureOutputDir, bind at 1, existsSync at 1.
    rewrite Hout. cbn [negb]. cbv beta iota.
    unfold bind at 1, mkdirSync. cbv zeta. rewrite Hway, Hro.
    unfold log at 1. cbv beta iota.
    unfold bind at 1, readdirSync. cbn [files]. fold made.
    rewrite (Hl absIn) by (rewrite Hin; discriminate). rewrite Hin.
    unfold log. cbn [files console pending].
    now rewrite <- app_assoc.
  - intros Hex Hout Hmk.
    rewrite Hex. cbn [negb]. cbv beta iota.
    unfold bind at 1, ensureOutputDir, bind at 1, existsSync at 1.
    rewrite Hout. cbn [negb]. cbv beta iota.
    unfold bind at 1, mkdirSync. cbv zeta.
    destruct (file_on_the_way (files w) [] absOut).
    + exists "ENOTDIR". reflexivity.
    + destruct Hmk as [Hmk|Hmk]; [discriminate|]. rewrite Hmk.
      exists "EACCES". reflexivity.
Qed.

End Batch.

(** ** The filter and the key of a document (lines 120, 208, 225) *)

Lemma length_toLowerCase (s : string) :
  String.length (toLowerCase s) = String.length s.
Proof. induction s as [|c s IH]; simpl; [reflexivity | now rewrite IH]. Qed.

Lemma lower_char_dot (c : ascii) :
  (lower_char c =? ".")%char = (c =? ".")%char.
Proof.
  unfold lower_char.
  destruct ((65 <=? nat_of_ascii c) && (nat_of_ascii c <=? 90)) eqn:R;
    [|reflexivity].
  apply andb_prop in R as [R1 R2].
  apply Nat.leb_le in R1. apply Nat.leb_le in R2.
  assert (E1 : (c =? ".")%char = false).
  { apply Ascii.eqb_neq. intros ->.
    change (nat_of_ascii ".") with 46 in R1. lia. }
  rewrite E1. apply Ascii.eqb_neq. intros E.
  apply (f_equal nat_of_ascii) in E.
  rewrite nat_ascii_embedding in E by lia.
  change (nat_of_ascii ".") with 46 in E. lia.
Qed.

Lemma last_dot_append (s e : string) (i : nat) :
  last_dot e = Some i -> last_dot (s ++ e) = Some (String.length s + i).
Proof.
  intros H. induction s as [|c s IH]; simpl; [exact H|]. now rewrite IH.
Qed.


(** X10: the filter of the batch accepts exactly the names made of at
    least one character followed by an extension of four characters that
    is [.pdf] in some letter case; a file named just [.pdf] is not a
    candidate. *)
Theorem X10_is_pdf_characterised :
  forall name : string,
    is_pdf name = true
    <-> exists s e : string,
          name = (s ++ e)%string /\ s <> ""
          /\ String.length e = 4 /\ toLowerCase e = ".pdf".
Proof.
  intros name. unfold is_pdf. split.
  - intros H. apply String.eqb_eq in H.
    exists (stem name), (extname name). repeat split.
    + symmetry. apply stem_extname.
    + apply stem_not_empty. intros E. rewrite E in H. discriminate H.
    + rewrite <- length_toLowerCase, H. reflexivity.
    + exact H.
  - intros (s & e & -> & Hs & Hlen & Hlow).
    destruct e as [|c0 [|c1 [|c2 [|c3 [|c4 e]]]]]; try discriminate Hlen.
    cbn [toLowerCase] in Hlow. injection Hlow as H0 H1 H2 H3.
    assert (D0 : (c0 =? ".")%char = true)
      by (rewrite <- lower_char_dot, H0; reflexivity).
    assert (D1 : (c1 =? ".")%char = false)
      by (rewrite <- lower_char_dot, H1; reflexivity).
    assert (D2 : (c2 =? ".")%char = false)
      by (rewrite <- lower_char_dot, H2; reflexivity).
    assert (D3 : (c3 =? ".")%char = false)
      by (rewrite <- lower_char_dot, H3; reflexivity).
    set (e := String c0 (String c1 (String c2 (String c3 "")))).
    assert (Le : last_dot e = Some 0)
      by (unfold e; cbn [last_dot]; now rewrite D3, D2, D1, D0).
    assert (Ex : extname (s ++ e) = e).
    { unfold extname. rewrite (last_dot_append s e 0 Le), Nat.add_0_r.
      destruct s as [|c s]; [congruence|]. cbn [String.length].
      destruct ((String c s ++ e)%string =? "..")%string eqn:E.
      - apply String.eqb_eq in E. apply (f_equal String.length) in E.
        rewrite length_append in E. simpl in E. lia.
      - change (S (String.length s)) with (String.length (String c s)).
        apply drop_append. }
    rewrite Ex. unfold e. cbn [toLowerCase].
    now rewrite H0, H1, H2, H3.
Qed.

(** X11: for a name whose extension is [.pdf] in lower case, the key
    followed by [.pdf] is the name again, so two such names with the same
    key are the same name. *)
Theorem X11_key_round_trip :
  forall name other : string,
    extname name = ".pdf" ->
    extname other = ".pdf" ->
    (basename name ".pdf" ++ ".pdf")%string = name
    /\ (basename name ".pdf" = basename other ".pdf" -> name = other).
Proof.
  intros name other E1 E2.
  assert (R : forall n, extname n = ".pdf" ->
                        (basename n ".pdf" ++ ".pdf")%string = n).
  { intros n E. rewrite (key_of_lower_case_pdf n E).
    pose proof (stem_extname n) as H. now rewrite E in H. }
  split; [now apply R|].
  intros K. rewrite <- (R name E1), <- (R other E2). now rewrite K.
Qed.

(** ** Rewriting twice (lines 58-59) *)

Lemma prefix_monotone (p s t : string) :
  prefix p s = true -> prefix p (s ++ t) = true.
Proof.
  intros H. rewrite (prefix_split p s H), append_assoc.
  apply prefix_append.
Qed.

Lemma occurs_page_before (a b : string) :
  occurs "_page" (a ++ b) = false -> occurs "_page" a = false.
Proof.
  induction a as [|c a IH]; [reflexivity|].
  change (String c a ++ b)%string with (String c (a ++ b)).
  cbn [occurs]. intros H. apply orb_false_elim in H as [Hp Ho].
  rewrite (IH Ho), orb_false_r.
  destruct (prefix "_page" (String c a)) eqn:P; [|reflexivity].
  apply (prefix_monotone _ _ b) in P.
  change (String c a ++ b)%string with (String c (a ++ b)) in P.
  congruence.
Qed.

Lemma replaceContent_keeps_paren (folderName r : string) :
  r = "" \/ prefix ")" r = true ->
  replaceContent folderName r = ""
  \/ prefix ")" (replaceContent folderName r) = true.
Proof.
  intros [->|P]; [now left | right].
  destruct r as [|c r]; [discriminate|]. cbn [prefix] in P.
  destruct (ascii_dec ")" c) as [<-|]; [|discriminate].
  unfold replaceContent. cbn [replace_loop].
  replace (match_here (String ")" r)) with (@None nat) by reflexivity.
  set (rest := replace_loop _ _ _ _). cbn [prefix].
  destruct (ascii_dec ")" ")") as [_|N]; [now destruct rest | congruence].
Qed.

(** X12: the rewriter is not idempotent: applied to a text that it has
    already rewritten, it puts the address before each page-image name a
    second time. *)
Theorem X12_rewriting_twice_doubles :
  forall folderName a x r : string,
    has_char "$" folderName = false ->
    occurs "_page" (a ++ "http://localhost:3000/" ++ folderName ++ "/")
    = false ->
    x <> "" ->
    has_char ")" x = false ->
    r = "" \/ prefix ")" r = true ->
    replaceContent folderName
      (replaceContent folderName (a ++ "_page" ++ x ++ ".jpeg" ++ r))
    = (a ++ "http://localhost:3000/" ++ folderName ++ "/"
         ++ "http://localhost:3000/" ++ folderName ++ "/"
         ++ "_page" ++ x ++ ".jpeg"
         ++ replaceContent folderName (replaceContent folderName r))%string.
Proof.
  intros k a x r Hk Ha Hne Hx Hr.
  rewrite (replaceContent_name k a x r Hk (occurs_page_before _ _ Ha) Hne Hx
             (longest_before_paren x r Hr)).
  set (U := ("http://localhost:3000/" ++ k ++ "/")%string) in *.
  set (r1 := replaceContent k r).
  assert (E : (a ++ "http://localhost:3000/" ++ k ++ "/"
                 ++ "_page" ++ x ++ ".jpeg" ++ r1)%string
              = ((a ++ U) ++ "_page" ++ x ++ ".jpeg" ++ r1)%string).
  { unfold U. now rewrite !append_assoc. }
  rewrite E.
  rewrite (replaceContent_name k (a ++ U) x r1 Hk Ha Hne Hx
             (longest_before_paren x r1
                (replaceContent_keeps_paren k r Hr))).
  unfold U. now rewrite !append_assoc.
Qed.


(* ================================================================= *)
(** * Properties of the content server *)

Module ServerFacts.

Import Server.

(** ** Splitting and joining path strings *)

Lemma split_slash_app (a b acc : string) :
  split_slash acc (a ++ String "/" b)
  = split_slash acc a ++ split_slash "" b.
Proof.
  revert acc; induction a as [|c a IH]; intros acc.
  - reflexivity.
  - change (String c a ++ String "/" b)%string
      with (String c (a ++ String "/" b)).
    cbn [split_slash]. destruct (c =? "/")%char.
    + rewrite IH. reflexivity.
    + apply IH.
Qed.

Lemma split_slash_free (s acc : string) :
  has_char "/" s = false -> split_slash acc s = [(acc ++ s)%string].
Proof.
  revert acc; induction s as [|c s IH]; intros acc H.
  - simpl. now rewrite append_empty_r.
  - cbn [has_char] in H. apply orb_false_elim in H as [Hc Hs].
    cbn [split_slash]. rewrite Hc, (IH _ Hs), append_assoc. reflexivity.
Qed.

Lemma clean_slash_free (c : string) : clean c = true -> has_char "/" c = false.
Proof.
  unfold clean. intros H. apply andb_prop in H as [_ H].
  now apply negb_true_iff in H.
Qed.

Lemma clean_plain (c : string) : clean c = true -> plain c = true.
Proof. unfold clean. intros H. now apply andb_prop in H as [H _]. Qed.

Lemma clean_not_special (c : string) :
  clean c = true ->
  (c =? "")%string = false /\ (c =? ".")%string = false
  /\ (c =? "..")%string = false.
Proof.
  intros H. apply clean_plain in H. unfold plain in H.
  apply negb_true_iff in H.
  apply orb_false_elim in H as [H H3]. apply orb_false_elim in H as [H1 H2].
  auto.
Qed.

(** The segments of [a/b/c] are [a], [b] and [c]. *)
Lemma segments_concat (l : list string) :
  l <> [] -> Forall (fun c => clean c = true) l ->
  segments (String.concat "/" l) = l.
Proof.
  unfold segments. induction l as [|x l IH]; [congruence|].
  intros _ H. inversion H as [|y ys Hx Hl]; subst.
  destruct l as [|y l].
  - cbn [String.concat]. rewrite split_slash_free by now apply clean_slash_free.
    reflexivity.
  - change (String.concat "/" (x :: y :: l))
      with (x ++ String "/" (String.concat "/" (y :: l)))%string.
    rewrite split_slash_app, IH by (congruence || assumption).
    rewrite split_slash_free by now apply clean_slash_free.
    reflexivity.
Qed.

Lemma render_concat (p : Path) :
  p <> [] -> render p = String "/" (String.concat "/" p).
Proof.
  destruct p as [|x p]; [congruence|]. intros _. unfold render.
  set (f := fun c acc : string => ("/" ++ c ++ acc)%string).
  revert x. induction p as [|y p IH]; intros x.
  - unfold f. cbn. now rewrite append_empty_r.
  - change (fold_right f "" (x :: y :: p))
      with (f x (fold_right f "" (y :: p))).
    rewrite (IH y). reflexivity.
Qed.

Lemma segments_render (p : Path) :
  p <> [] -> Forall (fun c => clean c = true) p ->
  segments (render p) = "" :: p.
Proof.
  intros Hne H. rewrite (render_concat p Hne).
  unfold segments. cbn [split_slash].
  replace ("/" =? "/")%char with true by reflexivity.
  f_equal. now apply segments_concat.
Qed.

(** ** Normalisation *)

Lemma normalizeStep_clean (allow : bool) (res : list string) (c : string) :
  clean c = true -> normalizeStep allow res c = res ++ [c].
Proof.
  intros H. destruct (clean_not_special c H) as (H1 & H2 & H3).
  unfold normalizeStep. now rewrite H1, H2, H3.
Qed.

Lemma normalizeStep_empty (allow : bool) (res : list string) :
  normalizeStep allow res "" = res.
Proof. reflexivity. Qed.

Lemma fold_clean (allow : bool) (l res : list string) :
  Forall (fun c => clean c = true) l ->
  fold_left (normalizeStep allow) l res = res ++ l.
Proof.
  revert res; induction l as [|c l IH]; intros res H.
  - now rewrite app_nil_r.
  - inversion H; subst. cbn [fold_left].
    rewrite normalizeStep_clean by assumption.
    rewrite IH by assumption. now rewrite <- app_assoc.
Qed.

Lemma Forall_removelast (A : Type) (P : A -> Prop) (l : list A) :
  Forall P l -> Forall P (removelast l).
Proof.
  induction l as [|a l IH]; intros H; [constructor|].
  inversion H; subst. cbn [removelast].
  destruct l; [constructor | constructor; auto].
Qed.

Lemma split_slash_segments_free (s acc : string) :
  has_char "/" acc = false ->
  Forall (fun c => has_char "/" c = false) (split_slash acc s).
Proof.
  revert acc; induction s as [|c s IH]; intros acc H.
  - repeat constructor. exact H.
  - cbn [split_slash]. destruct (c =? "/")%char eqn:C.
    + constructor; [exact H | now apply IH].
    + apply IH. rewrite has_char_append, H. cbn [has_char].
      now rewrite C.
Qed.

(** Below the root nothing but clean segments is left. *)
Lemma normalizeString_clean (segs res : list string) :
  Forall (fun c => has_char "/" c = false) segs ->
  Forall (fun c => clean c = true) res ->
  Forall (fun c => clean c = true) (fold_left (normalizeStep false) segs res).
Proof.
  revert res; induction segs as [|s segs IH]; intros res Hs Hr; [exact Hr|].
  inversion Hs; subst. cbn [fold_left]. apply IH; [assumption|].
  unfold normalizeStep.
  destruct (s =? "")%string eqn:E1; [exact Hr|].
  destruct (s =? ".")%string eqn:E2; [exact Hr|]. cbn [orb].
  destruct (s =? "..")%string eqn:E3.
  - destruct res as [|r res]; [constructor|].
    destruct (last (r :: res) "" =? "..")%string; [exact Hr|].
    now apply Forall_removelast.
  - apply Forall_app. split; [exact Hr|]. repeat constructor.
    unfold clean, plain. rewrite E1, E2, E3. cbn [orb negb andb].
    now apply negb_true_iff.
Qed.

Lemma concat_clean_not_empty (l : list string) :
  l <> [] -> Forall (fun c => clean c = true) l ->
  (String.concat "/" l =? "")%string = false.
Proof.
  destruct l as [|x l]; [congruence|]. intros _ H.
  inversion H as [|y ys Hx _]; subst.
  destruct (clean_not_special x Hx) as (H1 & _).
  apply String.eqb_neq in H1. apply String.eqb_neq.
  destruct l; cbn [String.concat]; [exact H1|].
  destruct x; [congruence | discriminate].
Qed.


Lemma absolute_not_empty (p : string) :
  prefix "/" p = true -> (p =? "")%string = false.
Proof. destruct p; [discriminate | reflexivity]. Qed.

Lemma normalizeString_absolute_clean (p : string) :
  Forall (fun c => clean c = true) (normalizeString false (segments p)).
Proof.
  unfold normalizeString, segments.
  apply normalizeString_clean; [|constructor].
  now apply split_slash_segments_free.
Qed.

(** The normal form of an absolute path string. *)
Lemma normalize_absolute (p : string) :
  prefix "/" p = true ->
  normalize p
  = match normalizeString false (segments p) with
    | [] => "/"
    | n => (String "/" (String.concat "/" n)
            ++ (if ends_with "/" p then "/" else ""))%string
    end.
Proof.
  intros H. unfold normalize.
  rewrite (absolute_not_empty p H), H. cbn [negb].
  pose proof (normalizeString_absolute_clean p) as C.
  destruct (normalizeString false (segments p)) as [|x n] eqn:E.
  - reflexivity.
  - rewrite concat_clean_not_empty by (congruence || assumption).
    reflexivity.
Qed.

Lemma filter_clean (l : list string) :
  Forall (fun c => clean c = true) l ->
  filter (fun c => negb (c =? "")%string) l = l.
Proof.
  induction l as [|x l IH]; intros H; [reflexivity|].
  inversion H as [|y ys Hx Hl]; subst. cbn [filter].
  destruct (clean_not_special x Hx) as (-> & _). cbn [negb].
  now rewrite IH.
Qed.

(** The segments of a normal absolute path: the first is empty, the
    others are the components, and an empty one follows a final
    separator. *)
Lemma segments_normal (n : list string) (trailing : bool) :
  n <> [] -> Forall (fun c => clean c = true) n ->
  segments (String "/" (String.concat "/" n)
            ++ (if trailing then "/" else ""))
  = "" :: n ++ (if trailing then [""] else []).
Proof.
  intros Hne H. unfold segments.
  change (String "/" (String.concat "/" n) ++ (if trailing then "/" else ""))%string
    with (String "/" (String.concat "/" n ++ (if trailing then "/" else ""))).
  cbn [split_slash]. replace ("/" =? "/")%char with true by reflexivity.
  f_equal. destruct trailing.
  - rewrite split_slash_app. f_equal. now apply segments_concat.
  - rewrite append_empty_r, app_nil_r. now apply segments_concat.
Qed.

Lemma toPath_normalize_absolute (p : string) :
  prefix "/" p = true ->
  toPath (normalize p) = normalizeString false (segments p).
Proof.
  intros H. rewrite (normalize_absolute p H).
  pose proof (normalizeString_absolute_clean p) as C.
  destruct (normalizeString false (segments p)) as [|x n] eqn:E;
    [reflexivity|].
  unfold toPath. rewrite segments_normal by (congruence || assumption).
  cbn [filter]. replace ("" =? "")%string with true by reflexivity.
  cbn [negb]. rewrite filter_app, (filter_clean _ C).
  destruct (ends_with "/" p); cbn; now rewrite app_nil_r.
Qed.

(** Normalising again changes nothing: the segments of a normal absolute
    path are added one by one. *)
Lemma fold_segments_normalize (p : string) (res : list string) :
  prefix "/" p = true ->
  fold_left (normalizeStep false) (segments (normalize p)) res
  = res ++ normalizeString false (segments p).
Proof.
  intros H. rewrite (normalize_absolute p H).
  pose proof (normalizeString_absolute_clean p) as C.
  destruct (normalizeString false (segments p)) as [|x n] eqn:E.
  - cbn. now rewrite app_nil_r.
  - rewrite segments_normal by (congruence || assumption).
    cbn [fold_left]. rewrite normalizeStep_empty, fold_left_app.
    rewrite (fold_clean false _ res C).
    destruct (ends_with "/" p); reflexivity.
Qed.

Lemma fold_segments_render (root : Path) :
  Forall (fun c => clean c = true) root ->
  fold_left (normalizeStep false) (segments (render root)) [] = root.
Proof.
  intros H. destruct root as [|x root]; [reflexivity|].
  rewrite segments_render by (congruence || assumption).
  change (fold_left (normalizeStep false) ("" :: x :: root) [])
    with (fold_left (normalizeStep false) (x :: root) []).
  now rewrite fold_clean.
Qed.

Lemma prefix_slash (s : string) : prefix "/" (String "/" s) = true.
Proof.
  cbn [prefix]. destruct (ascii_dec "/" "/"); [now destruct s | congruence].
Qed.

Lemma prefix_normalize_absolute (p : string) :
  prefix "/" p = true -> prefix "/" (normalize p) = true.
Proof.
  intros H. rewrite (normalize_absolute p H).
  destruct (normalizeString false (segments p)); [reflexivity|].
  apply prefix_slash.
Qed.

Lemma stripParents_absolute (s : string) :
  prefix "/" s = true -> stripParents s = s.
Proof.
  destruct s as [|c1 [|c2 [|c3 s]]]; try reflexivity.
  cbn [prefix]. destruct (ascii_dec "/" c1) as [<-|]; [|discriminate].
  reflexivity.
Qed.

Lemma prefix_render (root : Path) (s : string) :
  prefix "/" (render root ++ s) = true.
Proof.
  destruct root as [|x root]; [apply prefix_slash|].
  rewrite render_concat by congruence. apply prefix_slash.
Qed.

Lemma render_not_empty (root : Path) : (render root =? "")%string = false.
Proof. destruct root as [|x root]; reflexivity. Qed.

(** The file of a request with an absolute path, as a joined string and
    as a path. *)
Lemma requestedFile_absolute (root : Path) (pathname : string) :
  Forall (fun c => clean c = true) root ->
  prefix "/" pathname = true ->
  requestedFile root pathname
  = normalize (render root ++ String "/" (normalize pathname))
  /\ normalizeString false
       (segments (render root ++ String "/" (normalize pathname)))
     = root ++ normalizeString false (segments pathname).
Proof.
  intros Hr Hp. split.
  - unfold requestedFile.
    rewrite (stripParents_absolute _ (prefix_normalize_absolute _ Hp)).
    unfold join. rewrite render_not_empty.
    now rewrite (absolute_not_empty _ (prefix_normalize_absolute _ Hp)).
  - unfold normalizeString, segments at 1.
    rewrite split_slash_app, fold_left_app.
    fold (segments (render root)). rewrite (fold_segments_render root Hr).
    fold (segments (normalize pathname)).
    now apply fold_segments_normalize.
Qed.

(** X13: for a root of clean components and a request path that begins
    with [/], the file that the server looks up is the root followed by
    the normalised segments of the request path; it is the root or lies
    under it, whatever [..] the request path holds. *)
Theorem X13_request_stays_under_root :
  forall (root : Path) (pathname : string),
    Forall (fun c => clean c = true) root ->
    prefix "/" pathname = true ->
    toPath (requestedFile root pathname)
    = root ++ normalizeString false (segments pathname)
    /\ is_under root (toPath (requestedFile root pathname)) = true.
Proof.
  intros root pathname Hr Hp.
  destruct (requestedFile_absolute root pathname Hr Hp) as [E N].
  assert (T : toPath (requestedFile root pathname)
              = root ++ normalizeString false (segments pathname)).
  { rewrite E, toPath_normalize_absolute by apply prefix_render. exact N. }
  split; [exact T|]. rewrite T.
  rewrite <- (app_nil_r root) at 1. apply is_under_app.
Qed.


(** ** The directory listing (lines 73-154) *)

Lemma pushEntry_class (cfg : Config) (urlPath : string) (g : groups)
  (x : Dirent) :
  pushEntry cfg urlPath g x
  = mkGroups
      (directories g
       ++ if (classOf cfg x =? "directory")%string
          then [itemOf cfg urlPath x] else [])
      (markdownFiles g
       ++ if (classOf cfg x =? "markdown")%string
          then [itemOf cfg urlPath x] else [])
      (imageFiles g
       ++ if (classOf cfg x =? "image")%string
          then [itemOf cfg urlPath x] else [])
      (otherFiles g
       ++ if (classOf cfg x =? "file")%string
          then [itemOf cfg urlPath x] else []).
Proof.
  unfold pushEntry, itemOf, classOf.
  destruct (isDirectory x);
    [|destruct (toLowerCase (extname (name x)) =? ".md")%string;
      [|destruct (includes (imageExtensions cfg)
                   (toLowerCase (extname (name x))))]];
    cbn [String.eqb Ascii.eqb Bool.eqb]; now rewrite !app_nil_r.
Qed.

Lemma fold_pushEntry (cfg : Config) (urlPath : string) (es : list Dirent) :
  forall g : groups,
    fold_left (pushEntry cfg urlPath) es g
    = mkGroups
        (directories g
         ++ map (itemOf cfg urlPath) (ofClass cfg "directory" es))
        (markdownFiles g
         ++ map (itemOf cfg urlPath) (ofClass cfg "markdown" es))
        (imageFiles g ++ map (itemOf cfg urlPath) (ofClass cfg "image" es))
        (otherFiles g ++ map (itemOf cfg urlPath) (ofClass cfg "file" es)).
Proof.
  induction es as [|x es IH]; intros g.
  - cbn. rewrite !app_nil_r. now destruct g.
  - cbn [fold_left]. rewrite IH, pushEntry_class.
    cbn [directories markdownFiles imageFiles otherFiles].
    unfold ofClass. cbn [filter].
    destruct (classOf cfg x =? "directory")%string,
             (classOf cfg x =? "markdown")%string,
             (classOf cfg x =? "image")%string,
             (classOf cfg x =? "file")%string;
      cbn [map]; rewrite <- ?app_assoc, ?app_nil_r; reflexivity.
Qed.

Lemma classOf_cases (cfg : Config) (x : Dirent) :
  classOf cfg x = "directory" \/ classOf cfg x = "markdown"
  \/ classOf cfg x = "image" \/ classOf cfg x = "file".
Proof.
  unfold classOf. destruct (isDirectory x); [now left|].
  destruct (_ =? ".md")%string; [right; now left|].
  destruct (includes _ _); [right; right; now left | now repeat right].
Qed.

(** Every entry is in exactly one of the four groups. *)
Lemma classes_permutation (cfg : Config) (es : list Dirent) :
  Permutation
    (ofClass cfg "directory" es ++ ofClass cfg "markdown" es
     ++ ofClass cfg "image" es ++ ofClass cfg "file" es)
    es.
Proof.
  induction es as [|x es IH]; [constructor|].
  unfold ofClass in *. cbn [filter].
  destruct (classOf_cases cfg x) as [E|[E|[E|E]]]; rewrite E;
    cbn [String.eqb Ascii.eqb Bool.eqb]; cbn [app];
    apply Permutation_sym.
  - constructor. now apply Permutation_sym.
  - apply Permutation_cons_app. now apply Permutation_sym.
  - rewrite app_assoc. apply Permutation_cons_app.
    rewrite <- app_assoc. now apply Permutation_sym.
  - rewrite !app_assoc. apply Permutation_cons_app.
    rewrite <- !app_assoc. now apply Permutation_sym.
Qed.

(** X14: the listing of a directory shows every entry exactly once:
    first the directories, then the Markdown files, then the images, then
    the other files, each group in the order of the directory; an entry
    that is a directory counts as one whatever its name. *)
Theorem X14_listing_groups_entries :
  forall (cfg : Config) (fs : FS) (dirPath urlPath : string)
         (sent : list (string * string)),
    lookup fs (toPath dirPath) = Some Directory ->
    let es := readdir fs (toPath dirPath) in
    exists heading back items,
      body (handleDirectory cfg fs dirPath urlPath sent)
      = Listing urlPath heading back items
      /\ status (handleDirectory cfg fs dirPath urlPath sent) = 200
      /\ items
         = map (itemOf cfg urlPath)
             (ofClass cfg "directory" es ++ ofClass cfg "markdown" es
              ++ ofClass cfg "image" es ++ ofClass cfg "file" es)
      /\ Permutation items (map (itemOf cfg urlPath) es).
Proof.
  intros cfg fs dirPath urlPath sent H es.
  unfold handleDirectory. rewrite H. fold es.
  rewrite fold_pushEntry. cbn [directories markdownFiles imageFiles otherFiles
                                 app body status].
  eexists; eexists; eexists. split; [reflexivity|]. split; [reflexivity|].
  rewrite !map_app. split; [reflexivity|].
  rewrite <- !map_app. apply Permutation_map, classes_permutation.
Qed.

(** ** The links of the listing *)

Lemma requestedFile_path (root : Path) (pathname : string) :
  Forall (fun c => clean c = true) root ->
  prefix "/" pathname = true ->
  toPath (requestedFile root pathname)
  = root ++ normalizeString false (segments pathname).
Proof.
  intros Hr Hp.
  destruct (requestedFile_absolute root pathname Hr Hp) as [E N].
  rewrite E, toPath_normalize_absolute by apply prefix_render. exact N.
Qed.

Lemma prefix_slash_append (p s : string) :
  prefix "/" p = true -> prefix "/" (p ++ s) = true.
Proof.
  destruct p as [|c p]; [discriminate|]. cbn [prefix].
  destruct (ascii_dec "/" c) as [<-|]; [|discriminate].
  intros _. apply (prefix_slash (p ++ s)).
Qed.

(** The link to an entry [name] of the directory shown at [urlPath]. *)
Lemma join_entry (urlPath name : string) :
  prefix "/" urlPath = true -> clean name = true ->
  join urlPath name = normalize (urlPath ++ String "/" name)
  /\ normalizeString false (segments (urlPath ++ String "/" name))
     = normalizeString false (segments urlPath) ++ [name].
Proof.
  intros Hu Hn. split.
  - unfold join. rewrite (absolute_not_empty _ Hu).
    destruct (clean_not_special name Hn) as (-> & _). reflexivity.
  - unfold normalizeString, segments.
    rewrite split_slash_app, fold_left_app.
    rewrite (split_slash_free name "") by now apply clean_slash_free.
    cbn [append fold_left]. now apply normalizeStep_clean.
Qed.

(** Below the root every segment that is kept is one of the path. *)
Lemma normalizeString_keeps (P : string -> Prop) (segs res : list string) :
  Forall P segs -> Forall P res ->
  Forall P (fold_left (normalizeStep false) segs res).
Proof.
  revert res; induction segs as [|s segs IH]; intros res Hs Hr; [exact Hr|].
  inversion Hs; subst. cbn [fold_left]. apply IH; [assumption|].
  unfold normalizeStep.
  destruct ((s =? "")%string || (s =? ".")%string); [exact Hr|].
  destruct (s =? "..")%string.
  - destruct res as [|r res]; [constructor|].
    destruct (last (r :: res) "" =? "..")%string; [exact Hr|].
    now apply Forall_removelast.
  - apply Forall_app. split; [exact Hr | now repeat constructor].
Qed.

Lemma all_chars_append (p : ascii -> bool) (a b : string) :
  all_chars p (a ++ b) = all_chars p a && all_chars p b.
Proof.
  induction a as [|c a IH]; [reflexivity|].
  cbn [append all_chars]. now rewrite IH, andb_assoc.
Qed.


Lemma split_slash_all (p : ascii -> bool) (s acc : string) :
  all_chars p acc = true -> all_chars p s = true ->
  Forall (fun x => all_chars p x = true) (split_slash acc s).
Proof.
  revert acc; induction s as [|d s IH]; intros acc Ha Hs.
  - repeat constructor. exact Ha.
  - cbn [all_chars] in Hs. apply andb_prop in Hs as [Hd Hs].
    cbn [split_slash]. destruct (d =? "/")%char.
    + constructor; [exact Ha | now apply IH].
    + apply IH; [|exact Hs]. rewrite all_chars_append, Ha.
      cbn [all_chars]. now rewrite Hd.
Qed.

Lemma all_chars_concat (p : ascii -> bool) (l : list string) :
  p "/"%char = true ->
  Forall (fun x => all_chars p x = true) l ->
  all_chars p (String.concat "/" l) = true.
Proof.
  intros Hc. induction l as [|x l IH]; intros H; [reflexivity|].
  inversion H as [|y ys Hx Hl]; subst.
  destruct l as [|y l]; [exact Hx|].
  change (String.concat "/" (x :: y :: l))
    with (x ++ String "/" (String.concat "/" (y :: l)))%string.
  rewrite all_chars_append, Hx. cbn [all_chars andb]. rewrite Hc.
  now apply IH.
Qed.

(** The normal form of a path made of plain characters is made of plain
    characters. *)
Lemma all_chars_normalize (p : string) :
  prefix "/" p = true ->
  all_chars url_plain p = true ->
  all_chars url_plain (normalize p) = true.
Proof.
  intros Hp Ha. rewrite (normalize_absolute p Hp).
  assert (F : Forall (fun x => all_chars url_plain x = true)
                (normalizeString false (segments p))).
  { apply normalizeString_keeps; [|constructor].
    now apply split_slash_all. }
  destruct (normalizeString false (segments p)) as [|x n]; [reflexivity|].
  change (String "/" (String.concat "/" (x :: n)))
    with ("/" ++ String.concat "/" (x :: n))%string.
  rewrite !all_chars_append, (all_chars_concat url_plain (x :: n) eq_refl F).
  now destruct (ends_with "/" p).
Qed.

(** X15: a link of the listing leads to the entry it stands for: for a
    directory shown at an absolute path and an entry with a clean name,
    both made of letters, digits, [-], [.], [_] and [~] (and the
    separators of the path), the target of the link is decoded to itself,
    and the request for it is resolved to the entry of that name in the
    directory that the request for the listing was resolved to. *)
Theorem X15_listing_link_leads_to_entry :
  forall (cfg : Config) (root : Path) (urlPath : string) (file : Dirent),
    let target := href (itemOf cfg urlPath file) in
    Forall (fun c => clean c = true) root ->
    prefix "/" urlPath = true ->
    all_chars url_plain urlPath = true ->
    clean (name file) = true ->
    all_chars url_plain (name file) = true ->
    decodedPath target = Some target
    /\ toPath (requestedFile root target)
       = toPath (requestedFile root urlPath) ++ [name file].
Proof.
  intros cfg root urlPath file target Hr Hu Hua Hn Hna.
  unfold target. cbn [itemOf href].
  destruct (join_entry urlPath (name file) Hu Hn) as [J S].
  assert (A : prefix "/" (urlPath ++ String "/" (name file)) = true)
    by now apply prefix_slash_append.
  rewrite J. split.
  - unfold decodedPath.
    rewrite (prefix_normalize_absolute _ A), all_chars_normalize;
      [reflexivity | exact A |].
    rewrite all_chars_append, Hua. cbn [all_chars andb]. exact Hna.
  - rewrite !requestedFile_path
      by (assumption || now apply prefix_normalize_absolute).
    rewrite <- app_assoc. f_equal.
    pose proof (fold_segments_normalize _ [] A) as F.
    cbn [app] in F. unfold normalizeString at 1. rewrite F. exact S.
Qed.

(** ** The link to the parent directory (lines 110-113) *)

Lemma removelast_snoc (A : Type) (l : list A) (x : A) :
  removelast (l ++ [x]) = l.
Proof. rewrite removelast_app by congruence. cbn. apply app_nil_r. Qed.

Lemma concat_root (p : Path) :
  (let s := String.concat "/" ("" :: p) in
   if (s =? "")%string then "/" else s) = render p.
Proof.
  destruct p as [|x p]; [reflexivity|].
  rewrite (render_concat (x :: p)) by congruence. reflexivity.
Qed.

Lemma parentPath_render (p : Path) (n : string) :
  Forall (fun c => clean c = true) (p ++ [n]) ->
  parentPath (render (p ++ [n])) = render p
  /\ parentPath (render (p ++ [n]) ++ "/") = render (p ++ [n]).
Proof.
  intros H.
  assert (Hne : p ++ [n] <> []) by (destruct p; discriminate).
  unfold parentPath. split.
  - rewrite (segments_render _ Hne H).
    change ("" :: p ++ [n]) with (("" :: p) ++ [n]).
    rewrite removelast_snoc. apply concat_root.
  - pose proof (concat_root (p ++ [n])) as R.
    rewrite (render_concat _ Hne) in R |- *.
    rewrite (segments_normal (p ++ [n]) true Hne H).
    change ("" :: (p ++ [n]) ++ [""]) with (("" :: p ++ [n]) ++ [""]).
    rewrite removelast_snoc. exact R.
Qed.

(** X16: the listing of a directory shown at [/a/.../n] links back to
    [/a/...], the root for a directory directly under it; shown at
    [/a/.../n/], with a final separator, it links back to [/a/.../n],
    the directory itself. *)
Theorem X16_listing_back_link :
  forall (cfg : Config) (fs : FS) (dirPath : string)
         (sent : list (string * string)) (p : Path) (n : string),
    Forall (fun c => clean c = true) (p ++ [n]) ->
    lookup fs (toPath dirPath) = Some Directory ->
    (exists heading items,
       body (handleDirectory cfg fs dirPath (render (p ++ [n])) sent)
       = Listing (render (p ++ [n])) heading (Some (render p)) items)
    /\ (exists heading items,
          body (handleDirectory cfg fs dirPath (render (p ++ [n]) ++ "/") sent)
          = Listing (render (p ++ [n]) ++ "/") heading
              (Some (render (p ++ [n]))) items).
Proof.
  intros cfg fs dirPath sent p n H L.
  destruct (parentPath_render p n H) as [P1 P2].
  assert (Hne : p ++ [n] <> []) by (destruct p; discriminate).
  assert (C : (String.concat "/" (p ++ [n]) =? "")%string = false)
    by now apply concat_clean_not_empty.
  unfold handleDirectory. rewrite L, P1, P2. cbn [body].
  rewrite (render_concat _ Hne).
  assert (E1 : (String "/" (String.concat "/" (p ++ [n])) =? "/")%string
               = false).
  { cbn [String.eqb]. destruct (String.concat "/" (p ++ [n]));
      [discriminate | reflexivity]. }
  assert (E2 : (String "/" (String.concat "/" (p ++ [n])) ++ "/" =? "/")%string
               = false).
  { cbn [String.eqb append]. destruct (String.concat "/" (p ++ [n]));
      reflexivity. }
  rewrite E1, E2. split; eexists; eexists; reflexivity.
Qed.

(** ** Requests that are answered (lines 14-65 and 161-201) *)

Lemma split_slash_keeps (c : ascii) (s acc : string) :
  has_char c acc = false -> has_char c s = false ->
  Forall (fun x => has_char c x = false) (split_slash acc s).
Proof.
  revert acc; induction s as [|d s IH]; intros acc Ha Hs.
  - repeat constructor. exact Ha.
  - cbn [has_char] in Hs. apply orb_false_elim in Hs as [Hd Hs].
    cbn [split_slash]. destruct (d =? "/")%char.
    + constructor; [exact Ha | now apply IH].
    + apply IH; [|exact Hs]. rewrite has_char_append, Ha. cbn [has_char].
      now rewrite Hd.
Qed.

Lemma has_char_concat (c : ascii) (l : list string) :
  ("/" =? c)%char = false ->
  Forall (fun x => has_char c x = false) l ->
  has_char c (String.concat "/" l) = false.
Proof.
  intros Hc. induction l as [|x l IH]; intros H; [reflexivity|].
  inversion H as [|y ys Hx Hl]; subst.
  destruct l as [|y l]; [exact Hx|].
  change (String.concat "/" (x :: y :: l))
    with (x ++ String "/" (String.concat "/" (y :: l)))%string.
  rewrite has_char_append, Hx. cbn [has_char orb]. rewrite Hc.
  now apply IH.
Qed.

(** The file of a request, as a string. *)
Lemma requestedFile_string (root : Path) (pathname : string) :
  Forall (fun c => clean c = true) root ->
  prefix "/" pathname = true ->
  requestedFile root pathname
  = match root ++ normalizeString false (segments pathname) with
    | [] => "/"
    | n => (String "/" (String.concat "/" n)
            ++ (if ends_with "/"
                     (render root ++ String "/" (normalize pathname))
                then "/" else ""))%string
    end.
Proof.
  intros Hr Hp.
  destruct (requestedFile_absolute root pathname Hr Hp) as [E N].
  rewrite E, normalize_absolute by apply prefix_render.
  now rewrite N.
Qed.

(** A request path without null character names a file without one. *)
Lemma requestedFile_no_null (root : Path) (pathname : string) :
  Forall (fun c => clean c = true) root ->
  Forall (fun c => has_char zero c = false) root ->
  prefix "/" pathname = true ->
  has_char zero pathname = false ->
  has_char zero (requestedFile root pathname) = false.
Proof.
  intros Hr Hz Hp Hn. rewrite (requestedFile_string root pathname Hr Hp).
  assert (F : Forall (fun c => has_char zero c = false)
                (root ++ normalizeString false (segments pathname))).
  { apply Forall_app. split; [exact Hz|].
    apply normalizeString_keeps; [|constructor].
    now apply split_slash_keeps. }
  destruct (root ++ normalizeString false (segments pathname)) as [|x n];
    [reflexivity|].
  rewrite has_char_append. cbn [has_char].
  replace ("/" =? zero)%char with false by reflexivity. cbn [orb].
  rewrite has_char_concat by (reflexivity || exact F).
  now destruct (ends_with "/" _).
Qed.

Lemma stat_file (fs : FS) (p : string) :
  stat fs p = IsFile -> exists data, lookup fs (toPath p) = Some (File data).
Proof.
  unfold stat. destruct (file_on_the_way fs [] _); [discriminate|].
  destruct (lookup fs (toPath p)) as [[data|]|]; try discriminate.
  intros _. now exists data.
Qed.

(** X17: a request whose path begins with [/] and holds no null
    character is answered, whatever the method, the file system and the
    configuration: the handler returns a response and throws nothing.
    In the file system of this development a file that exists can be
    read, so that the stream of [handleFile] does not fail. *)
Theorem X17_request_is_answered :
  forall (cfg : Config) (root : Path)
         (renderMarkdown : string -> string -> string) (fs : FS)
         (method pathname : string),
    Forall (fun c => clean c = true) root ->
    Forall (fun c => has_char zero c = false) root ->
    prefix "/" pathname = true ->
    has_char zero pathname = false ->
    exists r : response,
      handleRequest cfg root renderMarkdown fs method pathname = Return r.
Proof.
  intros cfg root rm fs method pathname Hr Hz Hp Hn.
  unfold handleRequest.
  destruct (enabled (cors cfg) && (method =? "OPTIONS")%string);
    [eexists; reflexivity|].
  rewrite (requestedFile_no_null root pathname Hr Hz Hp Hn).
  destruct (stat fs (requestedFile root pathname)) as [| |code] eqn:S.
  - destruct (enableDirectoryListing cfg); eexists; reflexivity.
  - destruct (stat_file _ _ S) as [data L]. unfold handleFile. rewrite L.
    destruct (_ && renderMarkdownEnabled cfg); eexists; reflexivity.
  - destruct (code =? "ENOENT")%string; eexists; reflexivity.
Qed.

(** ** Files below the root (lines 34-38) *)









(** ** Headers of the answers *)

Lemma property_markdown (ext : string) :
  property (mimeTypes config) ext = Some "text/markdown" -> ext = ".md".
Proof.
  cbn [config mimeTypes property].
  repeat (match goal with
          | |- context [(?k =? ext)%string] =>
              destruct (k =? ext)%string eqn:Q;
              [intros H; try discriminate H;
               apply String.eqb_eq in Q; now subst | clear Q]
          end).
  discriminate.
Qed.

Lemma contentType_markdown (ext : string) :
  match property (mimeTypes config) ext with
  | Some t => t
  | None => "application/octet-stream"
  end = "text/markdown" ->
  ext = ".md".
Proof.
  intros H. apply property_markdown.
  destruct (property (mimeTypes config) ext); [now rewrite H | discriminate H].
Qed.

(** X19: with the shipped configuration no answer has the content type
    [text/markdown]: a file with the extension [.md], in any letter case,
    is rendered and sent as HTML, so that the entry of [.md] in the table
    of content types is never used. *)
Theorem X19_markdown_type_never_sent :
  forall (root : Path) (renderMarkdown : string -> string -> string)
         (fs : FS) (method pathname : string) (r : response),
    handleRequest config root renderMarkdown fs method pathname = Return r ->
    ~ In ("Content-Type", "text/markdown") (headers r).
Proof.
  intros root rm fs method pathname r. unfold handleRequest.
  cbn [config cors enabled andb allowOrigin allowMethods allowHeaders
       enableDirectoryListing].
  set (sent := [("Access-Control-Allow-Origin", "*"); _; _]).
  assert (HS : forall rest,
             ~ In ("Content-Type", "text/markdown") rest ->
             ~ In ("Content-Type", "text/markdown") (sent ++ rest)).
  { intros rest N I. apply in_app_or in I as [I|I]; [|now apply N].
    unfold sent in I. cbn [In] in I.
    destruct I as [I|[I|[I|[]]]]; discriminate I. }
  assert (HT : ~ In ("Content-Type", "text/markdown") [htmlType]).
  { intros [I|[]]. discriminate I. }
  destruct (method =? "OPTIONS")%string.
  { intros [= <-]. cbn [headers]. rewrite <- (app_nil_r sent).
    apply HS. intros []. }
  destruct (has_char zero _); [discriminate|].
  destruct (stat fs _) as [| |code].
  - intros [= <-]. unfold handleDirectory.
    destruct (lookup fs _) as [[data|]|]; cbn [headers]; apply HS;
      try exact HT.
    intros [I|[I|[]]]; discriminate I.
  - unfold handleFile. cbn [renderMarkdownEnabled config cacheControl].
    rewrite andb_true_r.
    destruct (toLowerCase _ =? ".md")%string eqn:E.
    + destruct (lookup fs _) as [[data|]|]; intros [= <-]; cbn [headers];
        apply HS; try exact HT.
      intros [I|[I|[]]]; discriminate I.
    + destruct (lookup fs _) as [[data|]|]; try discriminate.
      intros [= <-]. cbn [headers]. apply HS.
      intros [I|[I|[]]]; [|discriminate I].
      injection I as I. apply String.eqb_neq in E. apply E.
      apply contentType_markdown. exact I.
  - destruct (code =? "ENOENT")%string; intros [= <-]; cbn [headers];
      apply HS; exact HT.
Qed.

(** X20: every answer begins with the three headers of the settings for
    cross-origin requests when these are enabled, and has none of them
    when they are not; the other headers are the content type and, on the
    answers with a listing or a file, the cache control. *)
Theorem X20_cors_headers_on_every_answer :
  forall (cfg : Config) (root : Path)
         (renderMarkdown : string -> string -> string)
         (fs : FS) (method pathname : string) (r : response),
    handleRequest cfg root renderMarkdown fs method pathname = Return r ->
    exists rest : list (string * string),
      headers r
      = (if enabled (cors cfg) then
           [ ("Access-Control-Allow-Origin", allowOrigin (cors cfg));
             ("Access-Control-Allow-Methods", allowMethods (cors cfg));
             ("Access-Control-Allow-Headers", allowHeaders (cors cfg)) ]
         else []) ++ rest
      /\ Forall (fun h => fst h = "Content-Type" \/ fst h = "Cache-Control")
           rest
      /\ (status r = 200 <-> In ("Cache-Control", cacheControl cfg) rest).
Proof.
  intros cfg root rm fs method pathname r. unfold handleRequest.
  set (sent := if enabled (cors cfg) then _ else []).
  assert (N : forall t, ~ In ("Cache-Control", cacheControl cfg)
                          [("Content-Type", t)]).
  { intros t [I|[]]. discriminate I. }
  assert (Y : forall t, In ("Cache-Control", cacheControl cfg)
                          [("Content-Type", t);
                           ("Cache-Control", cacheControl cfg)]).
  { intros t. right. now left. }
  assert (A : forall (code : nat) (rest : list (string * string)) (b : page),
             Forall (fun h => fst h = "Content-Type"
                              \/ fst h = "Cache-Control") rest ->
             (code = 200 <-> In ("Cache-Control", cacheControl cfg) rest) ->
             exists rest0,
               headers (mkResponse code (sent ++ rest) b) = sent ++ rest0
               /\ Forall (fun h => fst h = "Content-Type"
                                   \/ fst h = "Cache-Control") rest0
               /\ (status (mkResponse code (sent ++ rest) b) = 200
                   <-> In ("Cache-Control", cacheControl cfg) rest0)).
  { intros code rest b F C. now exists rest. }
  assert (F1 : Forall (fun h : string * string =>
                         fst h = "Content-Type" \/ fst h = "Cache-Control")
                 [htmlType]) by (repeat constructor; now left).
  assert (F2 : forall t,
             Forall (fun h : string * string =>
                       fst h = "Content-Type" \/ fst h = "Cache-Control")
               [("Content-Type", t); ("Cache-Control", cacheControl cfg)])
    by (intros t; repeat constructor; cbn; auto).
  assert (E : forall code, code <> 200 ->
                (code = 200 <-> In ("Cache-Control", cacheControl cfg)
                                  [htmlType])).
  { intros code D. split; [congruence | intros I; now apply N in I]. }
  assert (K : forall t,
             200 = 200 <-> In ("Cache-Control", cacheControl cfg)
                             [("Content-Type", t);
                              ("Cache-Control", cacheControl cfg)])
    by (intros t; split; auto).
  destruct (enabled (cors cfg) && (method =? "OPTIONS")%string).
  { intros [= <-]. exists []. cbn [headers status].
    rewrite app_nil_r. repeat split; try constructor.
    - discriminate.
    - intros []. }
  destruct (has_char zero _); [discriminate|].
  destruct (stat fs _) as [| |code].
  - destruct (enableDirectoryListing cfg); intros [= <-].
    + unfold handleDirectory.
      destruct (lookup fs _) as [[data|]|]; apply A;
        solve [apply F1 | apply F2 | apply K | apply E; discriminate].
    + apply A; [apply F1 | apply E; discriminate].
  - unfold handleFile.
    destruct (_ && renderMarkdownEnabled cfg);
      destruct (lookup fs _) as [[data|]|]; try discriminate;
      intros [= <-]; apply A;
      solve [apply F1 | apply F2 | apply K | apply E; discriminate].
  - destruct (code =? "ENOENT")%string; intros [= <-]; apply A;
      solve [apply F1 | apply E; discriminate].
Qed.

(** ** The served root (line 9) *)

Lemma path_join_clean (dir : Path) (name : string) :
  has_char "/" name = false ->
  Forall (fun c => clean c = true) dir ->
  Forall (fun c => clean c = true) (path_join dir name).
Proof.
  intros Hn Hd. unfold path_join.
  destruct (name =? "")%string eqn:E1; [exact Hd|].
  destruct (name =? ".")%string eqn:E2; [exact Hd|]. cbn [orb].
  destruct (name =? "..")%string eqn:E3; [now apply Forall_removelast|].
  apply Forall_app. split; [exact Hd|]. repeat constructor.
  unfold clean, plain. now rewrite E1, E2, E3, Hn.
Qed.

Lemma fold_path_join_clean (segs : list string) (dir : Path) :
  Forall (fun c => has_char "/" c = false) segs ->
  Forall (fun c => clean c = true) dir ->
  Forall (fun c => clean c = true) (fold_left path_join segs dir).
Proof.
  revert dir; induction segs as [|s segs IH]; intros dir Hs Hd; [exact Hd|].
  inversion Hs; subst. cbn [fold_left]. apply IH; [assumption|].
  now apply path_join_clean.
Qed.

Lemma resolve_clean (cwd : Path) (p : string) :
  Forall (fun c => clean c = true) cwd ->
  Forall (fun c => clean c = true) (resolve cwd p).
Proof.
  intros H. unfold resolve. apply fold_path_join_clean.
  - now apply split_slash_segments_free.
  - destruct (prefix "/" p); [constructor | exact H].
Qed.

(** X21: the root of the served tree is a path of clean components,
    whatever the argument of the command line: no component is empty,
    [.] or [..], or holds a separator; without an argument, or with an
    empty one, it is the directory [output] of the working directory. *)
Theorem X21_served_root :
  forall (cwd : Path) (arg : option string),
    Forall (fun c => clean c = true) cwd ->
    Forall (fun c => clean c = true) (ROOT_DIR cwd arg)
    /\ ROOT_DIR cwd None = cwd ++ ["output"]
    /\ ROOT_DIR cwd (Some "") = cwd ++ ["output"].
Proof.
  intros cwd arg H. split; [|split; reflexivity].
  unfold ROOT_DIR. now apply resolve_clean.
Qed.

End ServerFacts.

(* ================================================================= *)
(** * Examples of the further properties *)

(** The Markdown file of [report] is rewritten. *)
Lemma X1_replaceImagePaths_rewrites_witness :
  exists fs',
    replaceImagePaths ["out"; "report"; "report.md"] "report"
      (start served_fs)
    = (Return true,
       mkWorld fs' [LogUpdated ["out"; "report"; "report.md"]] [])
    /\ lookup fs' ["out"; "report"; "report.md"]
       = Some (File "![](http://localhost:3000/report/_page_3.jpeg)").
Proof.
  destruct (X1_replaceImagePaths_rewrites ["out"; "report"; "report.md"]
              "report" "![](_page_3.jpeg)" (start served_fs)
              eq_refl eq_refl)
    as (fs' & E & L & _).
  exists fs'. split; [exact E | rewrite L; reflexivity].
Defined.

(** There is no file [missing.md]. *)
Lemma X2_replaceImagePaths_failure_witness :
  exists message,
    replaceImagePaths ["out"; "report"; "missing.md"] "report"
      (start served_fs)
    = (Return false, mkWorld served_fs [LogReplaceFailed message] []).
Proof.
  apply (X2_replaceImagePaths_failure ["out"; "report"; "missing.md"]
           "report" (start served_fs)).
  intros c H. vm_compute in H. discriminate H.
Defined.

(** The folder of [report] holds two Markdown files. *)
Lemma X5_processMarkdownFiles_rewrites_each_witness :
  exists w',
    processMarkdownFiles ["out"; "report"] "report" (start served_fs)
    = (Return true, w')
    /\ lookup (files w') ["out"; "report"; "report.md"]
       = Some (File "![](http://localhost:3000/report/_page_3.jpeg)").
Proof.
  destruct (X5_processMarkdownFiles_rewrites_each ["out"; "report"]
              "report" "report.md" "![](_page_3.jpeg)" (start served_fs))
    as (w' & E & L).
  - reflexivity.
  - vm_compute. repeat constructor; simpl; intuition discriminate.
  - vm_compute. left. reflexivity.
  - reflexivity.
  - reflexivity.
  - exists w'. split; [exact E | exact L].
Defined.

(** The converter writes [report.md] into the folder of [report]. *)
Lemma X6_processPdf_rewrites_output_witness :
  exists w',
    processPdf (marker never) ["in"; "report.pdf"] ["out"] (start one_fs)
    = (Return true, w')
    /\ lookup (files w') ["out"; "report"; "report.md"]
       = Some (File "![alt](http://localhost:3000/report/_page_3.jpeg)").
Proof.
  destruct (X6_processPdf_rewrites_output (marker never)
              ["in"; "report.pdf"] ["out"] "report.md"
              "![alt](_page_3.jpeg)" (start one_fs))
    as (w' & E & L).
  - reflexivity.
  - reflexivity.
  - reflexivity.
  - vm_compute. repeat constructor; simpl; intuition discriminate.
  - vm_compute. left. reflexivity.
  - reflexivity.
  - reflexivity.
  - exists w'. split; [exact E | exact L].
Defined.

(** One launch for [report.pdf], with a converter that fails. *)
Lemma X7_processPdf_one_launch_no_creation_witness :
  exists b w',
    processPdf (marker always) ["in"; "report.pdf"] ["out"] (start one_fs)
    = (Return b, w')
    /\ launches (console w')
       = [("marker_single", ["/in/report.pdf"; "--output_dir"; "/out"])].
Proof.
  destruct (X7_processPdf_one_launch_no_creation (marker always)
              ["in"; "report.pdf"] ["out"] (start one_fs) eq_refl)
    as (b & w' & E & L & _).
  exists b, w'. split; [exact E | exact L].
Defined.

(** A run on three candidates, one of them converted before, with a
    converter that cannot be launched. *)
Lemma X8_run_launches_and_counts_witness :
  exists w' done s k f l,
    processAllPdfs [] marker_missing "/in" "/out" (start sample_fs)
    = (Return tt, w')
    /\ console w' = l ++ [LogSummary s k f]
    /\ console (atExit w') = (l ++ [LogSummary s k f]) ++ queued w'
    /\ Forall exitLine (queued w')
    /\ s + k + f = 3
    /\ subseq done ["a.pdf"; "bad.pdf"; "c.pdf"]
    /\ length done = s + f
    /\ launches (console (atExit w'))
       = map (launchOf ["in"] ["out"]) done.
Proof.
  exact (X8_run_launches_and_counts [] marker_missing "/in" "/out"
           (start sample_fs) (start sample_fs)
           eq_refl eq_refl eq_refl (le_S _ _ (le_S _ _ (le_n 1)))).
Defined.

(** The input path is a regular file and the output directory is
    missing. *)
Lemma X9_run_errors_are_logged_witness :
  processAllPdfs [] (marker never) "/in/report.pdf" "/out" (start one_fs)
  = (Return tt,
     mkWorld (mkFS (nodes one_fs ++ [(["out"], Directory)]) [])
       [LogCreatedOutputDir ["out"]; LogRunError "ENOTDIR"] []).
Proof.
  destruct (X9_run_errors_are_logged [] (marker never) "/in/report.pdf"
              "/out" (start one_fs)) as (_ & H & _).
  destruct H as [H _]; [now exists "%PDF" | reflexivity..| exact H].
Defined.

Lemma X11_key_round_trip_witness :
  (basename "report.pdf" ".pdf" ++ ".pdf")%string = "report.pdf"
  /\ (basename "report.pdf" ".pdf" = basename "paper.pdf" ".pdf" ->
      "report.pdf" = "paper.pdf").
Proof.
  apply (X11_key_round_trip "report.pdf" "paper.pdf"); reflexivity.
Defined.

Lemma X12_rewriting_twice_doubles_witness :
  replaceContent "report" (replaceContent "report" "![](_page_3.jpeg)")
  = "![](http://localhost:3000/report/http://localhost:3000/report/_page_3.jpeg)".
Proof.
  assert (N : "_3" <> "") by discriminate.
  exact (X12_rewriting_twice_doubles "report" "![](" "_3" ")"
           eq_refl eq_refl N eq_refl (or_intror eq_refl)).
Defined.

(** A request that tries to leave the root. *)
Lemma X13_request_stays_under_root_witness :
  Server.toPath (Server.requestedFile ["out"] "/../../etc/passwd")
  = ["out"; "etc"; "passwd"]
  /\ is_under ["out"]
       (Server.toPath (Server.requestedFile ["out"] "/../../etc/passwd")) = true.
Proof.
  apply (ServerFacts.X13_request_stays_under_root ["out"]
           "/../../etc/passwd").
  - repeat constructor.
  - reflexivity.
Defined.

(** The listing of the folder of [report]. *)
Lemma X14_listing_groups_entries_witness :
  exists heading back items,
    Server.body
      (Server.handleDirectory Server.config served_fs "/out/report"
         "/report/" [])
    = Server.Listing "/report/" heading back items
    /\ map Server.label items
       = ["sub"; "report.md"; "notes.MD"; "_page_3.jpeg"; "a.png"; "z.bin"].
Proof.
  destruct (ServerFacts.X14_listing_groups_entries Server.config served_fs
              "/out/report" "/report/" [] eq_refl)
    as (heading & back & items & E & _ & I & _).
  exists heading, back, items. split; [exact E|].
  rewrite I. reflexivity.
Defined.

Lemma X15_listing_link_leads_to_entry_witness :
  Server.decodedPath "/report/report.md" = Some "/report/report.md"
  /\ Server.toPath (Server.requestedFile ["out"] "/report/report.md")
     = Server.toPath (Server.requestedFile ["out"] "/report/")
       ++ ["report.md"].
Proof.
  apply (ServerFacts.X15_listing_link_leads_to_entry Server.config ["out"]
           "/report/" (Server.mkDirent "report.md" false)).
  - repeat constructor.
  - reflexivity.
  - reflexivity.
  - reflexivity.
  - reflexivity.
Defined.

(** The folder of [report], shown at [/report] and at [/report/]. *)
Lemma X16_listing_back_link_witness :
  (exists heading items,
     Server.body
       (Server.handleDirectory Server.config served_fs "/out/report"
          "/report" [])
     = Server.Listing "/report" heading (Some "/") items)
  /\ (exists heading items,
        Server.body
          (Server.handleDirectory Server.config served_fs "/out/report"
             "/report/" [])
        = Server.Listing "/report/" heading (Some "/report") items).
Proof.
  apply (ServerFacts.X16_listing_back_link Server.config served_fs
           "/out/report" [] [] "report").
  - repeat constructor.
  - reflexivity.
Defined.

Lemma X17_request_is_answered_witness :
  exists r : Server.response,
    Server.handleRequest Server.config ["out"] plainRenderer served_fs
      "GET" "/report/../nothing"
    = Return r.
Proof.
  apply (ServerFacts.X17_request_is_answered Server.config ["out"]
           plainRenderer served_fs "GET" "/report/../nothing").
  - repeat constructor.
  - repeat constructor.
  - reflexivity.
  - reflexivity.
Defined.


(** A Markdown file is sent as HTML. *)
Lemma X19_markdown_type_never_sent_witness :
  exists r : Server.response,
    Server.handleRequest Server.config ["out"] plainRenderer served_fs
      "GET" "/report/notes.MD"
    = Return r
    /\ ~ In ("Content-Type", "text/markdown") (Server.headers r).
Proof.
  eexists. split.
  - vm_compute. reflexivity.
  - apply (ServerFacts.X19_markdown_type_never_sent ["out"] plainRenderer
             served_fs "GET" "/report/notes.MD").
    vm_compute. reflexivity.
Defined.

(** A missing file: the answer has the headers for cross-origin
    requests and no cache control. *)
Lemma X20_cors_headers_on_every_answer_witness :
  exists (r : Server.response) (rest : list (string * string)),
    Server.handleRequest Server.config ["out"] plainRenderer served_fs
      "GET" "/nothing"
    = Return r
    /\ Server.headers r
       = [ ("Access-Control-Allow-Origin", "*");
           ("Access-Control-Allow-Methods", "GET, HEAD, OPTIONS");
           ("Access-Control-Allow-Headers", "Content-Type") ] ++ rest
    /\ (Server.status r = 200
        <-> In ("Cache-Control", "max-age=3600") rest).
Proof.
  eexists.
  assert (E : Server.handleRequest Server.config ["out"] plainRenderer
                served_fs "GET" "/nothing"
              = Return
                  (Server.mkResponse 404
                     [ ("Access-Control-Allow-Origin", "*");
                       ("Access-Control-Allow-Methods", "GET, HEAD, OPTIONS");
                       ("Access-Control-Allow-Headers", "Content-Type");
                       Server.htmlType ]
                     (Server.NotFound "/nothing")))
    by reflexivity.
  destruct (ServerFacts.X20_cors_headers_on_every_answer Server.config
              ["out"] plainRenderer served_fs "GET" "/nothing" _ E)
    as (rest & H & _ & S).
  exists rest. split; [exact E|]. split; [exact H | exact S].
Defined.

Lemma X21_served_root_witness :
  Forall (fun c => clean c = true)
    (Server.ROOT_DIR ["srv"] (Some "../data/./out"))
  /\ Server.ROOT_DIR ["srv"] None = ["srv"; "output"]
  /\ Server.ROOT_DIR ["srv"] (Some "") = ["srv"; "output"].
Proof.
  apply (ServerFacts.X21_served_root ["srv"] (Some "../data/./out")).
  repeat constructor.
Defined.


(** The folder of [c] exists: no process is launched for [c.pdf]. *)
Lemma X22_skip_before_launch_witness :
  processPdf (marker never) ["in"; "c.pdf"] ["out"] (start sample_fs)
  = (Return true, mkWorld sample_fs [LogSkip "c"] [])
  /\ launches [LogSkip "c"] = [].
Proof.
  destruct (X22_skip_before_launch (marker never) ["in"] ["out"]
              ["in"; "c.pdf"] ["out"] "c.pdf" [] (mkCounts 0 0 0)
              (start sample_fs)) as [H _].
  exact (H eq_refl).
Defined.

(** The converter fails on [a.pdf] after it has made the folder [a]:
    the folder is removed and the folder of [c] is as it was.  In
    [locked_fs] the folder of [report] cannot be removed: the document
    fails all the same, and the folder of [other] is as it was. *)
Lemma X23_failed_cleanup_witness :
  (exists w',
     processPdf (marker always) ["in"; "a.pdf"] ["out"] (start sample_fs)
     = (Return false, w')
     /\ lookup (files w') ["out"; "c"] = Some Directory
     /\ lookup (files w') ["out"; "a"] = None)
  /\ (exists w',
        processPdf (marker always) ["in"; "report.pdf"] ["out"]
          (start locked_fs)
        = (Return false, w')
        /\ lookup (files w') ["out"; "other"; "other.md"] = Some (File "x")).
Proof.
  split.
  - destruct (X23_failed_cleanup (marker always) ["in"; "a.pdf"] ["out"]
                (start sample_fs) eq_refl eq_refl)
      as (w' & Hrun & Hout & _ & _ & Hdel & _).
    exists w'. split; [exact Hrun|]. split.
    + rewrite Hout by reflexivity. reflexivity.
    + apply Hdel; reflexivity.
  - destruct (X23_failed_cleanup (marker always) ["in"; "report.pdf"]
                ["out"] (start locked_fs) eq_refl eq_refl)
      as (w' & Hrun & Hout & _).
    exists w'. split; [exact Hrun|].
    rewrite Hout by reflexivity. reflexivity.
Defined.
